(** * LoopOptimizer: loop-point scoring and transition selection

    A shallow embedding of the loop analysis code of the LoopOptimizer
    media tool, and the properties of its written specification that can
    be stated over it.

    Conventions of the embedding.
    - A JavaScript number is an exact rational ([Q]); the rounding of IEEE
      doubles is idealised away.  The one division of the modelled code
      whose divisor can be zero goes through [Js.div], which has the
      values [Infinity] and [NaN].  Equalities between numbers are stated
      with [==] unless the code copies the very same value.
    - A JavaScript array is a [list]; reading an index that is not there
      gives [None] (the source's [undefined]).
    - A function that can [throw] returns a [Js.Result].
    - Calls to outside services (the Gemini client, the clock) are
      arguments of the functions that make them. *)

From Stdlib Require Import QArith Qabs Qminmax Qround Lqa Lia.
From Stdlib Require Import Sorted Permutation.
From stdpp Require Import base list strings pretty.

Local Open Scope Q_scope.

(** ** JavaScript helpers *)

Module Js.

(** [throw new Error(message)] against a normal return. *)
Inductive Result (A : Type) : Type :=
| Ok (a : A)
| Throw (message : string).
Arguments Ok {A} a.
Arguments Throw {A} message.

(** One statement after another: what is thrown by the first ends the
    block. *)
Definition bind {A B : Type} (r : Result A) (f : A -> Result B) : Result B :=
  match r with
  | Ok a => f a
  | Throw message => Throw message
  end.

(** The result of a division: a finite number, an infinity or [NaN]. *)
Inductive Number : Type :=
| Finite (q : Q)
| Infinity (positive : bool)
| NaN.

(** A loop counter or a length used as a number. *)
Definition num (n : nat) : Q := inject_Z (Z.of_nat n).

(** [a / b], the divisor being [+0] when it is zero. *)
Definition div (a b : Q) : Number :=
  if Qeq_bool b 0 then
    if Qeq_bool a 0 then NaN else Infinity (Qle_bool 0 a)
  else Finite (a / b).

(** [Math.min] and [Math.max] on two numbers, [Math.abs]. *)
Definition Math_min (a b : Q) : Q := Qmin a b.
Definition Math_max (a b : Q) : Q := Qmax a b.
Definition Math_abs (a : Q) : Q := Qabs a.

(** [Math.floor] of a number that is not negative, as a count. *)
Definition Math_floor (a : Q) : nat := Z.to_nat (Qfloor a).

(** [Math.round]: the nearest integer, halves going up. *)
Definition Math_round (a : Q) : Z := Qfloor (a + (1 # 2)).

(** [a > b] on numbers. *)
Definition gt (a b : Q) : bool :=
  match Qcompare a b with
  | Gt => true
  | _ => false
  end.

(** [s || default] on a string that may be missing: a missing or empty
    string is falsy. *)
Definition or_default (s : option string) (default : string) : string :=
  match s with
  | Some EmptyString => default
  | Some s' => s'
  | None => default
  end.

(** [Array.prototype.sort(compareFn)].  The sort is stable (ECMAScript
    2019): elements that compare equal keep their order.  With a
    comparator that is a consistent order, as [b.score - a.score] is,
    every stable sort returns the same array; insertion from the right
    is the one written here.  [x] goes after [y] exactly when
    [compareFn x y > 0]. *)
Fixpoint sortInsert {A : Type} (compareFn : A -> A -> Q) (x : A)
  (sorted : list A) : list A :=
  match sorted with
  | [] => [x]
  | y :: rest =>
      if gt (compareFn x y) 0 then y :: sortInsert compareFn x rest
      else x :: y :: rest
  end.

Definition Array_sort {A : Type} (compareFn : A -> A -> Q) (l : list A)
  : list A :=
  foldr (sortInsert compareFn) [] l.

(** [Array.prototype.slice(start, end)]: a negative index counts from
    the end, indices are clamped to the array, and a missing [end] is
    the length. *)
Definition slice {A : Type} (l : list A) (start : Z) (stop : option Z)
  : list A :=
  let len := Z.of_nat (length l) in
  let relative (x : Z) :=
    if (x <? 0)%Z then Z.max (len + x) 0 else Z.min x len in
  let k := relative start in
  let final :=
    match stop with
    | Some e => relative e
    | None => len
    end in
  take (Z.to_nat (final - k)) (drop (Z.to_nat k) l).

(** An array that may have holes: [None] is a place that reads
    [undefined].  [l[i] = v] grows the array when [i] is past its end,
    leaving holes in between. *)
Definition assign {A : Type} (l : list (option A)) (i : nat) (v : A)
  : list (option A) :=
  if (i <? length l)%nat then <[i := Some v]> l
  else l ++ replicate (i - length l) None ++ [Some v].

(** [l[i]] on an array that may have holes. *)
Definition at_index {A : Type} (l : list (option A)) (i : nat) : option A :=
  match l !! i with
  | Some v => v
  | None => None
  end.

(** [s.startsWith(p)] and [s.includes(sub)]. *)
Definition startsWith (s p : string) : bool := String.prefix p s.

Fixpoint includes (s sub : string) : bool :=
  String.prefix sub s
  || match s with
     | EmptyString => false
     | String _ rest => includes rest sub
     end.

(** [a || b] on a number that may be missing: [undefined], [0] (and
    [NaN]) are falsy. *)
Definition num_or (a : option Q) (b : Q) : Q :=
  match a with
  | Some x => if Qeq_bool x 0 then b else x
  | None => b
  end.

(** Strings are over the code units below 256 (one [ascii] each).
    [toLowerCase] on them: the letters [A]-[Z] and the capital letters
    of the Latin-1 block move 32 places up, everything else stays. *)
Definition lowerCode (c : Ascii.ascii) : Ascii.ascii :=
  let n := Ascii.nat_of_ascii c in
  if ((65 <=? n) && (n <=? 90))%nat
     || ((192 <=? n) && (n <=? 222) && negb (n =? 215))%nat
  then Ascii.ascii_of_nat (n + 32)
  else c.

Fixpoint toLowerCase (s : string) : string :=
  match s with
  | EmptyString => EmptyString
  | String c rest => String (lowerCode c) (toLowerCase rest)
  end.

(** [s.split('.').pop()]: what follows the last dot (code 46), the
    whole string when there is none.  [segment] is the piece being read, in reverse
    order of arrival. *)
Fixpoint lastSegmentFrom (segment s : string) : string :=
  match s with
  | EmptyString => segment
  | String c rest =>
      if Ascii.eqb c (Ascii.ascii_of_nat 46) then lastSegmentFrom EmptyString rest
      else lastSegmentFrom (segment +:+ String c EmptyString) rest
  end.

Definition lastSegment (s : string) : string := lastSegmentFrom EmptyString s.

End Js.

(** ** The loop analyzer (class [LoopAnalyzer]) *)

Module Analyzer.

(** A decoded frame as [_extractVideoFrames] builds it. *)
Record Frame : Type := mkFrame {
  index : nat;
  timestamp : Q;
  histogram : list Z;
  motionMagnitude : Q
}.

(** [this.audioBuffer]. *)
Record AudioBuffer : Type := mkAudioBuffer {
  sampleRate : Q;
  audioDuration : Q;
  channels : nat
}.

(** [Array<Array<number>>]. *)
Abbreviation Matrix := (list (list Q)).

(** [matrix[i][j]], [None] when the cell does not exist. *)
Definition cell (matrix : Matrix) (i j : nat) : option Q :=
  match matrix !! i with
  | Some row => row !! j
  | None => None
  end.

(** [matrix[i][j] = v] for a cell that exists.  Every write of the
    matrix builder is inside the [frameCount] x [frameCount] array it
    allocated, so the growth of a JavaScript array on a write past its
    end never happens there. *)
Definition setCell (i j : nat) (v : Q) (matrix : Matrix) : Matrix :=
  alter (fun row => <[j := v]> row) i matrix.

(** *** [_calculateSimilarityMatrix] *)

(** [1 - (Math.abs(i - j) / frameCount)]. *)
Definition similarityOf (frameCount i j : nat) : Q :=
  1 - Js.Math_abs (Js.num i - Js.num j) / Js.num frameCount.

(** The body of the inner loop at [(i, j)]. *)
Definition cellStep (frameCount i j : nat) (matrix : Matrix) : Matrix :=
  if (i =? j)%nat then setCell i j 1 matrix
  else
    let similarity := similarityOf frameCount i j in
    setCell j i similarity (setCell i j similarity matrix).

(** [for (let j = i; j < frameCount; j++)]. *)
Definition rowLoop (frameCount i : nat) (matrix : Matrix) : Matrix :=
  foldl (fun m j => cellStep frameCount i j m) matrix
        (seq i (frameCount - i)).

(** [for (let i = 0; i < frameCount; i++)]. *)
Definition matrixLoop (frameCount : nat) (matrix : Matrix) : Matrix :=
  foldl (fun m i => rowLoop frameCount i m) matrix (seq 0 frameCount).

(** [Array(frameCount).fill().map(() => Array(frameCount).fill(0))]:
    the rows are distinct arrays. *)
Definition zeros (frameCount : nat) : Matrix :=
  replicate frameCount (replicate frameCount 0).

(** [this.frameBuffer] is [None] when it is null. *)
Definition calculateSimilarityMatrix (frameBuffer : option (list Frame))
  : Matrix :=
  match frameBuffer with
  | None => []
  | Some frames =>
      if (length frames =? 0)%nat then []
      else
        let frameCount := length frames in
        matrixLoop frameCount (zeros frameCount)
  end.

(** *** [_findLoopCandidates] *)

(** One entry of [geminiAnalysis.suggestions]. *)
Module Suggestion.
Record t : Type := make {
  startFrame : Z;
  endFrame : Z;
  confidence : Q;
  transitionType : option string
}.
End Suggestion.

Record ContentAnalysis : Type := mkContentAnalysis {
  motion : string;
  complexity : string;
  recommendedCompression : string
}.

(** What the Gemini client answers; [suggestions] may be missing. *)
Record GeminiAnalysis : Type := mkGeminiAnalysis {
  suggestions : option (list Suggestion.t);
  contentAnalysis : ContentAnalysis
}.

(** An element of the candidate array. *)
Record Candidate : Type := mkCandidate {
  startFrame : Z;
  endFrame : Z;
  startTime : Q;
  endTime : Q;
  duration : Q;
  similarity : Q;
  source : string;
  transitionType : string
}.

(** [const frameRate = 30]. *)
Definition frameRate : Q := 30.

(** The object pushed for one Gemini suggestion. *)
Definition geminiCandidate (suggestion : Suggestion.t) : Candidate :=
  {| startFrame := Suggestion.startFrame suggestion;
     endFrame := Suggestion.endFrame suggestion;
     startTime := inject_Z (Suggestion.startFrame suggestion) / frameRate;
     endTime := inject_Z (Suggestion.endFrame suggestion) / frameRate;
     duration := (inject_Z (Suggestion.endFrame suggestion)
                  - inject_Z (Suggestion.startFrame suggestion)) / frameRate;
     similarity := Suggestion.confidence suggestion;
     source := "gemini";
     transitionType :=
       Js.or_default (Suggestion.transitionType suggestion) "cut" |}.

(** The object pushed for a pair of frames found in the matrix. *)
Definition algorithmCandidate (startFrame endFrame : nat) (similarity : Q)
  : Candidate :=
  {| startFrame := Z.of_nat startFrame;
     endFrame := Z.of_nat endFrame;
     startTime := Js.num startFrame / frameRate;
     endTime := Js.num endFrame / frameRate;
     duration := (Js.num endFrame - Js.num startFrame) / frameRate;
     similarity := similarity;
     source := "algorithm";
     transitionType :=
       if Js.gt similarity (9 # 10) then "cut" else "crossfade" |}.

(** [Math.floor(frameRate * 2)] and [Math.floor(frameRate * 15)]. *)
Definition minFrames : nat := Js.Math_floor (frameRate * 2).
Definition maxFrames : nat := Js.Math_floor (frameRate * 15).

(** The first [if]: every suggestion is pushed, in order. *)
Definition pushSuggestions (geminiAnalysis : GeminiAnalysis)
  (candidates : list Candidate) : list Candidate :=
  match suggestions geminiAnalysis with
  | Some l =>
      if (0 <? length l)%nat then
        foldl (fun cs suggestion => cs ++ [geminiCandidate suggestion])
              candidates l
      else candidates
  | None => candidates
  end.

(** The body of the inner loop.  [similarityMatrix[startFrame][endFrame]]
    is [undefined] in a row that is too short, and [undefined > 0.8] is
    false. *)
Definition pairStep (similarityMatrix : Matrix) (startFrame endFrame : nat)
  (candidates : list Candidate) : list Candidate :=
  match cell similarityMatrix startFrame endFrame with
  | Some similarity =>
      if Js.gt similarity (8 # 10) then
        candidates ++ [algorithmCandidate startFrame endFrame similarity]
      else candidates
  | None => candidates
  end.

(** [for (let endFrame = startFrame + minFrames;
         endFrame < Math.min(frameCount, startFrame + maxFrames);
         endFrame++)]. *)
Definition endFrameLoop (similarityMatrix : Matrix) (frameCount startFrame : nat)
  (candidates : list Candidate) : list Candidate :=
  foldl (fun cs endFrame => pairStep similarityMatrix startFrame endFrame cs)
        candidates
        (seq (startFrame + minFrames)
             (Nat.min frameCount (startFrame + maxFrames)
              - (startFrame + minFrames))).

(** [for (let startFrame = 0; startFrame < frameCount - minFrames;
         startFrame++)]. *)
Definition startFrameLoop (similarityMatrix : Matrix) (frameCount : nat)
  (candidates : list Candidate) : list Candidate :=
  foldl (fun cs startFrame =>
           endFrameLoop similarityMatrix frameCount startFrame cs)
        candidates
        (seq 0 (frameCount - minFrames)).

Definition findLoopCandidates (similarityMatrix : Matrix)
  (geminiAnalysis : GeminiAnalysis) : list Candidate :=
  let candidates := [] in
  let candidates := pushSuggestions geminiAnalysis candidates in
  if (0 <? length similarityMatrix)%nat then
    let frameCount := length similarityMatrix in
    startFrameLoop similarityMatrix frameCount candidates
  else candidates.

(** *** [_rankLoopCandidates] *)

(** [{ ...candidate, score }]: the candidate's own fields and the new
    one. *)
Record ScoredCandidate : Type := mkScored {
  candidate : Candidate;
  score : Q
}.

(** The callback of [candidates.map]. *)
Definition scoreCandidate (c : Candidate) : ScoredCandidate :=
  let durationScore := 1 - Js.Math_abs (duration c - 5) / 10 in
  let sourceBoost := if String.eqb (source c) "gemini" then 1 # 10 else 0 in
  let score :=
    similarity c * (6 # 10) + durationScore * (3 # 10) + sourceBoost in
  {| candidate := c;
     score := Js.Math_min 1 (Js.Math_max 0 score) |}.

(** [(a, b) => b.score - a.score]. *)
Definition byScoreDescending (a b : ScoredCandidate) : Q :=
  score b - score a.

Definition rankLoopCandidates (candidates : list Candidate)
  : list ScoredCandidate :=
  let scoredCandidates := map scoreCandidate candidates in
  Js.Array_sort byScoreDescending scoredCandidates.

(** *** [_analyzeWithGemini] and [analyzeMedia] *)

(** The options of [analyzeMedia]. *)
Record Options : Type := mkOptions {
  minLoopDuration : Q;
  maxLoopDuration : Q;
  quality : string
}.

(** The data handed to the Gemini client. *)
Record AnalysisData : Type := mkAnalysisData {
  frameCount : nat;
  sampleFrames : list Frame;
  audioFeatures : option (Q * Q)
}.

(** [geminiClient.analyze]; [Js.Throw] is a rejected promise. *)
Definition GeminiClient : Type :=
  AnalysisData -> Options -> Js.Result GeminiAnalysis.

(** The fields of a [LoopAnalyzer] that the analysis reads. *)
Record State : Type := mkState {
  geminiClient : option GeminiClient;
  frameBuffer : option (list Frame);
  audioBuffer : option AudioBuffer
}.

(** The client that [_initializeGeminiClient] installs. *)
Definition placeholderClient : GeminiClient :=
  fun data _ =>
    Js.Ok
      {| suggestions :=
           Some [ Suggestion.make
                    (Qfloor (Js.num (frameCount data) * (2 # 10)))
                    (Qfloor (Js.num (frameCount data) * (8 # 10)))
                    (92 # 100)
                    (Some "crossfade") ];
         contentAnalysis := mkContentAnalysis "medium" "high" "high" |}.

(** [this.frameBuffer.filter((_, i) => i % 5 === 0)]. *)
Definition everyFifth (frames : list Frame) : list Frame :=
  map snd (filter (fun p => (fst p mod 5 =? 0)%nat) (imap pair frames)).

Definition analyzeWithGemini (this : State) (options : Options)
  : GeminiAnalysis :=
  match geminiClient this with
  | None =>
      {| suggestions := Some [];
         contentAnalysis := mkContentAnalysis "unknown" "unknown" "medium" |}
  | Some client =>
      let analysisData :=
        {| frameCount :=
             match frameBuffer this with
             | Some frames => length frames
             | None => 0%nat
             end;
           sampleFrames :=
             match frameBuffer this with
             | Some frames => everyFifth frames
             | None => []
             end;
           audioFeatures :=
             match audioBuffer this with
             | Some audio => Some (audioDuration audio, sampleRate audio)
             | None => None
             end |} in
      match client analysisData options with
      | Js.Ok analysis => analysis
      | Js.Throw _ =>
          {| suggestions := Some [];
             contentAnalysis := mkContentAnalysis "medium" "medium" "medium" |}
      end
  end.

Record MediaInfo : Type := mkMediaInfo {
  infoFrameCount : nat;
  infoDuration : Q
}.

(** [this.analysisResults]; [bestLoopPoint] is [rankedCandidates[0]],
    [undefined] on an empty array. *)
Record AnalysisResults : Type := mkAnalysisResults {
  resultTimestamp : string;
  inputOptions : Options;
  mediaInfo : MediaInfo;
  loopCandidates : list ScoredCandidate;
  bestLoopPoint : option ScoredCandidate;
  geminiInsights : ContentAnalysis
}.

(** [analyzeMedia(options)]; [now] is [new Date().toISOString()]. *)
Definition analyzeMedia (this : State) (options : Options) (now : string)
  : Js.Result AnalysisResults :=
  match frameBuffer this, audioBuffer this with
  | None, None => Js.Throw "No media loaded for analysis"
  | _, _ =>
      let similarityMatrix := calculateSimilarityMatrix (frameBuffer this) in
      let geminiAnalysis := analyzeWithGemini this options in
      let loopCandidates := findLoopCandidates similarityMatrix geminiAnalysis in
      let rankedCandidates := rankLoopCandidates loopCandidates in
      Js.Ok
        {| resultTimestamp := now;
           inputOptions := options;
           mediaInfo :=
             {| infoFrameCount :=
                  match frameBuffer this with
                  | Some frames => length frames
                  | None => 0%nat
                  end;
                infoDuration :=
                  match frameBuffer this with
                  | Some frames => Js.num (length frames) / 30
                  | None =>
                      match audioBuffer this with
                      | Some audio => audioDuration audio
                      | None => 0
                      end
                  end |};
           loopCandidates := rankedCandidates;
           bestLoopPoint := head rankedCandidates;
           geminiInsights := contentAnalysis geminiAnalysis |}
  end.

End Analyzer.

(** ** The transition engine (class [TransitionEngine]) *)

Module Transition.

Record LoopPoints : Type := mkLoopPoints {
  loopStart : Q;
  loopEnd : Q
}.

(** The object [calculateOptimalTransition] returns ([parameters: {}]
    carries nothing). *)
Record Plan : Type := mkPlan {
  type : string;
  duration : Q;
  similarity : Q
}.

(** The two private methods that look at the media.  In the source both
    are placeholders; [placeholderContent] below is exactly them. *)
Class ContentModel (MediaData Content : Type) : Type := {
  extractContentAtTime : MediaData -> Q -> Content;
  calculateContentSimilarity : Content -> Content -> Q
}.

(** [_extractContentAtTime] returns [{}] and
    [_calculateContentSimilarity] returns [0.8]. *)
Definition placeholderContent (MediaData : Type) : ContentModel MediaData unit :=
  {| extractContentAtTime := fun _ _ => tt;
     calculateContentSimilarity := fun _ _ => 8 # 10 |}.

Definition calculateOptimalTransition {MediaData Content : Type}
  `{ContentModel MediaData Content} (defaultCrossfadeDuration : Q)
  (mediaData : MediaData) (loopPoints : LoopPoints) : Plan :=
  let startContent := extractContentAtTime mediaData (loopStart loopPoints) in
  let endContent := extractContentAtTime mediaData (loopEnd loopPoints) in
  let similarity := calculateContentSimilarity startContent endContent in
  let transitionType := "crossfade"%string in
  let duration := defaultCrossfadeDuration in
  let '(transitionType, duration) :=
    if Js.gt similarity (9 # 10) then
      (if Js.gt similarity (95 # 100) then "none"%string
       else "crossfade"%string,
       if Js.gt similarity (95 # 100) then 0 else 2 # 10)
    else if Js.gt similarity (7 # 10) then ("crossfade"%string, 5 # 10)
    else if Js.gt similarity (4 # 10) then ("crossfade"%string, 1)
    else ("morph"%string, 15 # 10) in
  {| type := transitionType;
     duration := duration;
     similarity := similarity |}.

End Transition.

(** ** The frame blending service ([createBlendedFrames]) *)

Module FrameBlending.

(** A decoded frame file: its sample values, plane after plane. *)
Definition Picture : Type := list Q.

(** The filter [blend=all_expr='A*(1-alpha)+B*alpha'], [A] a sample of
    the first input and [B] the sample of the second input at the same
    place. *)
Definition blendExpr (alpha A B : Q) : Q := A * (1 - alpha) + B * alpha.

(** [blendTwoFrames(frame1Path, frame2Path, outputPath, alpha)]:
    [frame1Path] is input 0 and [frame2Path] is input 1.  The expression
    gives a sample value only when [alpha] is a finite number; [None]
    says that the output picture has none. *)
Definition blendTwoFrames (frame1 frame2 : Picture) (alpha : Js.Number)
  : option Picture :=
  match alpha with
  | Js.Finite a => Some (zip_with (blendExpr a) frame1 frame2)
  | _ => None
  end.

(** [createBlendedFrames]; the two directory listings, filtered and
    sorted, are the arguments [startFrames] and [endFrames], and the
    result lists the pictures written to [frame-0001.png],
    [frame-0002.png], ...  The index of both reads is inside the array
    once the length check has passed. *)
Definition createBlendedFrames (startFrames endFrames : list Picture)
  (frameCount : nat) : Js.Result (list (option Picture)) :=
  if ((length startFrames <? frameCount)%nat
      || (length endFrames <? frameCount)%nat)%bool
  then Js.Throw "Not enough frames for blending"
  else
    Js.Ok
      (map (fun i =>
              let alpha := Js.div (Js.num i) (Js.num frameCount - 1) in
              let startFrame := nth i startFrames [] in
              let endFrame :=
                nth (length endFrames - frameCount + i) endFrames [] in
              blendTwoFrames startFrame endFrame alpha)
           (seq 0 frameCount)).

End FrameBlending.

(** ** The Firebase integration (class [FirebaseIntegration]) *)

Module Firebase.

(** [auth.currentUser] of the simulated SDK. *)
Record User : Type := mkUser {
  uid : string;
  email : string;
  displayName : string
}.

(** A [FirebaseIntegration]: [initialized], and [auth.currentUser] once
    [initialize] has built [auth]; there is no [auth] before that and
    after [disconnect]. *)
Record Integration : Type := mkIntegration {
  initialized : bool;
  currentUser : option User
}.

(** [new FirebaseIntegration(config)]. *)
Definition construct : Integration := mkIntegration false None.

(** [initialize()]: nothing when already initialized, otherwise a new
    [auth] whose [currentUser] is [null]. *)
Definition initialize (this : Integration) : Integration :=
  if initialized this then this else mkIntegration true None.

(** [signIn(email, password)]: the simulated SDK accepts any email and
    password that are not empty. *)
Definition signIn (this : Integration) (email password : string)
  : Integration * Js.Result User :=
  let this := initialize this in
  match email, password with
  | String _ _, String _ _ =>
      let user := mkUser "user123" email "Test User" in
      (mkIntegration true (Some user), Js.Ok user)
  | _, _ => (this, Js.Throw "Authentication failed: Invalid credentials")
  end.

(** [signOut()]. *)
Definition signOut (this : Integration) : Integration * bool :=
  if negb (initialized this) then (this, false)
  else (mkIntegration true None, true).

(** [getCurrentUser()]. *)
Definition getCurrentUser (this : Integration) : option User :=
  if negb (initialized this) then None else currentUser this.

(** [disconnect()]. *)
Definition disconnect (this : Integration) : Integration :=
  mkIntegration false None.

(** The objects of the simulated Firestore that [initialize] builds:
    [db] has the method [collection]; what [collection] returns has
    [doc] and [where]; what [doc] returns has [get], [set] and [update],
    and nothing else. *)
Inductive Reference : Type :=
| Database
| CollectionReference (path : string)
| DocumentReference (path id : string).

(** Calling a method that the object does not have is a [TypeError];
    the engine writes the callee before [is not a function]. *)
Definition collection (reference : Reference) (path : string)
  : Js.Result Reference :=
  match reference with
  | Database => Js.Ok (CollectionReference path)
  | _ => Js.Throw "collection is not a function"
  end.

Definition doc (reference : Reference) (id : string) : Js.Result Reference :=
  match reference with
  | CollectionReference path => Js.Ok (DocumentReference path id)
  | _ => Js.Throw "doc is not a function"
  end.

(** [set(data)] and [update(data)] only write to the console. *)
Definition set (reference : Reference) : Js.Result unit :=
  match reference with
  | DocumentReference _ _ => Js.Ok tt
  | _ => Js.Throw "set is not a function"
  end.

Definition update (reference : Reference) : Js.Result unit :=
  match reference with
  | DocumentReference _ _ => Js.Ok tt
  | _ => Js.Throw "update is not a function"
  end.

(** What [saveResults] reads of [results.output] to decide its result. *)
Record Results : Type := mkResults {
  outputUrl : string;
  outputData : option (list Z)
}.

(** The object [saveResults] returns. *)
Record Saved : Type := mkSaved {
  id : string;
  url : string;
  path : string
}.

Local Notation "'try!' x <- e 'in' k" := (Js.bind e (fun x => k))
  (at level 10, x name, e at level 100, k at level 200).

(** [saveResults(results)]; [dateNow] is the reading of [Date.now()].
    What the [try] block throws is thrown again with the prefix. *)
Definition saveResults (this : Integration) (results : Results)
  (dateNow : Z) : Integration * Js.Result Saved :=
  let this := initialize this in
  match getCurrentUser this with
  | None => (this, Js.Throw "User must be authenticated to save results")
  | Some user =>
      let resultId := "loop_" +:+ pretty dateNow in
      let block : Js.Result Saved :=
        try! users <- collection Database "users" in
        try! userDocument <- doc users (uid user) in
        try! optimizedLoops <- collection userDocument "optimizedLoops" in
        try! resultRef <- doc optimizedLoops resultId in
        try! _ <- set resultRef in
        let mediaUrl :=
          match outputData results with
          | Some _ =>
              "https://example.com/storage/"
              +:+ ("users/" +:+ uid user +:+ "/loops") +:+ "/" +:+ resultId
          | None => outputUrl results
          end in
        try! _ <- update resultRef in
        Js.Ok {| id := resultId;
                 url := mediaUrl;
                 path := "users/" +:+ uid user +:+ "/optimizedLoops/"
                         +:+ resultId |} in
      (this,
       match block with
       | Js.Ok saved => Js.Ok saved
       | Js.Throw message =>
           Js.Throw ("Failed to save results: " +:+ message)
       end)
  end.

End Firebase.

(** ** The optimizer's result ([LoopOptimizer.processMedia]) *)

Module Optimizer.

(** The merged [params] that the modelled part reads; [saveResults] says
    whether [params.saveResults] is truthy. *)
Record Params : Type := mkParams {
  quality : string;
  minLoopDuration : Q;
  maxLoopDuration : Q;
  preferredTransition : string;
  outputFormat : option string;
  saveResults : bool
}.

Record TransitionPoint : Type := mkTransitionPoint {
  pointTimestamp : Q;
  pointDuration : Q;
  pointType : string
}.

Record OptimizedLoop : Type := mkOptimizedLoop {
  loopStart : Q;
  loopEnd : Q;
  transitions : list TransitionPoint
}.

(** The placeholder [TransitionOptimizer.optimizeTransition]; reading
    [loopPoint.startTime] of an undefined [loopPoint] throws. *)
Definition optimizeTransition (loopPoint : option Analyzer.ScoredCandidate)
  (transitionType : string) : Js.Result OptimizedLoop :=
  match loopPoint with
  | None => Js.Throw "Cannot read properties of undefined"
  | Some p =>
      let c := Analyzer.candidate p in
      Js.Ok
        {| loopStart := Analyzer.startTime c;
           loopEnd := Analyzer.endTime c;
           transitions :=
             [ {| pointTimestamp := Analyzer.endTime c;
                  pointDuration :=
                    if String.eqb transitionType "crossfade" then 5 # 10
                    else 0;
                  pointType := transitionType |} ] |}
  end.

Record OutputResult : Type := mkOutputResult {
  url : string;
  format : string;
  outputDuration : Q;
  fileSize : Z;
  data : option (list Z);
  compressionRatio : Q;
  artifactRating : Q;
  processingTime : Q
}.

(** The placeholder [OutputGenerator.generateOutput]. *)
Definition generateOutput (optimizedLoop : OptimizedLoop)
  (format : option string) : OutputResult :=
  {| url := "blob:https://example.com/12345-67890";
     format := Js.or_default format "mp4";
     outputDuration := loopEnd optimizedLoop - loopStart optimizedLoop;
     fileSize := 1024 * 1024 * 2;
     data := None;
     compressionRatio := 7 # 10;
     artifactRating := 92;
     processingTime := 25 # 10 |}.

Record QualityMetrics : Type := mkQualityMetrics {
  seamlessScore : Q;
  metricCompressionRatio : Q;
  metricArtifactRating : Q
}.

(** [loopMetadata] of the returned object. *)
Record LoopMetadata : Type := mkLoopMetadata {
  loopPoints : Q * Q;
  transitionPoints : list TransitionPoint;
  qualityMetrics : QualityMetrics
}.

(** The part of the returned object that comes from the analysis, and
    [storage]. *)
Record ProcessResult : Type := mkProcessResult {
  resultTimestamp : string;
  mediaDuration : Q;
  outputFormatUsed : string;
  loopMetadata : LoopMetadata;
  storage : option Firebase.Saved
}.

(** [processMedia] from step 1's [analyzeMedia] on: [analyzer] is the
    analyzer after [loadMedia], [firebase] is [this.firebase], [None]
    when no API key was configured, and [dateNow] is the reading of
    [Date.now()] in step 4.  Whatever is thrown inside the [try] is
    thrown again with the prefix. *)
Definition processMedia (analyzer : Analyzer.State)
  (firebase : option Firebase.Integration) (params : Params)
  (now : string) (dateNow : Z) : Js.Result ProcessResult :=
  let failed (message : string) : Js.Result ProcessResult :=
    Js.Throw ("Media processing failed: " +:+ message) in
  match
    Analyzer.analyzeMedia analyzer
      {| Analyzer.minLoopDuration := minLoopDuration params;
         Analyzer.maxLoopDuration := maxLoopDuration params;
         Analyzer.quality := quality params |} now
  with
  | Js.Throw message => failed message
  | Js.Ok analysisResults =>
      match
        optimizeTransition (Analyzer.bestLoopPoint analysisResults)
                           (preferredTransition params)
      with
      | Js.Throw message => failed message
      | Js.Ok optimizedLoop =>
          let outputResult :=
            generateOutput optimizedLoop (outputFormat params) in
          (* step 4: [if (params.saveResults && this.firebase)] *)
          let savedResults : Js.Result (option Firebase.Saved) :=
            match saveResults params, firebase with
            | true, Some firebase =>
                match
                  snd (Firebase.saveResults firebase
                         {| Firebase.outputUrl := url outputResult;
                            Firebase.outputData := data outputResult |}
                         dateNow)
                with
                | Js.Ok saved => Js.Ok (Some saved)
                | Js.Throw message => Js.Throw message
                end
            | _, _ => Js.Ok None
            end in
          match savedResults with
          | Js.Throw message => failed message
          | Js.Ok savedResults =>
              (* [analysisResults.bestLoopPoint.startTime], [.endTime]
                 and [.score]; the point is defined once
                 [optimizeTransition] has returned *)
              match Analyzer.bestLoopPoint analysisResults with
              | None => failed "Cannot read properties of undefined"
              | Some best =>
                  Js.Ok
                    {| resultTimestamp := now;
                       mediaDuration :=
                         Analyzer.infoDuration
                           (Analyzer.mediaInfo analysisResults);
                       outputFormatUsed := format outputResult;
                       loopMetadata :=
                         {| loopPoints :=
                              (Analyzer.startTime (Analyzer.candidate best),
                               Analyzer.endTime (Analyzer.candidate best));
                            transitionPoints := transitions optimizedLoop;
                            qualityMetrics :=
                              {| seamlessScore := Analyzer.score best * 100;
                                 metricCompressionRatio :=
                                   compressionRatio outputResult;
                                 metricArtifactRating :=
                                   artifactRating outputResult |} |};
                       storage := savedResults |}
              end
          end
      end
  end.

End Optimizer.

(** ** The frame sampler ([GeminiIntegration._sampleFrames]) *)

Module GeminiIntegration.

Section SampleFrames.

(** The elements of [frames] are any values; [undefined] is what reading
    past the end of an array gives. *)
Context {Value : Type} (undefined : Value).

(** With [maxCount = 0] and a non-empty array [step] is [Infinity] in
    the source and the loop does not run; [step] is not used then. *)
Definition sampleFrames (frames : list Value) (maxCount : nat) : list Value :=
  if (length frames <=? maxCount)%nat then frames
  else
    let step := (length frames / maxCount)%nat in
    foldl (fun sampledFrames i =>
             sampledFrames ++ [nth (i * step) frames undefined])
          [] (seq 0 maxCount).

End SampleFrames.

End GeminiIntegration.

(** ** The analyzer as an object: construction, loading, reset *)

Module Session.

(** A [LoopAnalyzer]: the fields the analysis reads, and the stored
    [analysisResults]. *)
Record Instance : Type := mkInstance {
  state : Analyzer.State;
  analysisResults : option Analyzer.AnalysisResults
}.

(** [new LoopAnalyzer(config)]: the client of [_initializeGeminiClient],
    an empty frame buffer (an array, not null), no audio buffer, no
    results. *)
Definition construct : Instance :=
  {| state :=
       Analyzer.mkState (Some Analyzer.placeholderClient) (Some []) None;
     analysisResults := None |}.

(** [_extractVideoFrames]: 30 frames whatever the video is; [random i]
    stands for the draws of [Math.random] that fill the histogram and
    the motion magnitude of frame [i]. *)
Definition extractVideoFrames (random : nat -> list Z * Q)
  : list Analyzer.Frame :=
  map (fun i =>
         Analyzer.mkFrame i (Js.num i / 30) (fst (random i)) (snd (random i)))
      (seq 0 30).

(** [_extractAudioSamples]: the same buffer whatever the audio is. *)
Definition extractAudioSamples : Analyzer.AudioBuffer :=
  Analyzer.mkAudioBuffer 44100 10 2.

(** [loadMedia(mediaData, mediaType)]: the analyzer afterwards, or the
    error thrown; the media data itself is not looked at. *)
Definition loadMedia (this : Instance) (mediaType : string)
  (random : nat -> list Z * Q) : Js.Result Instance :=
  let s := state this in
  if Js.startsWith mediaType "video" then
    Js.Ok
      {| state :=
           Analyzer.mkState (Analyzer.geminiClient s)
             (Some (extractVideoFrames random)) (Analyzer.audioBuffer s);
         analysisResults := analysisResults this |}
  else if Js.startsWith mediaType "audio" then
    Js.Ok
      {| state :=
           Analyzer.mkState (Analyzer.geminiClient s)
             (Analyzer.frameBuffer s) (Some extractAudioSamples);
         analysisResults := analysisResults this |}
  else
    Js.Throw ("Failed to load media: "
              +:+ ("Unsupported media type: " +:+ mediaType)).

(** [analyzeMedia(options)] with its assignment to
    [this.analysisResults]. *)
Definition analyzeMedia (this : Instance) (options : Analyzer.Options)
  (now : string) : Instance * Js.Result Analyzer.AnalysisResults :=
  match Analyzer.analyzeMedia (state this) options now with
  | Js.Ok results =>
      ({| state := state this; analysisResults := Some results |},
       Js.Ok results)
  | Js.Throw message => (this, Js.Throw message)
  end.

(** [reset()]. *)
Definition reset (this : Instance) : Instance :=
  {| state :=
       Analyzer.mkState (Analyzer.geminiClient (state this)) (Some []) None;
     analysisResults := None |}.

(** The object [getOptimizedLoopParameters] returns. *)
Record LoopParameters : Type := mkLoopParameters {
  startTime : Q;
  endTime : Q;
  duration : Q;
  score : Q;
  transitionType : string;
  transitionDuration : Q;
  compressionLevel : string
}.

(** [getOptimizedLoopParameters()]: [null] before any analysis; reading
    a field of an undefined best loop point throws. *)
Definition getOptimizedLoopParameters (this : Instance)
  : Js.Result (option LoopParameters) :=
  match analysisResults this with
  | None => Js.Ok None
  | Some results =>
      match Analyzer.bestLoopPoint results with
      | None => Js.Throw "Cannot read properties of undefined"
      | Some bestLoop =>
          let c := Analyzer.candidate bestLoop in
          Js.Ok (Some
            {| startTime := Analyzer.startTime c;
               endTime := Analyzer.endTime c;
               duration := Analyzer.duration c;
               score := Analyzer.score bestLoop;
               transitionType := Analyzer.transitionType c;
               transitionDuration :=
                 if String.eqb (Analyzer.transitionType c) "crossfade"
                 then 5 # 10 else 0;
               compressionLevel :=
                 Analyzer.recommendedCompression
                   (Analyzer.geminiInsights results) |})
      end
  end.

(** The analyzers a program can hold: built by the constructor, then
    used through the public methods. *)
Inductive reachable : Instance -> Prop :=
| reachable_construct : reachable construct
| reachable_loadMedia this mediaType random this' :
    reachable this ->
    loadMedia this mediaType random = Js.Ok this' ->
    reachable this'
| reachable_analyzeMedia this options now :
    reachable this ->
    reachable (fst (analyzeMedia this options now))
| reachable_reset this :
    reachable this ->
    reachable (reset this).

End Session.

(** ** The optimizer from the media input on *)

Module Pipeline.

(** What [processMedia] is given: a [Blob] or [File] with its [type], an
    [ArrayBuffer] with its bytes, or something else. *)
Inductive MediaInput : Type :=
| Blob (type : string)
| ArrayBuffer (bytes : list Z)
| OtherInput.

(** [header[k] === b] on [new Uint8Array(mediaInput.slice(0, 12))]. *)
Definition byteIs (header : list Z) (k : nat) (b : Z) : bool :=
  match header !! k with
  | Some x => (x =? b)%Z
  | None => false
  end.

(** [_detectMediaType(mediaInput)]. *)
Definition detectMediaType (mediaInput : MediaInput) : Js.Result string :=
  match mediaInput with
  | Blob type => Js.Ok (Js.or_default (Some type) "application/octet-stream")
  | ArrayBuffer bytes =>
      let header := Js.slice bytes 0 (Some 12%Z) in
      if (byteIs header 4 0x66 && byteIs header 5 0x74
          && byteIs header 6 0x79 && byteIs header 7 0x70)
         || (byteIs header 4 0x6D && byteIs header 5 0x6F
             && byteIs header 6 0x6F && byteIs header 7 0x76)
      then Js.Ok "video/mp4"
      else if byteIs header 0 0x1A && byteIs header 1 0x45
              && byteIs header 2 0xDF && byteIs header 3 0xA3
      then Js.Ok "video/webm"
      else if (byteIs header 0 0x49 && byteIs header 1 0x44
               && byteIs header 2 0x33)
              || (byteIs header 0 0xFF
                  && match header !! 1%nat with
                     | Some x => (Z.land x 0xE0 =? 0xE0)%Z
                     | None => false
                     end)
      then Js.Ok "audio/mpeg"
      else if byteIs header 0 0x52 && byteIs header 1 0x49
              && byteIs header 2 0x46 && byteIs header 3 0x46
              && byteIs header 8 0x57 && byteIs header 9 0x41
              && byteIs header 10 0x56 && byteIs header 11 0x45
      then Js.Ok "audio/wav"
      else Js.Ok "application/octet-stream"
  | OtherInput => Js.Throw "Unsupported media input type"
  end.

(** [processMedia(mediaInput, parameters)] from its first line: the
    type is detected, the analyzer loads the media, and the rest is
    [Optimizer.processMedia].  [analyzer] is [this.analyzer], returned
    as the call leaves it, and [firebase] is [this.firebase]. *)
Definition processMedia (analyzer : Session.Instance)
  (firebase : option Firebase.Integration)
  (mediaInput : MediaInput) (params : Optimizer.Params) (now : string)
  (dateNow : Z) (random : nat -> list Z * Q)
  : Session.Instance * Js.Result Optimizer.ProcessResult :=
  let failed (message : string) : Js.Result Optimizer.ProcessResult :=
    Js.Throw ("Media processing failed: " +:+ message) in
  match detectMediaType mediaInput with
  | Js.Throw message => (analyzer, failed message)
  | Js.Ok mediaType =>
      match Session.loadMedia analyzer mediaType random with
      | Js.Throw message => (analyzer, failed message)
      | Js.Ok loaded =>
          (fst (Session.analyzeMedia loaded
                  {| Analyzer.minLoopDuration :=
                       Optimizer.minLoopDuration params;
                     Analyzer.maxLoopDuration :=
                       Optimizer.maxLoopDuration params;
                     Analyzer.quality := Optimizer.quality params |} now),
           Optimizer.processMedia (Session.state loaded) firebase params now
             dateNow)
      end
  end.

(** One preview frame; the data URL is a constant. *)
Record PreviewFrame : Type := mkPreviewFrame {
  previewIndex : nat;
  previewTimestamp : Q;
  previewWidth : Z;
  previewHeight : Z
}.

(** [getPreviewFrames(mediaInput, options)]; [frameCount] is
    [options.frameCount], a count when it is given. *)
Definition getPreviewFrames (mediaInput : MediaInput)
  (frameCount : option nat) : Js.Result (list PreviewFrame) :=
  match detectMediaType mediaInput with
  | Js.Throw message => Js.Throw message
  | Js.Ok mediaType =>
      if negb (Js.startsWith mediaType "video") then
        Js.Throw "Preview frames are only available for video media"
      else
        let frameCount :=
          match frameCount with
          | Some 0%nat => 6%nat
          | Some n => n
          | None => 6%nat
          end in
        Js.Ok (map (fun i =>
                      {| previewIndex := i;
                         previewTimestamp :=
                           Js.num i * (10 / Js.num frameCount);
                         previewWidth := 320;
                         previewHeight := 180 |})
                   (seq 0 frameCount))
  end.

End Pipeline.

(** ** The video transition engine ([VideoTransitionEngine]) *)

Module VideoTransition.

(** [_blendFrames(frameA, frameB, ratio)]; either frame is [None] when
    the array read gave [undefined].  In the source the method is a
    placeholder that returns an empty object. *)
Class FrameBlend (F : Type) : Type := {
  blendFrames : option F -> option F -> Q -> F
}.

(** The fields of [videoData] that are read. *)
Record VideoData (F : Type) : Type := mkVideoData {
  frames : list F;
  frameRate : Q
}.
Arguments mkVideoData {F} frames frameRate.
Arguments frames {F} v.
Arguments frameRate {F} v.

Record TransitionMetadata : Type := mkTransitionMetadata {
  metaType : string;
  metaDuration : Q;
  metaFrameCount : Z
}.

(** The returned object; its [frames] may read [undefined] where the
    loop wrote past the end of what it had. *)
Record Result (F : Type) : Type := mkResult {
  resultFrames : list (option F);
  resultDuration : Q;
  loopable : bool;
  transitionMetadata : TransitionMetadata
}.
Arguments mkResult {F} resultFrames resultDuration loopable transitionMetadata.
Arguments resultFrames {F} r.
Arguments resultDuration {F} r.
Arguments loopable {F} r.
Arguments transitionMetadata {F} r.

(** The body of the crossfade loop at [i]. *)
Definition crossfadeStep {F : Type} `{FrameBlend F}
  (startFrames endFrames : list (option F)) (crossfadeFrames : Z)
  (loopFrames : list (option F)) (i : nat) : list (option F) :=
  let blendRatio := Js.num i / inject_Z crossfadeFrames in
  Js.assign loopFrames i
    (blendFrames (Js.at_index endFrames i) (Js.at_index startFrames i)
                 blendRatio).

(** [applyTransitions(videoData, loopPoints, transitionPoints,
    parameters)]; [crossfadeDuration] is [parameters.crossfadeDuration],
    [0.5] when it is missing.  The loop over [transitionPoints] has an
    empty body. *)
Definition applyTransitions {F : Type} `{FrameBlend F}
  (videoData : VideoData F) (loopPoints : Transition.LoopPoints)
  (crossfadeDuration : option Q) : Result F :=
  let crossfadeDuration := default (5 # 10) crossfadeDuration in
  let loopDuration :=
    Transition.loopEnd loopPoints - Transition.loopStart loopPoints in
  let loopFrameStart :=
    Qfloor (Transition.loopStart loopPoints * frameRate videoData) in
  let loopFrameEnd :=
    Qfloor (Transition.loopEnd loopPoints * frameRate videoData) in
  let crossfadeFrames := Qfloor (crossfadeDuration * frameRate videoData) in
  let loopFrames : list (option F) :=
    map Some (Js.slice (frames videoData) loopFrameStart (Some loopFrameEnd)) in
  let loopFrames :=
    if (0 <? crossfadeFrames)%Z then
      let startFrames := Js.slice loopFrames 0 (Some crossfadeFrames) in
      let endFrames :=
        Js.slice loopFrames
                 (Z.of_nat (length loopFrames) - crossfadeFrames) None in
      foldl (crossfadeStep startFrames endFrames crossfadeFrames)
            loopFrames (seq 0 (Z.to_nat crossfadeFrames))
    else loopFrames in
  {| resultFrames := loopFrames;
     resultDuration := loopDuration;
     loopable := true;
     transitionMetadata :=
       {| metaType := "crossfade";
          metaDuration := crossfadeDuration;
          metaFrameCount := crossfadeFrames |} |}.

End VideoTransition.

(** ** The loop processor (class [LoopProcessor]) *)

Module LoopProcessor.

(** One element of an array of suggestions. *)
Record Suggestion : Type := mkSuggestion {
  startTime : Q;
  endTime : Q;
  confidence : Q
}.

(** [loopSuggestions] as the processor looks at it: [points] with its
    [start] and [end] when both are numbers, [startTime] and [endTime]
    when both are numbers, and the elements when it is an array. *)
Record LoopSuggestions : Type := mkLoopSuggestions {
  points : option (Q * Q);
  times : option (Q * Q);
  elements : option (list Suggestion)
}.

(** [const transitionTypes = ['crossfade', 'cut', 'morph']]. *)
Definition transitionTypes : list string := ["crossfade"; "cut"; "morph"].

(** [_getOptimalLoopPoints(loopSuggestions)], as [(start, end)]. *)
Definition getOptimalLoopPoints (loopSuggestions : LoopSuggestions) : Q * Q :=
  match points loopSuggestions with
  | Some p => p
  | None =>
      match times loopSuggestions with
      | Some t => t
      | None =>
          match elements loopSuggestions with
          | Some (first :: rest) =>
              let bestSuggestion :=
                foldl (fun best current =>
                         if Js.gt (confidence current) (confidence best)
                         then current else best)
                      first (first :: rest) in
              (startTime bestSuggestion, endTime bestSuggestion)
          | _ => (0, 10)
          end
      end
  end.

(** [parameters.loopParameters]. *)
Record LoopParameters : Type := mkLoopParameters {
  crossfadeDuration : option Q;
  targetDuration : option Q;
  transitionType : option string
}.

(** [parameters]. *)
Record Parameters : Type := mkParameters {
  loopParameters : option LoopParameters;
  optimizationPreset : option string
}.

(** [mediaSource]: [data] with its [byteLength] when there is one, and
    the MIME [type] when there is one. *)
Record MediaSource : Type := mkMediaSource {
  byteLength : option Z;
  type : option string
}.

(** [parameters.loopParameters || {}]. *)
Definition loopParametersOf (parameters : Parameters) : LoopParameters :=
  default (mkLoopParameters None None None) (loopParameters parameters).

(** [_validateInputs]: the message thrown, if any.  A comparison with
    [undefined] is false, and [targetDuration && ...] is not evaluated
    for a [targetDuration] of [0]. *)
Definition validateInputs (mediaSource : option MediaSource)
  (loopSuggestions : option LoopSuggestions)
  (parameters : option Parameters) : Js.Result unit :=
  match mediaSource with
  | None => Js.Throw "Invalid media source"
  | Some media =>
      match byteLength media with
      | None => Js.Throw "Invalid media source"
      | Some _ =>
          match loopSuggestions with
          | None => Js.Throw "Missing loop suggestions"
          | Some _ =>
              match parameters with
              | None => Js.Throw "Missing processing parameters"
              | Some parameters =>
                  let loopParams := loopParametersOf parameters in
                  if match crossfadeDuration loopParams with
                     | Some d => Js.gt 0 d
                     | None => false
                     end
                  then Js.Throw "Crossfade duration must be non-negative"
                  else if match targetDuration loopParams with
                          | Some t =>
                              negb (Qeq_bool t 0) && negb (Js.gt t 0)
                          | None => false
                          end
                  then Js.Throw "Target duration must be positive"
                  else Js.Ok tt
              end
          end
      end
  end.

(** [_determineOptimalTransition]; [random] is the draw of
    [Math.random()].  Without a listed request the method calls
    [mediaSource.type.includes], which throws a [TypeError] on a media
    source that has no [type]. *)
Definition determineOptimalTransition (mediaSource : MediaSource)
  (parameters : Parameters) (random : Q) : Js.Result string :=
  let requested :=
    Js.or_default (transitionType (loopParametersOf parameters))
                  EmptyString in
  if negb (String.eqb requested EmptyString)
     && existsb (String.eqb requested) transitionTypes
  then Js.Ok requested
  else
    match type mediaSource with
    | None =>
        Js.Throw "Cannot read properties of undefined (reading 'includes')"
    | Some type =>
        let isVideo := Js.includes type "video" in
        let isAudio := Js.includes type "audio" || isVideo in
        let hasSignificantMotion := Js.gt random (5 # 10) in
        if isVideo then
          if hasSignificantMotion then Js.Ok "morph" else Js.Ok "crossfade"
        else if isAudio then Js.Ok "crossfade"
        else Js.Ok "cut"
    end.

Record TransitionPoint : Type := mkTransitionPoint {
  pointTimestamp : Q;
  pointDuration : Q;
  pointType : string
}.

(** The object [createLoop] returns; [media] is the source data itself,
    so only its size is kept. *)
Record ProcessedLoop : Type := mkProcessedLoop {
  originalSize : Z;
  optimizedSize : Z;
  loopPoints : Q * Q;
  transitions : list TransitionPoint;
  usedTransitionType : string
}.

(** [createLoop(mediaSource, loopSuggestions, parameters)]: validation,
    loop points, the placeholder extraction that returns the source
    data, the transition, the placeholder optimization that returns the
    segment.  Every error is thrown again with the prefix. *)
Definition createLoop (mediaSource : option MediaSource)
  (loopSuggestions : option LoopSuggestions)
  (parameters : option Parameters) (random : Q) : Js.Result ProcessedLoop :=
  let failed (message : string) : Js.Result ProcessedLoop :=
    Js.Throw ("Loop processing failed: " +:+ message) in
  match validateInputs mediaSource loopSuggestions parameters with
  | Js.Throw message => failed message
  | Js.Ok _ =>
      match mediaSource, loopSuggestions, parameters with
      | Some media, Some suggestions, Some parameters =>
          let loopPoints := getOptimalLoopPoints suggestions in
          match determineOptimalTransition media parameters random with
          | Js.Throw message => failed message
          | Js.Ok transitionType =>
              let transitions :=
                [ {| pointTimestamp := 0;
                     pointDuration :=
                       Js.num_or
                         (crossfadeDuration (loopParametersOf parameters))
                         (5 # 10);
                     pointType := transitionType |} ] in
              Js.Ok
                {| originalSize := default 0%Z (byteLength media);
                   optimizedSize := default 0%Z (byteLength media);
                   loopPoints := loopPoints;
                   transitions := transitions;
                   usedTransitionType := transitionType |}
          end
      | _, _, _ =>
          (* not reached: validation has found the three *)
          failed EmptyString
      end
  end.

End LoopProcessor.

(** ** The analysis controller ([determineRecommendedLoopPoints]) *)

Module AnalysisController.

(** A recommended loop point. *)
Record LoopPoint : Type := mkLoopPoint {
  startTime : Q;
  endTime : Q;
  confidence : Q;
  reason : option string
}.

(** An element of [audioAnalysis.silencePoints]. *)
Record Silence : Type := mkSilence {
  silenceStart : Q;
  silenceEnd : Q;
  silenceConfidence : Q
}.

(** [(a, b) => b.confidence - a.confidence]. *)
Definition byConfidenceDescending (a b : LoopPoint) : Q :=
  confidence b - confidence a.

(** [determineRecommendedLoopPoints(frameAnalysis, audioAnalysis,
    geminiAnalysis)]: each argument is the list the function reads from
    it ([potentialLoopPoints], [silencePoints],
    [recommendedLoopPoints]), [None] when the analysis or the list is
    missing. *)
Definition determineRecommendedLoopPoints
  (potentialLoopPoints : option (list LoopPoint))
  (silencePoints : option (list Silence))
  (recommendedLoopPoints : option (list LoopPoint)) : list LoopPoint :=
  match recommendedLoopPoints with
  | Some recommended => recommended
  | None =>
      let points := [] in
      let points :=
        match potentialLoopPoints with
        | Some l =>
            foldl (fun ps point =>
                     ps ++ [ {| startTime := startTime point;
                                endTime := endTime point;
                                confidence := confidence point;
                                reason := reason point |} ])
                  points l
        | None => points
        end in
      let points :=
        match silencePoints with
        | Some l =>
            foldl (fun ps silence =>
                     ps ++ [ {| startTime := silenceStart silence;
                                endTime := silenceEnd silence;
                                confidence := silenceConfidence silence;
                                reason := Some "Audio silence"%string |} ])
                  points l
        | None => points
        end in
      let points := Js.Array_sort byConfidenceDescending points in
      Js.slice points 0 (Some 5%Z)
  end.

End AnalysisController.

(** ** The media analyzer (class [MediaAnalyzer]) *)

Module MediaAnalyzer.

(** [this.supportedFormats]. *)
Definition supportedFormats : list string :=
  ["mp4"; "mp3"; "webm"; "gif"; "mov"; "avi"; "wav"].

(** [mimeTypeMap], in the order of the source. *)
Definition mimeTypeMap : list (string * string) :=
  [("mp4", "video/mp4"); ("webm", "video/webm"); ("mov", "video/quicktime");
   ("avi", "video/x-msvideo"); ("mp3", "audio/mpeg"); ("wav", "audio/wav");
   ("gif", "image/gif")]%string.

(** What reading [mimeTypeMap[extension]] can give back: one of its
    strings, or, for the two all-lowercase names that every object
    inherits, something that is not a string. *)
Inductive MediaType : Type :=
| Mime (type : string)
| Inherited (name : string).

(** [assoc key table]: the value of the first pair with that key. *)
Fixpoint assoc (key : string) (table : list (string * string))
  : option string :=
  match table with
  | [] => None
  | (k, v) :: rest => if String.eqb key k then Some v else assoc key rest
  end.

(** [_inferMediaTypeFromName(fileName)]; [None] is a missing name. *)
Definition inferMediaTypeFromName (fileName : option string) : MediaType :=
  match fileName with
  | None => Mime "application/octet-stream"
  | Some EmptyString => Mime "application/octet-stream"
  | Some name =>
      let extension := Js.toLowerCase (Js.lastSegment name) in
      match assoc extension mimeTypeMap with
      | Some type => Mime type
      | None =>
          if String.eqb extension "constructor"
             || String.eqb extension "__proto__"
          then Inherited extension
          else Mime "application/octet-stream"
      end
  end.

(** [_getMediaTypeFromBlob(blob)]: [blob.type || infer(blob.name)]. *)
Definition getMediaTypeFromBlob (type : string) (name : option string)
  : MediaType :=
  match type with
  | EmptyString => inferMediaTypeFromName name
  | _ => Mime type
  end.

(** [_isSupportedFormat(mediaType)] on a string. *)
Definition isSupportedFormat (mediaType : string) : bool :=
  existsb (fun format => Js.includes (Js.toLowerCase mediaType) format)
          supportedFormats.

(** [_findPotentialLoopPoints(mediaSource)]; [duration] is
    [mediaSource.metadata.duration]. *)
Record LoopPoint : Type := mkLoopPoint {
  startTime : Q;
  endTime : Q;
  confidence : Q
}.

Definition findPotentialLoopPoints (duration : option Q) : list LoopPoint :=
  let duration := Js.num_or duration 10 in
  [ mkLoopPoint 0 duration (7 # 10);
    mkLoopPoint (duration * (25 # 100)) (duration * (75 # 100)) (8 # 10);
    mkLoopPoint (duration * (4 # 10)) (duration * (9 # 10)) (65 # 100) ].

End MediaAnalyzer.

(** ** Predicates used by the statements *)

(** A matrix of [n] rows of [n] cells. *)
Definition squareOf (n : nat) (matrix : Analyzer.Matrix) : Prop :=
  length matrix = n /\ Forall (fun row => length row = n) matrix.

(** What the builder leaves in cell [(a, b)] of an [n] x [n] matrix. *)
Definition entry (n a b : nat) : Q :=
  if (a =? b)%nat then 1 else Analyzer.similarityOf n a b.

(** The candidate list is in descending order of score. *)
Definition descendingByScore (ranked : list Analyzer.ScoredCandidate) : Prop :=
  StronglySorted (fun a b => Analyzer.score b <= Analyzer.score a) ranked.

(** The candidates of score [s], in the order of the list. *)
Definition withScore (s : Q) (l : list Analyzer.ScoredCandidate)
  : list Analyzer.ScoredCandidate :=
  List.filter (fun c => Qeq_bool (Analyzer.score c) s) l.

(** The scoring function in the words of the specification:
    [durationFit = max(0, 1 - |duration - idealDuration| / (2 *
    idealDuration))], [sourceBoost = 0.1] for an advisory candidate,
    [score = 0.6 * similarity + 0.3 * durationFit + sourceBoost] clamped
    to [[0, 1]]. *)
Definition spec_durationFit (idealDuration : Q) (c : Analyzer.Candidate) : Q :=
  Qmax 0 (1 - Qabs (Analyzer.duration c - idealDuration)
              / (2 * idealDuration)).

Definition spec_score (idealDuration : Q) (c : Analyzer.Candidate) : Q :=
  let sourceBoost :=
    if String.eqb (Analyzer.source c) "gemini" then 1 # 10 else 0 in
  Qmin 1 (Qmax 0 ((6 # 10) * Analyzer.similarity c
                  + (3 # 10) * spec_durationFit idealDuration c
                  + sourceBoost)).

(** * Properties *)

(** ** Comparisons *)

Lemma gt_iff (a b : Q) : Js.gt a b = true <-> b < a.
Proof.
  unfold Js.gt. rewrite Qgt_alt.
  destruct (a ?= b); intuition congruence.
Qed.

Lemma gt_false_iff (a b : Q) : Js.gt a b = false <-> a <= b.
Proof.
  unfold Js.gt. rewrite Qle_alt.
  destruct (a ?= b); intuition congruence.
Qed.

(** ** The similarity matrix *)

Section MatrixCells.

Import Analyzer.

Lemma setCell_square n i j v m : squareOf n m -> squareOf n (setCell i j v m).
Proof.
  intros [Hlen Hrows]. split.
  - unfold setCell. by rewrite length_alter.
  - unfold setCell. apply Forall_alter; [done|].
    intros row _ Hrow. by rewrite length_insert.
Qed.

Lemma cell_setCell_eq n i j v m :
  squareOf n m -> (i < n)%nat -> (j < n)%nat ->
  cell (setCell i j v m) i j = Some v.
Proof.
  intros [Hlen Hrows] Hi Hj. unfold cell, setCell.
  rewrite list_lookup_alter_eq.
  destruct (lookup_lt_is_Some_2 m i) as [row Hrow]; [lia|].
  rewrite Hrow. simpl. apply list_lookup_insert_eq.
  rewrite Forall_lookup in Hrows. rewrite (Hrows _ _ Hrow). done.
Qed.

Lemma cell_setCell_ne i j v m a b :
  (a, b) <> (i, j) -> cell (setCell i j v m) a b = cell m a b.
Proof.
  intros Hne. unfold cell, setCell.
  destruct (decide (a = i)) as [->|Hai].
  - rewrite list_lookup_alter_eq. destruct (m !! i) as [row|]; [|done].
    simpl. apply list_lookup_insert_ne. congruence.
  - by rewrite list_lookup_alter_ne.
Qed.

Lemma similarityOf_sym n i j : similarityOf n i j = similarityOf n j i.
Proof.
  unfold similarityOf, Js.Math_abs, Js.num.
  assert (E : Qabs (inject_Z (Z.of_nat i) - inject_Z (Z.of_nat j))
              = Qabs (inject_Z (Z.of_nat j) - inject_Z (Z.of_nat i))).
  { unfold Qabs, Qminus, Qplus, Qopp, inject_Z. simpl. f_equal. lia. }
  by rewrite E.
Qed.

Lemma entry_sym n a b : entry n a b = entry n b a.
Proof.
  unfold entry. rewrite (Nat.eqb_sym b a).
  destruct (a =? b)%nat; [done|apply similarityOf_sym].
Qed.

Lemma entry_diag n a : entry n a a = 1.
Proof. unfold entry. by rewrite Nat.eqb_refl. Qed.

Lemma cellStep_square n i j m : squareOf n m -> squareOf n (cellStep n i j m).
Proof.
  intros Hm. unfold cellStep.
  destruct (i =? j)%nat; repeat apply setCell_square; done.
Qed.

(** A step only ever writes the expected entry, so a cell that holds it
    keeps it. *)
Lemma cellStep_keeps n i j m a b :
  squareOf n m -> (i < n)%nat -> (j < n)%nat ->
  cell m a b = Some (entry n a b) ->
  cell (cellStep n i j m) a b = Some (entry n a b).
Proof.
  intros Hm Hi Hj Hab. unfold cellStep.
  destruct (i =? j)%nat eqn:Hij.
  - apply Nat.eqb_eq in Hij. subst j.
    destruct (decide ((a, b) = (i, i))) as [[= -> ->]|Hne].
    + rewrite (cell_setCell_eq n); [|done..]. by rewrite entry_diag.
    + by rewrite cell_setCell_ne.
  - assert (Hs : similarityOf n i j = entry n i j)
      by (unfold entry; by rewrite Hij).
    destruct (decide ((a, b) = (j, i))) as [[= -> ->]|Hne1].
    + rewrite (cell_setCell_eq n); [|by apply setCell_square|done..].
      by rewrite Hs, entry_sym.
    + rewrite cell_setCell_ne by done.
      destruct (decide ((a, b) = (i, j))) as [[= -> ->]|Hne2].
      * rewrite (cell_setCell_eq n); [|done..]. by rewrite Hs.
      * by rewrite cell_setCell_ne.
Qed.

Lemma cellStep_sets n i j m a b :
  squareOf n m -> (i < n)%nat -> (j < n)%nat ->
  (a = i /\ b = j) \/ (a = j /\ b = i) ->
  cell (cellStep n i j m) a b = Some (entry n a b).
Proof.
  intros Hm Hi Hj Hab. unfold cellStep.
  destruct (i =? j)%nat eqn:Hij.
  - apply Nat.eqb_eq in Hij. subst j.
    assert (a = i /\ b = i) as [-> ->] by tauto.
    rewrite (cell_setCell_eq n); [|done..]. by rewrite entry_diag.
  - assert (Hs : similarityOf n i j = entry n i j)
      by (unfold entry; by rewrite Hij).
    apply Nat.eqb_neq in Hij.
    destruct Hab as [[-> ->]|[-> ->]].
    + rewrite cell_setCell_ne by congruence.
      rewrite (cell_setCell_eq n); [|done..]. by rewrite Hs.
    + rewrite (cell_setCell_eq n); [|by apply setCell_square|done..].
      by rewrite Hs, entry_sym.
Qed.

End MatrixCells.

(** A loop that runs the steps [f m j] for [j] in [js], when every step
    keeps the cells that already hold their entry and sets the cells it
    is aimed at. *)
Section LoopOverCells.

Import Analyzer.

Variable n : nat.
Variable f : Matrix -> nat -> Matrix.
Variable good : nat -> Prop.
Variable target : nat -> nat -> nat -> Prop.

Hypothesis f_square : forall m j, good j -> squareOf n m -> squareOf n (f m j).
Hypothesis f_keeps : forall m j a b,
  good j -> squareOf n m ->
  cell m a b = Some (entry n a b) -> cell (f m j) a b = Some (entry n a b).
Hypothesis f_sets : forall m j a b,
  good j -> squareOf n m -> target j a b ->
  cell (f m j) a b = Some (entry n a b).

Lemma loop_square js m :
  Forall good js -> squareOf n m -> squareOf n (foldl f m js).
Proof.
  intros Hjs. revert m.
  induction Hjs as [|j js Hj _ IH]; intros m Hm; simpl; auto.
Qed.

Lemma loop_keeps js m a b :
  Forall good js -> squareOf n m ->
  cell m a b = Some (entry n a b) ->
  cell (foldl f m js) a b = Some (entry n a b).
Proof.
  intros Hjs. revert m.
  induction Hjs as [|j js Hj _ IH]; intros m Hm Hab; simpl; auto.
Qed.

Lemma loop_sets js m j a b :
  Forall good js -> squareOf n m -> j ∈ js -> target j a b ->
  cell (foldl f m js) a b = Some (entry n a b).
Proof.
  intros Hjs. revert m.
  induction Hjs as [|j' js Hj' Hjs IH]; intros m Hm Hin Ht; simpl.
  - by apply elem_of_nil in Hin.
  - apply elem_of_cons in Hin as [->|Hin].
    + apply loop_keeps; auto.
    + apply IH; auto.
Qed.

End LoopOverCells.

Section MatrixBuilder.

Import Analyzer.

Lemma rowLoop_indices n i : Forall (fun j => (j < n)%nat) (seq i (n - i)).
Proof. apply Forall_forall. intros j Hj. apply elem_of_seq in Hj. lia. Qed.

Lemma rowLoop_square n i m :
  (i < n)%nat -> squareOf n m -> squareOf n (rowLoop n i m).
Proof.
  intros Hi Hm. unfold rowLoop.
  apply (loop_square n _ (fun j => (j < n)%nat)); auto using rowLoop_indices.
  intros. by apply cellStep_square.
Qed.

Lemma rowLoop_keeps n i m a b :
  (i < n)%nat -> squareOf n m ->
  cell m a b = Some (entry n a b) ->
  cell (rowLoop n i m) a b = Some (entry n a b).
Proof.
  intros Hi Hm Hab. unfold rowLoop.
  apply (loop_keeps n _ (fun j => (j < n)%nat)); auto using rowLoop_indices.
  - intros. by apply cellStep_square.
  - intros. by apply cellStep_keeps.
Qed.

Lemma rowLoop_sets n i m a b :
  (i < n)%nat -> squareOf n m ->
  (a = i /\ (i <= b < n)%nat) \/ (b = i /\ (i <= a < n)%nat) ->
  cell (rowLoop n i m) a b = Some (entry n a b).
Proof.
  intros Hi Hm Hab. unfold rowLoop.
  set (j := if decide (a = i) then b else a).
  apply (loop_sets n _ (fun j => (j < n)%nat)
           (fun j a b => (a = i /\ b = j) \/ (a = j /\ b = i)))
    with (j := j); auto using rowLoop_indices.
  - intros. by apply cellStep_square.
  - intros. by apply cellStep_keeps.
  - intros. by apply cellStep_sets.
  - apply elem_of_seq. unfold j. destruct (decide (a = i)); lia.
  - unfold j. destruct (decide (a = i)); [left|right]; split; auto; lia.
Qed.

Lemma zeros_square n : squareOf n (zeros n).
Proof.
  split; unfold zeros.
  - apply length_replicate.
  - apply Forall_replicate, length_replicate.
Qed.

Lemma matrixLoop_square n m : squareOf n m -> squareOf n (matrixLoop n m).
Proof.
  intros Hm. unfold matrixLoop.
  apply (loop_square n _ (fun i => (i < n)%nat)); auto.
  - intros. by apply rowLoop_square.
  - apply Forall_forall. intros i Hi. apply elem_of_seq in Hi. lia.
Qed.

(** Every cell of the finished matrix holds its entry. *)
Lemma matrixLoop_cell n m a b :
  squareOf n m -> (a < n)%nat -> (b < n)%nat ->
  cell (matrixLoop n m) a b = Some (entry n a b).
Proof.
  intros Hm Ha Hb. unfold matrixLoop.
  apply (loop_sets n _ (fun i => (i < n)%nat)
           (fun i a b => (a = i /\ (i <= b < n)%nat)
                         \/ (b = i /\ (i <= a < n)%nat)))
    with (j := Nat.min a b); auto.
  - intros. by apply rowLoop_square.
  - intros. by apply rowLoop_keeps.
  - intros. by apply rowLoop_sets.
  - apply Forall_forall. intros i Hi. apply elem_of_seq in Hi. lia.
  - apply elem_of_seq. lia.
  - destruct (Nat.min_spec a b) as [[? ->]|[? ->]]; [left|right]; lia.
Qed.

Lemma num_abs_diff a b :
  Js.Math_abs (Js.num a - Js.num b)
  == inject_Z (Z.abs (Z.of_nat a - Z.of_nat b)).
Proof.
  unfold Js.Math_abs, Js.num, Qabs, Qminus, Qplus, Qopp, inject_Z, Qeq.
  simpl. f_equal. lia.
Qed.

Lemma entry_bounds n a b :
  (a < n)%nat -> (b < n)%nat -> 0 <= entry n a b <= 1.
Proof.
  intros Ha Hb. unfold entry.
  destruct (a =? b)%nat; [split; discriminate|].
  unfold similarityOf. rewrite num_abs_diff. unfold Js.num.
  set (d := Z.abs (Z.of_nat a - Z.of_nat b)).
  assert (Hn : 0 < inject_Z (Z.of_nat n))
    by (rewrite <- (Zlt_Qlt 0); lia).
  assert (Hd0 : 0 <= inject_Z d) by (rewrite <- (Zle_Qle 0); lia).
  assert (Hd1 : inject_Z d <= inject_Z (Z.of_nat n))
    by (rewrite <- Zle_Qle; lia).
  assert (H0 : 0 <= inject_Z d / inject_Z (Z.of_nat n)).
  { apply Qle_shift_div_l; [done|]. by rewrite Qmult_0_l. }
  assert (H1 : inject_Z d / inject_Z (Z.of_nat n) <= 1).
  { apply Qle_shift_div_r; [done|]. by rewrite Qmult_1_l. }
  split; lra.
Qed.

End MatrixBuilder.

(** C1.  For every frame buffer the matrix of [_calculateSimilarityMatrix]
    is square, of the size of the buffer; for all valid indices [i] and
    [j] the cells [(i, j)] and [(j, i)] hold the same number, which lies
    in [[0, 1]], and the cell [(i, i)] holds [1].  A null or empty buffer
    gives the empty matrix. *)
Theorem similarity_matrix_invariant (frameBuffer : option (list Analyzer.Frame)) :
  let frameCount := length (default [] frameBuffer) in
  let matrix := Analyzer.calculateSimilarityMatrix frameBuffer in
  squareOf frameCount matrix
  /\ forall i j, (i < frameCount)%nat -> (j < frameCount)%nat ->
       exists x,
         Analyzer.cell matrix i j = Some x
         /\ Analyzer.cell matrix j i = Some x
         /\ Analyzer.cell matrix i i = Some 1
         /\ 0 <= x <= 1.
Proof.
  destruct frameBuffer as [frames|]; simpl.
  2: { split; [by split|]. intros; lia. }
  destruct (length frames =? 0)%nat eqn:Hlen.
  - apply Nat.eqb_eq in Hlen. rewrite Hlen.
    split; [by split|]. intros; lia.
  - split; [apply matrixLoop_square, zeros_square|].
    intros i j Hi Hj. exists (entry (length frames) i j).
    rewrite !matrixLoop_cell by (auto using zeros_square).
    rewrite entry_diag, (entry_sym _ j i).
    auto using entry_bounds.
Qed.

Lemma similarity_matrix_invariant_witness :
  let frames := replicate 3 (Analyzer.mkFrame 0 0 [] 0) in
  let matrix := Analyzer.calculateSimilarityMatrix (Some frames) in
  exists x,
    Analyzer.cell matrix 0 2 = Some x
    /\ Analyzer.cell matrix 2 0 = Some x
    /\ Analyzer.cell matrix 0 0 = Some 1
    /\ 0 <= x <= 1.
Proof.
  refine (proj2 (similarity_matrix_invariant
                   (Some (replicate 3 (Analyzer.mkFrame 0 0 [] 0))))
                0%nat 2%nat _ _); simpl; lia.
Defined.

(** ** Candidate generation *)

Section Generator.

Import Analyzer.

(** A loop whose step appends what [out] gives for the element. *)
Lemma foldl_append {A B : Type} (f : list A -> B -> list A)
  (out : B -> list A) (l : list B) (cs : list A) :
  (forall cs x, f cs x = cs ++ out x) ->
  foldl f cs l = cs ++ flat_map out l.
Proof.
  intros Hf. revert cs.
  induction l as [|x l IH]; intros cs; simpl.
  - by rewrite app_nil_r.
  - by rewrite IH, Hf, <- app_assoc.
Qed.

Lemma pairStep_append M s e cs : pairStep M s e cs = cs ++ pairStep M s e [].
Proof.
  unfold pairStep. destruct (cell M s e) as [sim|]; [|by rewrite app_nil_r].
  destruct (Js.gt sim (8 # 10)); [done|by rewrite app_nil_r].
Qed.

Lemma endFrameLoop_append M n s cs :
  endFrameLoop M n s cs = cs ++ endFrameLoop M n s [].
Proof.
  unfold endFrameLoop.
  rewrite !(foldl_append _ (fun e => pairStep M s e [])); [done|..];
    intros; apply pairStep_append.
Qed.

Lemma startFrameLoop_append M n cs :
  startFrameLoop M n cs = cs ++ startFrameLoop M n [].
Proof.
  unfold startFrameLoop.
  rewrite !(foldl_append _ (fun s => endFrameLoop M n s [])); [done|..];
    intros; apply endFrameLoop_append.
Qed.

Lemma pushSuggestions_nil g :
  pushSuggestions g [] = map geminiCandidate (default [] (suggestions g)).
Proof.
  unfold pushSuggestions. destruct (suggestions g) as [l|]; [|done]. simpl.
  destruct l as [|s l]; [done|].
  change (0 <? length (s :: l))%nat with true. cbv iota.
  rewrite (foldl_append _ (fun s => [geminiCandidate s])) by done.
  simpl. f_equal.
Qed.

(** The candidate array: the suggestions first, then what the scan of
    the matrix pushes. *)
Lemma findLoopCandidates_split M g :
  findLoopCandidates M g
  = map geminiCandidate (default [] (suggestions g))
    ++ startFrameLoop M (length M) [].
Proof.
  unfold findLoopCandidates. rewrite pushSuggestions_nil.
  destruct (0 <? length M)%nat eqn:Hlen.
  - apply startFrameLoop_append.
  - apply Nat.ltb_ge in Hlen.
    assert (length M = 0%nat) as -> by lia.
    by rewrite app_nil_r.
Qed.

(** What the scan pushes: pairs [minFrames <= endFrame - startFrame <
    maxFrames] inside the matrix whose cell is above [0.8]. *)
Lemma startFrameLoop_elem M n c :
  c ∈ startFrameLoop M n [] ->
  exists s e sim,
    (s + minFrames <= e)%nat /\ (e < s + maxFrames)%nat /\ (e < n)%nat
    /\ cell M s e = Some sim /\ 8 # 10 < sim
    /\ c = algorithmCandidate s e sim.
Proof.
  unfold startFrameLoop.
  rewrite (foldl_append _ (fun s => endFrameLoop M n s []))
    by (intros; apply endFrameLoop_append).
  simpl. rewrite list_elem_of_In, in_flat_map.
  intros (s & _ & Hc). revert Hc. unfold endFrameLoop.
  rewrite (foldl_append _ (fun e => pairStep M s e []))
    by (intros; apply pairStep_append).
  simpl. rewrite in_flat_map. intros (e & He & Hc).
  apply list_elem_of_In, elem_of_seq in He.
  exists s, e. unfold pairStep in Hc.
  destruct (cell M s e) as [sim|]; [|by destruct Hc].
  destruct (Js.gt sim (8 # 10)) eqn:Hgt; [|by destruct Hc].
  destruct Hc as [<-|[]]. apply gt_iff in Hgt.
  exists sim. repeat split; auto; lia.
Qed.


End Generator.




(** ** Ranking *)

Section Ranker.

Import Analyzer.

Lemma byScoreDescending_gt x y :
  Js.gt (byScoreDescending x y) 0 = true <-> score x < score y.
Proof. rewrite gt_iff. unfold byScoreDescending. split; intros; lra. Qed.

Lemma sortInsert_perm {A : Type} (compareFn : A -> A -> Q) x l :
  Js.sortInsert compareFn x l ≡ₚ x :: l.
Proof.
  induction l as [|y l IH]; simpl; [done|].
  destruct (Js.gt (compareFn x y) 0); [|done].
  rewrite IH. apply perm_swap.
Qed.

Lemma Array_sort_perm {A : Type} (compareFn : A -> A -> Q) l :
  Js.Array_sort compareFn l ≡ₚ l.
Proof.
  induction l as [|x l IH]; simpl; [done|].
  unfold Js.Array_sort in *. simpl. by rewrite sortInsert_perm, IH.
Qed.

Lemma sortInsert_descending x l :
  StronglySorted (fun a b => score b <= score a) l ->
  StronglySorted (fun a b => score b <= score a)
                 (Js.sortInsert byScoreDescending x l).
Proof.
  induction 1 as [|y l Hl IH Hy]; simpl.
  - repeat constructor.
  - destruct (Js.gt (byScoreDescending x y) 0) eqn:Hxy.
    + apply byScoreDescending_gt in Hxy.
      constructor; [done|].
      rewrite sortInsert_perm. constructor; [lra|done].
    + apply gt_false_iff in Hxy. unfold byScoreDescending in Hxy.
      constructor; [by constructor|].
      constructor; [lra|].
      eapply Forall_impl; [exact Hy|]. simpl. intros z Hz. lra.
Qed.

Lemma Array_sort_descending l :
  StronglySorted (fun a b => score b <= score a)
                 (Js.Array_sort byScoreDescending l).
Proof.
  induction l as [|x l IH]; simpl; [constructor|].
  by apply sortInsert_descending.
Qed.

(** The elements of one score keep their places relative to each other. *)
Lemma sortInsert_stable s x l :
  List.filter (fun c => Qeq_bool (score c) s)
              (Js.sortInsert byScoreDescending x l)
  = List.filter (fun c => Qeq_bool (score c) s) (x :: l).
Proof.
  induction l as [|y l IH]; [done|].
  cbn [Js.sortInsert].
  destruct (Js.gt (byScoreDescending x y) 0) eqn:Hxy; [|done].
  apply byScoreDescending_gt in Hxy.
  cbn [List.filter] in *. rewrite IH.
  destruct (Qeq_bool (score x) s) eqn:Hx; [|done].
  destruct (Qeq_bool (score y) s) eqn:Hy; [|done].
  apply Qeq_bool_iff in Hx, Hy. lra.
Qed.

Lemma Array_sort_stable s l :
  List.filter (fun c => Qeq_bool (score c) s)
              (Js.Array_sort byScoreDescending l)
  = List.filter (fun c => Qeq_bool (score c) s) l.
Proof.
  induction l as [|x l IH]; [done|].
  change (Js.Array_sort byScoreDescending (x :: l))
    with (Js.sortInsert byScoreDescending x
            (Js.Array_sort byScoreDescending l)).
  rewrite sortInsert_stable. cbn [List.filter]. by rewrite IH.
Qed.

Lemma rankLoopCandidates_perm candidates :
  rankLoopCandidates candidates ≡ₚ map scoreCandidate candidates.
Proof. apply Array_sort_perm. Qed.

Lemma clamp_bounds x : 0 <= Js.Math_min 1 (Js.Math_max 0 x) <= 1.
Proof.
  unfold Js.Math_min, Js.Math_max. split.
  - apply Q.min_glb; [discriminate|apply Q.le_max_l].
  - apply Q.le_min_l.
Qed.

End Ranker.

(** C3, as the code has it.  Every ranked candidate has the score
    [0.6 * similarity + 0.3 * durationFit + sourceBoost] clamped to
    [[0, 1]], where [durationFit = 1 - |duration - 5| / 10] is not
    floored at 0 (the ideal duration is the constant 5) and
    [sourceBoost] is [0.1] exactly for the source [gemini]; so the score
    lies in [[0, 1]]. *)
Theorem ranked_score (candidates : list Analyzer.Candidate)
  (r : Analyzer.ScoredCandidate) :
  r ∈ Analyzer.rankLoopCandidates candidates ->
  let c := Analyzer.candidate r in
  let durationFit := 1 - Qabs (Analyzer.duration c - 5) / 10 in
  let sourceBoost :=
    if String.eqb (Analyzer.source c) "gemini" then 1 # 10 else 0 in
  c ∈ candidates
  /\ Analyzer.score r
     = Qmin 1 (Qmax 0 (Analyzer.similarity c * (6 # 10)
                       + durationFit * (3 # 10) + sourceBoost))
  /\ 0 <= Analyzer.score r <= 1.
Proof.
  intros Hr. rewrite rankLoopCandidates_perm in Hr.
  apply list_elem_of_fmap in Hr as (c & -> & Hc). simpl.
  split; [done|]. split; [done|]. apply clamp_bounds.
Qed.

Lemma ranked_score_witness :
  let c := Analyzer.algorithmCandidate 0 120 (9 # 10) in
  let r := Analyzer.scoreCandidate c in
  Analyzer.score r == 81 # 100 /\ 0 <= Analyzer.score r <= 1.
Proof.
  intros c r.
  assert (Hr : r ∈ Analyzer.rankLoopCandidates [c]).
  { apply list_elem_of_In. vm_compute. tauto. }
  split; [reflexivity|].
  exact (proj2 (proj2 (ranked_score [c] r Hr))).
Defined.

(** C3, as stated, fails.  A Gemini suggestion of frames 0 to 600 has a
    duration of 20 seconds; the code's [durationScore] is [-0.5] where
    the stated [durationFit] is [0], and the score is [0.49], not
    [0.64]. *)
Lemma score_differs_from_stated_formula :
  let c :=
    Analyzer.geminiCandidate (Analyzer.Suggestion.make 0 600 (9 # 10) None) in
  exists r,
    Analyzer.rankLoopCandidates [c] = [r]
    /\ Analyzer.score r == 49 # 100
    /\ spec_score 5 c == 64 # 100
    /\ ~ Analyzer.score r == spec_score 5 c.
Proof.
  eexists. split; [vm_compute; reflexivity|].
  split; [reflexivity|]. split; [reflexivity|]. discriminate.
Qed.

(** C5, as the code has it.  The ranked list is in descending order of
    score, and the candidates of any one score stand in the order they
    had in the input: no further key breaks a tie. *)
Theorem ranked_order (candidates : list Analyzer.Candidate) :
  let ranked := Analyzer.rankLoopCandidates candidates in
  descendingByScore ranked
  /\ forall s,
       withScore s ranked
       = withScore s (map Analyzer.scoreCandidate candidates).
Proof.
  split.
  - apply Array_sort_descending.
  - intros s. apply Array_sort_stable.
Qed.

(** C5, as stated, fails.  Two candidates of source [algorithm] score
    [0.81] both: the one of similarity [0.85] over 5 seconds, first in
    the input, and the one of similarity [0.9] over 4 seconds.  The
    ranked list keeps the input order, the smaller similarity first. *)
Lemma tie_not_broken_by_similarity :
  let a := Analyzer.algorithmCandidate 0 150 (85 # 100) in
  let b := Analyzer.algorithmCandidate 0 120 (9 # 10) in
  exists ra rb,
    Analyzer.rankLoopCandidates [a; b] = [ra; rb]
    /\ Analyzer.candidate ra = a /\ Analyzer.candidate rb = b
    /\ Analyzer.score ra == Analyzer.score rb
    /\ Analyzer.similarity a < Analyzer.similarity b.
Proof.
  do 2 eexists. split; [vm_compute; reflexivity|].
  repeat split.
Qed.

(** C9.  For every candidate list the ranker returns a list of the same
    length whose candidates are a permutation of the input, each with
    all its fields as they were and with a score that depends on the
    candidate alone; the empty list gives the empty list. *)
Theorem rank_keeps_candidates (candidates : list Analyzer.Candidate) :
  let ranked := Analyzer.rankLoopCandidates candidates in
  map Analyzer.candidate ranked ≡ₚ candidates
  /\ length ranked = length candidates
  /\ Forall (fun r => r = Analyzer.scoreCandidate (Analyzer.candidate r))
            ranked
  /\ Analyzer.rankLoopCandidates [] = [].
Proof.
  intros ranked. pose proof (rankLoopCandidates_perm candidates) as Hp.
  fold ranked in Hp. repeat split.
  - rewrite Hp, map_map. simpl. by rewrite map_id.
  - by rewrite Hp, length_map.
  - rewrite Hp. apply Forall_forall. intros r Hr.
    by apply list_elem_of_fmap in Hr as (c & -> & _).
Qed.

(** ** Transition selection *)

(** C4, as the code has it.  The plan of [calculateOptimalTransition]
    follows the decision table on the similarity that the engine itself
    computes between the contents at the two loop points, every row
    closed at its upper end: above 0.95 type [none] and duration 0;
    above 0.90 up to 0.95 [crossfade] and 0.2; above 0.70 up to 0.90
    [crossfade] and 0.5; above 0.40 up to 0.70 [crossfade] and 1.0; up
    to 0.40, 0.40 included, [morph] and 1.5.  No candidate is read: with
    the two methods as the source has them the similarity is 0.8 and
    the plan is a crossfade of 0.5 seconds, whatever the media and the
    loop points are. *)
Theorem transition_decision_table :
  (forall (MediaData Content : Type)
          (model : Transition.ContentModel MediaData Content)
          (defaultCrossfadeDuration : Q) (mediaData : MediaData)
          (loopPoints : Transition.LoopPoints),
     let plan :=
       Transition.calculateOptimalTransition defaultCrossfadeDuration
         mediaData loopPoints in
     let s := Transition.similarity plan in
     s = Transition.calculateContentSimilarity
           (Transition.extractContentAtTime mediaData
              (Transition.loopStart loopPoints))
           (Transition.extractContentAtTime mediaData
              (Transition.loopEnd loopPoints))
     /\ (95 # 100 < s ->
         Transition.type plan = "none"%string
         /\ Transition.duration plan = 0)
     /\ (9 # 10 < s <= 95 # 100 ->
         Transition.type plan = "crossfade"%string
         /\ Transition.duration plan = 2 # 10)
     /\ (7 # 10 < s <= 9 # 10 ->
         Transition.type plan = "crossfade"%string
         /\ Transition.duration plan = 5 # 10)
     /\ (4 # 10 < s <= 7 # 10 ->
         Transition.type plan = "crossfade"%string
         /\ Transition.duration plan = 1)
     /\ (s <= 4 # 10 ->
         Transition.type plan = "morph"%string
         /\ Transition.duration plan = 15 # 10))
  /\ (forall (MediaData : Type) (defaultCrossfadeDuration : Q)
             (mediaData : MediaData) (loopPoints : Transition.LoopPoints),
        Transition.calculateOptimalTransition
          (H := Transition.placeholderContent MediaData)
          defaultCrossfadeDuration mediaData loopPoints
        = Transition.mkPlan "crossfade" (5 # 10) (8 # 10)).
Proof.
  split; [|reflexivity].
  intros MediaData Content model defaultCrossfadeDuration mediaData
         loopPoints plan s.
  subst s plan. unfold Transition.calculateOptimalTransition.
  set (sim := Transition.calculateContentSimilarity _ _).
  destruct (Js.gt sim (9 # 10)) eqn:H9;
    destruct (Js.gt sim (95 # 100)) eqn:H95;
    destruct (Js.gt sim (7 # 10)) eqn:H7;
    destruct (Js.gt sim (4 # 10)) eqn:H4;
    cbn [Transition.type Transition.duration Transition.similarity];
    repeat match goal with
           | Hgt : Js.gt _ _ = true |- _ => apply gt_iff in Hgt
           | Hgt : Js.gt _ _ = false |- _ => apply gt_false_iff in Hgt
           end;
    (split; [reflexivity|]);
    repeat split; try reflexivity; lra.
Qed.

Lemma transition_decision_table_witness :
  let model : Transition.ContentModel unit Q :=
    {| Transition.extractContentAtTime := fun _ time => time;
       Transition.calculateContentSimilarity :=
         fun startContent endContent => 1 - (endContent - startContent) / 10 |} in
  let plan :=
    Transition.calculateOptimalTransition (5 # 10) tt
      (Transition.mkLoopPoints 0 6) in
  Transition.similarity plan <= 4 # 10
  /\ Transition.type plan = "morph"%string
  /\ Transition.duration plan = 15 # 10.
Proof.
  intros model plan.
  assert (Hs : Transition.similarity plan <= 4 # 10)
    by (vm_compute; discriminate).
  split; [exact Hs|].
  exact (proj2 (proj2 (proj2 (proj2 (proj2
           (proj1 transition_decision_table unit Q model (5 # 10) tt
              (Transition.mkLoopPoints 0 6)))))) Hs).
Defined.

(** C4, as stated, fails.  At a similarity of exactly 0.40, which the
    stated row 0.40-0.70 covers, the engine answers [morph] and 1.5
    seconds, not a crossfade of 1.0.  And the similarity of the best
    candidate plays no part: for the candidate of the installed client's
    suggestion, similarity 0.92 and so a crossfade of 0.2 seconds by the
    stated table, the engine of the source plans a crossfade of 0.5
    seconds on its own similarity of 0.8. *)
Lemma decision_table_boundary_and_candidate :
  (let model : Transition.ContentModel unit Q :=
     {| Transition.extractContentAtTime := fun _ time => time;
        Transition.calculateContentSimilarity :=
          fun startContent endContent =>
            1 - (endContent - startContent) / 10 |} in
   let plan :=
     Transition.calculateOptimalTransition (5 # 10) tt
       (Transition.mkLoopPoints 0 6) in
   Transition.similarity plan == 4 # 10
   /\ Transition.type plan = "morph"%string
   /\ Transition.duration plan = 15 # 10
   /\ Transition.type plan <> "crossfade"%string)
  /\ (let bestCandidate :=
        Analyzer.geminiCandidate
          (Analyzer.Suggestion.make 6 24 (92 # 100) None) in
      let plan :=
        Transition.calculateOptimalTransition
          (H := Transition.placeholderContent unit) (5 # 10) tt
          (Transition.mkLoopPoints (Analyzer.startTime bestCandidate)
                                   (Analyzer.endTime bestCandidate)) in
      9 # 10 < Analyzer.similarity bestCandidate <= 95 # 100
      /\ Transition.similarity plan == 8 # 10
      /\ Transition.type plan = "crossfade"%string
      /\ Transition.duration plan = 5 # 10
      /\ ~ Transition.duration plan == 2 # 10).
Proof.
  split.
  - cbn zeta. split; [reflexivity|]. split; [reflexivity|].
    split; [reflexivity|discriminate].
  - cbn zeta. split; [split; [reflexivity|discriminate]|].
    split; [reflexivity|]. split; [reflexivity|].
    split; [reflexivity|discriminate].
Qed.

(** ** Frame blending *)

Lemma blendExpr_weight_0 A B : FrameBlending.blendExpr 0 A B == A.
Proof. unfold FrameBlending.blendExpr. ring. Qed.

Lemma blendExpr_weight_1 A B : FrameBlending.blendExpr 1 A B == B.
Proof. unfold FrameBlending.blendExpr. ring. Qed.

Lemma blend_weight_finite (i frameCount : nat) :
  (2 <= frameCount)%nat ->
  Js.div (Js.num i) (Js.num frameCount - 1)
  = Js.Finite (Js.num i / (Js.num frameCount - 1)).
Proof.
  intros Hn. unfold Js.div.
  destruct (Qeq_bool (Js.num frameCount - 1) 0) eqn:Hz; [|done].
  apply Qeq_bool_iff in Hz. exfalso.
  assert (H1 : inject_Z 2 <= Js.num frameCount)
    by (unfold Js.num; rewrite <- Zle_Qle; lia).
  change (inject_Z 2) with 2 in H1. lra.
Qed.

(** With at least two frames to blend and enough frames on each side,
    output [i] is [start * (1 - alpha) + end * alpha] with
    [alpha = i / (frameCount - 1)], [start] the [i]-th start frame and
    [end] the [i]-th of the last [frameCount] end frames. *)
Lemma createBlendedFrames_outputs (startFrames endFrames : list FrameBlending.Picture)
  (frameCount : nat) :
  (2 <= frameCount)%nat ->
  (frameCount <= length startFrames)%nat ->
  (frameCount <= length endFrames)%nat ->
  exists out,
    FrameBlending.createBlendedFrames startFrames endFrames frameCount
    = Js.Ok out
    /\ length out = frameCount
    /\ forall i, (i < frameCount)%nat ->
         out !! i
         = Some (Some (zip_with
                         (FrameBlending.blendExpr
                            (Js.num i / (Js.num frameCount - 1)))
                         (nth i startFrames [])
                         (nth (length endFrames - frameCount + i)
                              endFrames []))).
Proof.
  intros Hn Hs He. unfold FrameBlending.createBlendedFrames.
  assert (Hs' : (length startFrames <? frameCount)%nat = false)
    by (apply Nat.ltb_ge; lia).
  assert (He' : (length endFrames <? frameCount)%nat = false)
    by (apply Nat.ltb_ge; lia).
  rewrite Hs', He'. cbn [orb]. eexists. split; [reflexivity|].
  split; [by rewrite length_map, length_seq|].
  intros i Hi. rewrite list_lookup_fmap, lookup_seq_lt by done.
  cbn [fmap option_fmap option_map Nat.add].
  by rewrite blend_weight_finite.
Qed.

(** C7 on [createBlendedFrames].  With two frames on each side the
    weights are [0] and [1]; the picture of weight [0] is the first
    start frame and the picture of weight [1] is the last end frame,
    the reverse of end-to-start.  With one frame the weight is [0 / 0],
    not a number, and no picture is defined. *)
Lemma blended_boundary_on_two_frames :
  let startFrames := [[10; 11]; [20; 21]] in
  let endFrames := [[30; 31]; [40; 41]] in
  (exists p0 p1,
     FrameBlending.createBlendedFrames startFrames endFrames 2
     = Js.Ok [Some p0; Some p1]
     /\ Forall2 Qeq p0 [10; 11] /\ Forall2 Qeq p1 [40; 41])
  /\ Js.div (Js.num 0) (Js.num 1 - 1) = Js.NaN
  /\ FrameBlending.createBlendedFrames startFrames endFrames 1
     = Js.Ok [None].
Proof.
  split; [|split; reflexivity].
  do 2 eexists. split; [vm_compute; reflexivity|].
  split; repeat constructor.
Qed.

(** ** The analysis as a whole *)

Section Analysis.

Import Analyzer.

Lemma ranked_elem candidates r :
  r ∈ rankLoopCandidates candidates ->
  exists c, c ∈ candidates /\ r = scoreCandidate c.
Proof.
  intros Hr. rewrite rankLoopCandidates_perm in Hr.
  apply list_elem_of_fmap in Hr as (c & -> & Hc). eauto.
Qed.

Lemma scoreCandidate_bounds c : 0 <= score (scoreCandidate c) <= 1.
Proof. apply clamp_bounds. Qed.

(** [analyzeMedia] throws only when both buffers are null. *)
Lemma analyzeMedia_ok this options now :
  is_Some (frameBuffer this) \/ is_Some (audioBuffer this) ->
  exists r,
    analyzeMedia this options now = Js.Ok r
    /\ loopCandidates r
       = rankLoopCandidates
           (findLoopCandidates (calculateSimilarityMatrix (frameBuffer this))
                               (analyzeWithGemini this options))
    /\ bestLoopPoint r = head (loopCandidates r).
Proof.
  intros Hbuf. unfold analyzeMedia.
  destruct (frameBuffer this) as [frames|] eqn:Hf;
    [|destruct (audioBuffer this) as [audio|] eqn:Ha];
    try (eexists; split; [reflexivity|]; by split).
  destruct Hbuf as [[? [=]]|[? [=]]].
Qed.

Lemma analyzeMedia_inv this options now r :
  analyzeMedia this options now = Js.Ok r ->
  loopCandidates r
  = rankLoopCandidates
      (findLoopCandidates (calculateSimilarityMatrix (frameBuffer this))
                          (analyzeWithGemini this options))
  /\ bestLoopPoint r = head (loopCandidates r).
Proof.
  unfold analyzeMedia.
  destruct (frameBuffer this) as [frames|];
    [|destruct (audioBuffer this) as [audio|]];
    intros [= <-]; by split.
Qed.


End Analysis.




(** ** The optimizer's quality metrics *)

(** C8, as the code has it.  When [processMedia] returns, the
    [seamlessScore] is the score of the best loop point, the head of
    the ranked list, times 100, not rounded; it lies in [[0, 100]]. *)
Theorem seamlessScore_is_scaled_score (analyzer : Analyzer.State)
  (firebase : option Firebase.Integration)
  (params : Optimizer.Params) (now : string) (dateNow : Z)
  (result : Optimizer.ProcessResult) :
  Optimizer.processMedia analyzer firebase params now dateNow
  = Js.Ok result ->
  let seamlessScore :=
    Optimizer.seamlessScore
      (Optimizer.qualityMetrics (Optimizer.loopMetadata result)) in
  exists analysis best,
    Analyzer.analyzeMedia analyzer
      (Analyzer.mkOptions (Optimizer.minLoopDuration params)
                          (Optimizer.maxLoopDuration params)
                          (Optimizer.quality params)) now
    = Js.Ok analysis
    /\ head (Analyzer.loopCandidates analysis) = Some best
    /\ seamlessScore = Analyzer.score best * 100
    /\ 0 <= seamlessScore <= 100.
Proof.
  unfold Optimizer.processMedia.
  destruct (Analyzer.analyzeMedia _ _ _) as [analysis|] eqn:Ha; [|done].
  destruct (analyzeMedia_inv _ _ _ _ Ha) as [Hranked Hbest].
  destruct (Optimizer.optimizeTransition _ _) as [loop|]; [|done].
  cbv zeta.
  match goal with
  | |- context [match ?saved with Js.Ok _ => _ | Js.Throw _ => _ end] =>
      destruct saved as [savedResults|]; [|done]
  end.
  destruct (Analyzer.bestLoopPoint analysis) as [best|] eqn:Hb; [|done].
  intros [= <-]. simpl. exists analysis, best.
  split; [done|]. split; [done|]. split; [done|].
  assert (Hin : best ∈ Analyzer.loopCandidates analysis)
    by (by apply head_Some_elem_of).
  rewrite Hranked in Hin. apply ranked_elem in Hin as (c & _ & ->).
  pose proof (scoreCandidate_bounds c). lra.
Qed.

Lemma seamlessScore_is_scaled_score_witness :
  let analyzer :=
    Analyzer.mkState (Some Analyzer.placeholderClient)
      (Some (replicate 30 (Analyzer.mkFrame 0 0 [] 0))) None in
  let params := Optimizer.mkParams "high" 3 10 "crossfade" None false in
  exists result,
    Optimizer.processMedia analyzer None params "now" 0 = Js.Ok result
    /\ 0 <= Optimizer.seamlessScore
              (Optimizer.qualityMetrics (Optimizer.loopMetadata result))
       <= 100.
Proof.
  intros analyzer params.
  destruct (Optimizer.processMedia analyzer None params "now" 0)
    as [result|message] eqn:Hrun.
  - exists result. split; [reflexivity|].
    destruct (seamlessScore_is_scaled_score analyzer None params "now" 0
                result Hrun)
      as (analysis & best & _ & _ & _ & Hbounds).
    exact Hbounds.
  - vm_compute in Hrun. discriminate Hrun.
Defined.

(** C8, as stated, fails.  A new optimizer without Firebase is given an
    audio file: the analyzer keeps its empty frame buffer, the installed
    client suggests the frames 0 to 0, the only candidate scores 0.802
    and the [seamlessScore] of the result is 80.2, where rounding gives
    80. *)
Lemma seamlessScore_is_not_rounded :
  let params := Optimizer.mkParams "high" 3 10 "crossfade" None false in
  exists result,
    snd (Pipeline.processMedia Session.construct None
           (Pipeline.Blob "audio/wav") params "now" 0 (fun _ => ([], 0)))
    = Js.Ok result
    /\ let seamlessScore :=
         Optimizer.seamlessScore
           (Optimizer.qualityMetrics (Optimizer.loopMetadata result)) in
       seamlessScore == 802 # 10
       /\ Js.Math_round seamlessScore = 80%Z
       /\ ~ seamlessScore == inject_Z (Js.Math_round seamlessScore)
       /\ forall z : Z, ~ seamlessScore == inject_Z z.
Proof.
  eexists. split; [vm_compute; reflexivity|].
  cbn zeta. split; [reflexivity|]. split; [reflexivity|].
  split; [discriminate|].
  intros z Hz. unfold Qeq in Hz. simpl in Hz. lia.
Qed.

(** ** The frame sampler *)

Section Sampler.

Context {Value : Type} (undefined : Value).

Lemma sampleFrames_long (frames : list Value) (maxCount : nat) :
  (maxCount < length frames)%nat ->
  GeminiIntegration.sampleFrames undefined frames maxCount
  = map (fun i => nth (i * (length frames / maxCount)) frames undefined)
        (seq 0 maxCount).
Proof.
  intros Hlong. unfold GeminiIntegration.sampleFrames.
  destruct (length frames <=? maxCount)%nat eqn:Hle;
    [apply Nat.leb_le in Hle; lia|].
  by rewrite (foldl_append _
    (fun i => [nth (i * (length frames / maxCount)) frames undefined])).
Qed.

(** Reading a list at increasing places gives a sublist of it. *)
Lemma reads_sublist (l : list Value) : forall (k : nat) (places : list nat),
  StronglySorted lt places ->
  Forall (fun i => (k <= i < k + length l)%nat) places ->
  sublist (map (fun i => nth (i - k) l undefined) places) l.
Proof.
  induction l as [|x l IH]; intros k places Hsorted Hrange.
  - destruct places as [|i places]; [constructor|].
    apply Forall_cons in Hrange as [Hi _]. simpl in Hi. lia.
  - assert (Hshift : forall ps,
              Forall (fun i => (S k <= i < k + length (x :: l))%nat) ps ->
              map (fun i => nth (i - k) (x :: l) undefined) ps
              = map (fun i => nth (i - S k) l undefined) ps).
    { intros ps Hps. apply map_ext_in. intros i Hi.
      rewrite Forall_forall in Hps. apply list_elem_of_In, Hps in Hi.
      replace (i - k)%nat with (S (i - S k)) by lia. done. }
    destruct places as [|i places]; [apply sublist_nil_l|].
    apply StronglySorted_inv in Hsorted as [Hsorted Hi].
    apply Forall_cons in Hrange as [Hik Hrange].
    assert (Hrest : Forall
              (fun j => (S k <= j < k + length (x :: l))%nat) places).
    { rewrite Forall_forall in *. intros j Hj.
      specialize (Hi j Hj). specialize (Hrange j Hj). lia. }
    destruct (decide (i = k)) as [->|Hne].
    + cbn [map]. rewrite Nat.sub_diag. cbn [nth].
      rewrite Hshift by done. apply sublist_skip.
      apply IH; [done|].
      eapply Forall_impl; [exact Hrest|]. simpl. intros; lia.
    + rewrite Hshift.
      * apply sublist_cons. apply IH; [by constructor|].
        constructor; [simpl in *; lia|].
        eapply Forall_impl; [exact Hrest|]. simpl. intros; lia.
      * constructor; [simpl in *; lia|done].
Qed.

Lemma multiples_sorted (step : nat) : forall (n a : nat),
  (1 <= step)%nat ->
  StronglySorted lt (map (fun i => (i * step)%nat) (seq a n)).
Proof.
  induction n as [|n IH]; intros a Hstep; simpl; constructor; auto.
  apply Forall_forall. intros j Hj.
  apply list_elem_of_fmap in Hj as (i & -> & Hi).
  apply elem_of_seq in Hi. nia.
Qed.

End Sampler.

(** C10.  For a non-empty [frames] and a positive [maxCount],
    [_sampleFrames] returns [frames] itself when its length is at most
    [maxCount]; otherwise it returns exactly [maxCount] frames, the
    [i]-th being [frames[i * step]] with [step = floor(length /
    maxCount)], every such index inside the array, in the order of the
    input. *)
Theorem sampleFrames_spec {Value : Type} (undefined : Value)
  (frames : list Value) (maxCount : nat) :
  frames <> [] -> (0 < maxCount)%nat ->
  let sampled := GeminiIntegration.sampleFrames undefined frames maxCount in
  let step := (length frames / maxCount)%nat in
  ((length frames <= maxCount)%nat -> sampled = frames)
  /\ ((maxCount < length frames)%nat ->
      length sampled = maxCount
      /\ (forall i, (i < maxCount)%nat ->
            (i * step < length frames)%nat
            /\ sampled !! i = frames !! (i * step)%nat)
      /\ (1 <= step)%nat
      /\ sublist sampled frames).
Proof.
  intros Hne Hpos sampled step. split.
  - intros Hshort. unfold sampled, GeminiIntegration.sampleFrames.
    apply Nat.leb_le in Hshort. by rewrite Hshort.
  - intros Hlong. unfold sampled. rewrite sampleFrames_long by done.
    fold step.
    assert (Hstep : (1 <= step)%nat)
      by (apply Nat.div_str_pos; lia).
    assert (Hmul : (maxCount * step <= length frames)%nat)
      by (apply Nat.Div0.mul_div_le).
    assert (Hin : forall i, (i < maxCount)%nat ->
                            (i * step < length frames)%nat)
      by (intros i Hi; nia).
    split; [by rewrite length_map, length_seq|].
    split; [|split; [done|]].
    + intros i Hi. split; [auto|].
      rewrite list_lookup_fmap, lookup_seq_lt by done. simpl.
      destruct (lookup_lt_is_Some_2 frames (i * step)) as [x Hx]; [auto|].
      rewrite Hx. f_equal. by apply nth_lookup_Some.
    + rewrite <- (map_map (fun i => (i * step)%nat)
                          (fun p => nth p frames undefined)).
      erewrite (map_ext (fun p => nth p frames undefined)
                        (fun p => nth (p - 0) frames undefined));
        [|intros p; by rewrite Nat.sub_0_r].
      apply reads_sublist; [by apply multiples_sorted|].
      apply Forall_forall. intros p Hp.
      apply list_elem_of_fmap in Hp as (i & -> & Hi).
      apply elem_of_seq in Hi. split; [lia|]. simpl. apply Hin. lia.
Qed.

Lemma sampleFrames_spec_witness :
  let frames := [10; 11; 12; 13; 14; 15; 16; 17; 18; 19; 20]%nat in
  GeminiIntegration.sampleFrames 0%nat frames 5 = [10; 12; 14; 16; 18]%nat
  /\ length (GeminiIntegration.sampleFrames 0%nat frames 5) = 5%nat
  /\ sublist (GeminiIntegration.sampleFrames 0%nat frames 5) frames.
Proof.
  intros frames.
  assert (Hne : frames <> []) by discriminate.
  assert (Hpos : (0 < 5)%nat) by lia.
  assert (Hlong : (5 < length frames)%nat) by (simpl; lia).
  split; [reflexivity|].
  destruct (proj2 (sampleFrames_spec 0%nat frames 5 Hne Hpos) Hlong)
    as (Hlen & _ & _ & Hsub).
  split; [exact Hlen|exact Hsub].
Defined.

(** * Further properties of the analyzer *)

Section GeneratorMore.

Import Analyzer.

Lemma startFrameLoop_intro M n s e sim :
  (s + minFrames <= e)%nat -> (e < s + maxFrames)%nat -> (e < n)%nat ->
  cell M s e = Some sim -> 8 # 10 < sim ->
  algorithmCandidate s e sim ∈ startFrameLoop M n [].
Proof.
  intros Hlo Hhi Hn Hcell Hsim. unfold startFrameLoop.
  rewrite (foldl_append _ (fun s => endFrameLoop M n s []))
    by (intros; apply endFrameLoop_append).
  simpl. rewrite list_elem_of_In, in_flat_map. exists s. split.
  - apply list_elem_of_In, elem_of_seq. lia.
  - unfold endFrameLoop.
    rewrite (foldl_append _ (fun e => pairStep M s e []))
      by (intros; apply pairStep_append).
    simpl. rewrite in_flat_map. exists e. split.
    + apply list_elem_of_In, elem_of_seq. lia.
    + unfold pairStep. rewrite Hcell.
      apply gt_iff in Hsim. rewrite Hsim. by left.
Qed.

Lemma num_inject n : Js.num n = inject_Z (Z.of_nat n).
Proof. reflexivity. Qed.

(** On the builder's matrix, the cell of a pair [s <= e] is above [0.8]
    exactly when the pair is less than a fifth of the frames apart. *)
Lemma similarityOf_above n s e :
  (s <= e)%nat -> (0 < n)%nat ->
  8 # 10 < similarityOf n s e <-> (5 * (e - s) < n)%nat.
Proof.
  intros Hse Hn. unfold similarityOf. rewrite num_abs_diff.
  replace (Z.abs (Z.of_nat s - Z.of_nat e)) with (Z.of_nat (e - s)) by lia.
  unfold Js.num.
  assert (Hpos : 0 < inject_Z (Z.of_nat n))
    by (rewrite <- (Zlt_Qlt 0); lia).
  set (d := inject_Z (Z.of_nat (e - s))).
  set (q := inject_Z (Z.of_nat n)) in *.
  assert (Hiff : (5 * (e - s) < n)%nat <-> 5 * d < q).
  { unfold d, q. change 5 with (inject_Z 5).
    rewrite <- inject_Z_mult, <- Zlt_Qlt. lia. }
  rewrite Hiff. split.
  - intros H. assert (Hd : d / q < 2 # 10) by lra.
    assert (Hdq : d == (d / q) * q) by (field; lra).
    assert (Hm : (d / q) * q < (2 # 10) * q)
      by (apply Qmult_lt_compat_r; done).
    lra.
  - intros H. assert (Hd : d / q < 2 # 10).
    { apply Qlt_shift_div_r; [done|lra]. }
    lra.
Qed.

Lemma findLoopCandidates_elem M g c :
  c ∈ findLoopCandidates M g <->
  (exists suggestion,
     suggestion ∈ default [] (suggestions g)
     /\ c = geminiCandidate suggestion)
  \/ (exists s e sim,
        (s + minFrames <= e)%nat /\ (e < s + maxFrames)%nat
        /\ (e < length M)%nat
        /\ cell M s e = Some sim /\ 8 # 10 < sim
        /\ c = algorithmCandidate s e sim).
Proof.
  rewrite findLoopCandidates_split, elem_of_app. split.
  - intros [Hc|Hc].
    + left. apply list_elem_of_fmap in Hc as (s & -> & Hs). eauto.
    + right. apply startFrameLoop_elem in Hc
        as (s & e & sim & ? & ? & ? & ? & ? & ->).
      exists s, e, sim. auto 10.
  - intros [(s & Hs & ->)|(s & e & sim & ? & ? & ? & ? & ? & ->)].
    + left. by apply list_elem_of_fmap_2.
    + right. by apply startFrameLoop_intro.
Qed.

End GeneratorMore.

(** X1.  The candidate array holds exactly the candidates of the Gemini
    suggestions and, for every pair of frames with [60 <= endFrame -
    startFrame < 450], [endFrame] inside the matrix and a cell above
    [0.8], the candidate of that pair. *)
Theorem candidates_are_exactly (similarityMatrix : Analyzer.Matrix)
  (geminiAnalysis : Analyzer.GeminiAnalysis) (c : Analyzer.Candidate) :
  c ∈ Analyzer.findLoopCandidates similarityMatrix geminiAnalysis
  <-> (exists suggestion,
         suggestion ∈ default [] (Analyzer.suggestions geminiAnalysis)
         /\ c = Analyzer.geminiCandidate suggestion)
      \/ (exists s e sim,
            (s + 60 <= e)%nat /\ (e < s + 450)%nat
            /\ (e < length similarityMatrix)%nat
            /\ Analyzer.cell similarityMatrix s e = Some sim
            /\ 8 # 10 < sim
            /\ c = Analyzer.algorithmCandidate s e sim).
Proof. apply findLoopCandidates_elem. Qed.

(** X2.  Every emitted candidate carries the times of its own frames,
    each computed from the frame numbers: the start time is the start
    frame over 30, the end time the end frame over 30, and the duration
    the difference of the two frame numbers over 30. *)
Theorem candidate_times_consistent (similarityMatrix : Analyzer.Matrix)
  (geminiAnalysis : Analyzer.GeminiAnalysis) (c : Analyzer.Candidate) :
  c ∈ Analyzer.findLoopCandidates similarityMatrix geminiAnalysis ->
  Analyzer.startTime c = inject_Z (Analyzer.startFrame c) / 30
  /\ Analyzer.endTime c = inject_Z (Analyzer.endFrame c) / 30
  /\ Analyzer.duration c
     = (inject_Z (Analyzer.endFrame c) - inject_Z (Analyzer.startFrame c))
       / 30.
Proof.
  intros Hc. apply findLoopCandidates_elem in Hc.
  destruct Hc as [(s & _ & ->)|(s & e & sim & _ & _ & _ & _ & _ & ->)];
    by repeat split.
Qed.

Lemma candidate_times_consistent_witness :
  let matrix := replicate 62 (replicate 62 1) in
  let analysis :=
    Analyzer.mkGeminiAnalysis None
      (Analyzer.mkContentAnalysis "medium" "high" "high") in
  let c := Analyzer.algorithmCandidate 1 61 1 in
  c ∈ Analyzer.findLoopCandidates matrix analysis
  /\ Analyzer.duration c
     = (inject_Z (Analyzer.endFrame c) - inject_Z (Analyzer.startFrame c))
       / 30.
Proof.
  intros matrix analysis c.
  assert (Hin : c ∈ Analyzer.findLoopCandidates matrix analysis).
  { apply list_elem_of_In. vm_compute. tauto. }
  split; [exact Hin|].
  exact (proj2 (proj2 (candidate_times_consistent matrix analysis c Hin))).
Defined.

Section BuilderAndScan.

Import Analyzer.

Lemma calculateSimilarityMatrix_cell frames a b :
  (a < length frames)%nat -> (b < length frames)%nat ->
  cell (calculateSimilarityMatrix (Some frames)) a b
  = Some (entry (length frames) a b).
Proof.
  intros Ha Hb. unfold calculateSimilarityMatrix.
  destruct (length frames =? 0)%nat eqn:Hlen;
    [apply Nat.eqb_eq in Hlen; lia|].
  apply matrixLoop_cell; auto using zeros_square.
Qed.

Lemma calculateSimilarityMatrix_length frames :
  length (calculateSimilarityMatrix (Some frames)) = length frames.
Proof.
  unfold calculateSimilarityMatrix.
  destruct (length frames =? 0)%nat eqn:Hlen;
    [apply Nat.eqb_eq in Hlen; by rewrite Hlen|].
  apply matrixLoop_square, zeros_square.
Qed.

End BuilderAndScan.

(** X3.  On the matrix that the builder makes of [n] frames, the scan
    emits the pair [(s, e)] exactly when [60 <= e - s < 450], [e < n]
    and [5 * (e - s) < n], with the similarity [1 - (e - s) / n]; so a
    buffer of at most 300 frames yields the candidates of the Gemini
    suggestions and nothing else. *)
Theorem scan_of_built_matrix (frames : list Analyzer.Frame)
  (geminiAnalysis : Analyzer.GeminiAnalysis) :
  let n := length frames in
  let candidates :=
    Analyzer.findLoopCandidates
      (Analyzer.calculateSimilarityMatrix (Some frames)) geminiAnalysis in
  (forall c,
     c ∈ candidates /\ Analyzer.source c = "algorithm"%string
     <-> exists s e,
           (s + 60 <= e)%nat /\ (e < s + 450)%nat /\ (e < n)%nat
           /\ (5 * (e - s) < n)%nat
           /\ c = Analyzer.algorithmCandidate s e
                    (Analyzer.similarityOf n s e))
  /\ ((n <= 300)%nat ->
      candidates
      = map Analyzer.geminiCandidate
            (default [] (Analyzer.suggestions geminiAnalysis))).
Proof.
  intros n candidates.
  assert (Hiff : forall c,
    c ∈ Analyzer.startFrameLoop
          (Analyzer.calculateSimilarityMatrix (Some frames)) n []
    <-> exists s e,
          (s + 60 <= e)%nat /\ (e < s + 450)%nat /\ (e < n)%nat
          /\ (5 * (e - s) < n)%nat
          /\ c = Analyzer.algorithmCandidate s e
                   (Analyzer.similarityOf n s e)).
  { intros c. split.
    - intros Hc. apply startFrameLoop_elem in Hc
        as (s & e & sim & Hlo & Hhi & He & Hcell & Hsim & ->).
      change Analyzer.minFrames with 60%nat in Hlo.
      change Analyzer.maxFrames with 450%nat in Hhi.
      rewrite calculateSimilarityMatrix_cell in Hcell by (unfold n in *; lia).
      unfold entry in Hcell.
      destruct (s =? e)%nat eqn:Hse; [apply Nat.eqb_eq in Hse; lia|].
      injection Hcell as <-. exists s, e.
      repeat split; auto.
      apply similarityOf_above; [lia|lia|done].
    - intros (s & e & Hlo & Hhi & He & Hfar & ->).
      apply startFrameLoop_intro; auto.
      + rewrite calculateSimilarityMatrix_cell by (unfold n in *; lia).
        unfold entry.
        destruct (s =? e)%nat eqn:Hse; [apply Nat.eqb_eq in Hse; lia|done].
      + apply similarityOf_above; [lia|lia|done]. }
  unfold candidates. split.
  - intros c. rewrite findLoopCandidates_split, elem_of_app.
    rewrite calculateSimilarityMatrix_length. fold n. rewrite <- Hiff.
    split.
    + intros [[Hc|Hc] Hsrc]; [|done].
      apply list_elem_of_fmap in Hc as (s & -> & _). discriminate Hsrc.
    + intros Hc. split; [by right|].
      apply Hiff in Hc as (s & e & _ & _ & _ & _ & ->). done.
  - intros Hn. rewrite findLoopCandidates_split.
    rewrite calculateSimilarityMatrix_length. fold n.
    replace (Analyzer.startFrameLoop _ n []) with (@nil Analyzer.Candidate);
      [by rewrite app_nil_r|].
    symmetry. apply elem_of_nil_inv. intros c Hc.
    apply Hiff in Hc as (s & e & ? & ? & ? & ? & _). lia.
Qed.

Lemma scan_of_built_matrix_witness :
  let frames := replicate 30 (Analyzer.mkFrame 0 0 [] 0) in
  let analysis :=
    Analyzer.mkGeminiAnalysis
      (Some [Analyzer.Suggestion.make 6 24 (92 # 100) None])
      (Analyzer.mkContentAnalysis "medium" "high" "high") in
  Analyzer.findLoopCandidates
    (Analyzer.calculateSimilarityMatrix (Some frames)) analysis
  = [Analyzer.geminiCandidate
       (Analyzer.Suggestion.make 6 24 (92 # 100) None)].
Proof.
  intros frames analysis.
  refine (proj2 (scan_of_built_matrix frames analysis) _).
  simpl. lia.
Defined.

Section RankerMore.

Import Analyzer.

(** A list already in descending order is left as it is. *)
Lemma Array_sort_sorted l :
  StronglySorted (fun a b => score b <= score a) l ->
  Js.Array_sort byScoreDescending l = l.
Proof.
  induction 1 as [|x l Hl IH Hx]; [done|].
  change (Js.Array_sort byScoreDescending (x :: l))
    with (Js.sortInsert byScoreDescending x
            (Js.Array_sort byScoreDescending l)).
  rewrite IH. destruct l as [|y l]; [done|].
  cbn [Js.sortInsert].
  apply Forall_cons in Hx as [Hxy _].
  assert (Hgt : Js.gt (byScoreDescending x y) 0 = false)
    by (apply gt_false_iff; unfold byScoreDescending; lra).
  by rewrite Hgt.
Qed.

Lemma ranked_rescored candidates :
  map scoreCandidate (map candidate (rankLoopCandidates candidates))
  = rankLoopCandidates candidates.
Proof.
  rewrite map_map.
  rewrite <- (map_id (rankLoopCandidates candidates)) at 2.
  apply map_ext_in. intros r Hr.
  apply list_elem_of_In, ranked_elem in Hr as (c & _ & ->). done.
Qed.

Lemma clamp_monotone x y :
  x <= y ->
  Js.Math_min 1 (Js.Math_max 0 x) <= Js.Math_min 1 (Js.Math_max 0 y).
Proof.
  intros Hxy. unfold Js.Math_min, Js.Math_max.
  by apply Q.min_le_compat_l, Q.max_le_compat_l.
Qed.

End RankerMore.

(** X4.  Ranking is idempotent: ranking the candidates of a ranked list
    again gives the same list, scores and order. *)
Theorem rank_idempotent (candidates : list Analyzer.Candidate) :
  Analyzer.rankLoopCandidates
    (map Analyzer.candidate (Analyzer.rankLoopCandidates candidates))
  = Analyzer.rankLoopCandidates candidates.
Proof.
  unfold Analyzer.rankLoopCandidates at 1. cbn zeta.
  rewrite ranked_rescored. apply Array_sort_sorted, Array_sort_descending.
Qed.

(** X5.  When [analyzeMedia] returns, its best loop point has the
    highest score of all the ranked candidates; it is undefined exactly
    when candidate generation found nothing. *)
Theorem best_loop_point_is_maximal (this : Analyzer.State)
  (options : Analyzer.Options) (now : string) (r : Analyzer.AnalysisResults) :
  Analyzer.analyzeMedia this options now = Js.Ok r ->
  (forall best c,
     Analyzer.bestLoopPoint r = Some best ->
     c ∈ Analyzer.loopCandidates r ->
     Analyzer.score c <= Analyzer.score best)
  /\ (Analyzer.bestLoopPoint r = None
      <-> Analyzer.findLoopCandidates
            (Analyzer.calculateSimilarityMatrix (Analyzer.frameBuffer this))
            (Analyzer.analyzeWithGemini this options) = []).
Proof.
  intros Hr. apply analyzeMedia_inv in Hr as [Hranked Hbest].
  rewrite Hbest, Hranked. split.
  - intros best c Hhead Hc.
    pose proof (Array_sort_descending
                  (map Analyzer.scoreCandidate
                     (Analyzer.findLoopCandidates
                        (Analyzer.calculateSimilarityMatrix
                           (Analyzer.frameBuffer this))
                        (Analyzer.analyzeWithGemini this options))))
      as Hsorted.
    fold (Analyzer.rankLoopCandidates
            (Analyzer.findLoopCandidates
               (Analyzer.calculateSimilarityMatrix (Analyzer.frameBuffer this))
               (Analyzer.analyzeWithGemini this options))) in Hsorted.
    destruct (Analyzer.rankLoopCandidates _) as [|b l]; [done|].
    injection Hhead as ->.
    apply StronglySorted_inv in Hsorted as [_ Hall].
    apply elem_of_cons in Hc as [->|Hc]; [lra|].
    rewrite Forall_forall in Hall. by apply Hall.
  - pose proof (rankLoopCandidates_perm
                  (Analyzer.findLoopCandidates
                     (Analyzer.calculateSimilarityMatrix
                        (Analyzer.frameBuffer this))
                     (Analyzer.analyzeWithGemini this options))) as Hp.
    destruct (Analyzer.findLoopCandidates _ _) as [|c l].
    + apply Permutation_nil_r in Hp. by rewrite Hp.
    + destruct (Analyzer.rankLoopCandidates _) as [|b l'].
      * apply Permutation_nil in Hp. discriminate Hp.
      * split; discriminate.
Qed.

Lemma best_loop_point_is_maximal_witness :
  let this :=
    Analyzer.mkState (Some Analyzer.placeholderClient)
      (Some (replicate 30 (Analyzer.mkFrame 0 0 [] 0))) None in
  let options := Analyzer.mkOptions 2 15 "high" in
  exists r best,
    Analyzer.analyzeMedia this options "now" = Js.Ok r
    /\ Analyzer.bestLoopPoint r = Some best
    /\ forall c, c ∈ Analyzer.loopCandidates r ->
                 Analyzer.score c <= Analyzer.score best.
Proof.
  intros this options.
  destruct (Analyzer.analyzeMedia this options "now") as [r|message] eqn:Hrun;
    [|vm_compute in Hrun; discriminate Hrun].
  destruct (Analyzer.bestLoopPoint r) as [best|] eqn:Hbest.
  - exists r, best. split; [reflexivity|]. split; [exact Hbest|].
    intros c Hc.
    exact (proj1 (best_loop_point_is_maximal this options "now" r Hrun)
                 best c Hbest Hc).
  - vm_compute in Hrun. injection Hrun as <-. discriminate Hbest.
Defined.

(** X6.  The score never decreases when, the source being the same, the
    similarity grows and the duration moves towards 5 seconds. *)
Theorem score_monotone (c1 c2 : Analyzer.Candidate) :
  Analyzer.source c1 = Analyzer.source c2 ->
  Analyzer.similarity c1 <= Analyzer.similarity c2 ->
  Qabs (Analyzer.duration c2 - 5) <= Qabs (Analyzer.duration c1 - 5) ->
  Analyzer.score (Analyzer.scoreCandidate c1)
  <= Analyzer.score (Analyzer.scoreCandidate c2).
Proof.
  intros Hsrc Hsim Hdur. unfold Analyzer.scoreCandidate.
  cbn [Analyzer.score]. apply clamp_monotone. rewrite Hsrc.
  unfold Js.Math_abs, Qdiv. change (/ 10) with (1 # 10).
  destruct (String.eqb (Analyzer.source c2) "gemini"); lra.
Qed.

Lemma score_monotone_witness :
  let c1 := Analyzer.algorithmCandidate 0 120 (85 # 100) in
  let c2 := Analyzer.algorithmCandidate 0 150 (9 # 10) in
  Analyzer.score (Analyzer.scoreCandidate c1)
  <= Analyzer.score (Analyzer.scoreCandidate c2).
Proof.
  intros c1 c2. apply (score_monotone c1 c2).
  - reflexivity.
  - vm_compute. discriminate.
  - vm_compute. discriminate.
Defined.

(** X7.  A candidate of source [gemini] never scores below a candidate
    of the same similarity and duration from any other source, and
    scores exactly [0.1] more as long as neither score is clamped. *)
Theorem gemini_boost (c1 c2 : Analyzer.Candidate) :
  Analyzer.source c1 = "gemini"%string ->
  Analyzer.source c2 <> "gemini"%string ->
  Analyzer.similarity c1 == Analyzer.similarity c2 ->
  Analyzer.duration c1 == Analyzer.duration c2 ->
  let raw :=
    Analyzer.similarity c2 * (6 # 10)
    + (1 - Qabs (Analyzer.duration c2 - 5) / 10) * (3 # 10) in
  Analyzer.score (Analyzer.scoreCandidate c2)
  <= Analyzer.score (Analyzer.scoreCandidate c1)
  /\ (0 <= raw <= 9 # 10 ->
      Analyzer.score (Analyzer.scoreCandidate c1)
      == Analyzer.score (Analyzer.scoreCandidate c2) + (1 # 10)).
Proof.
  intros Hg Hn Hsim Hdur raw.
  assert (Hn' : String.eqb (Analyzer.source c2) "gemini" = false)
    by (by apply String.eqb_neq).
  unfold Analyzer.scoreCandidate. cbn [Analyzer.score].
  rewrite Hg, Hn'. cbn [String.eqb Ascii.eqb Bool.eqb].
  unfold Js.Math_abs. rewrite Hsim, Hdur. fold raw. split.
  - apply clamp_monotone. lra.
  - intros [Hlo Hhi]. unfold Js.Math_min, Js.Math_max.
    rewrite (Q.max_r 0 (raw + (1 # 10))) by lra.
    rewrite (Q.max_r 0 (raw + 0)) by lra.
    rewrite (Q.min_r 1 (raw + (1 # 10))) by lra.
    rewrite (Q.min_r 1 (raw + 0)) by lra.
    lra.
Qed.

Lemma gemini_boost_witness :
  let c1 :=
    Analyzer.geminiCandidate
      (Analyzer.Suggestion.make 0 120 (85 # 100) None) in
  let c2 := Analyzer.algorithmCandidate 0 120 (85 # 100) in
  Analyzer.score (Analyzer.scoreCandidate c1)
  == Analyzer.score (Analyzer.scoreCandidate c2) + (1 # 10).
Proof.
  intros c1 c2.
  refine (proj2 (gemini_boost c1 c2 _ _ _ _) _).
  - reflexivity.
  - discriminate.
  - reflexivity.
  - reflexivity.
  - vm_compute. split; discriminate.
Defined.

(** With the installed client there is always a candidate, so always a
    best loop point. *)
Lemma installed_client_best (this : Analyzer.State)
  (options : Analyzer.Options) (now : string) :
  Analyzer.geminiClient this = Some Analyzer.placeholderClient ->
  is_Some (Analyzer.frameBuffer this) \/ is_Some (Analyzer.audioBuffer this) ->
  exists r best,
    Analyzer.analyzeMedia this options now = Js.Ok r
    /\ Analyzer.bestLoopPoint r = Some best
    /\ best ∈ Analyzer.loopCandidates r.
Proof.
  intros Hclient Hbuf.
  destruct (analyzeMedia_ok this options now Hbuf) as (r & Hr & Hranked & Hbest).
  assert (Hne : exists c l,
             Analyzer.findLoopCandidates
               (Analyzer.calculateSimilarityMatrix (Analyzer.frameBuffer this))
               (Analyzer.analyzeWithGemini this options) = c :: l).
  { rewrite findLoopCandidates_split.
    unfold Analyzer.analyzeWithGemini. rewrite Hclient. simpl. eauto. }
  destruct Hne as (c & l & Hcl).
  pose proof (rankLoopCandidates_perm (c :: l)) as Hp.
  rewrite <- Hcl, <- Hranked in Hp.
  destruct (Analyzer.loopCandidates r) as [|best rest] eqn:Hl.
  - rewrite Hcl in Hp. apply Permutation_nil in Hp. discriminate Hp.
  - exists r, best. split; [done|]. split; [done|].
    rewrite Hl. apply elem_of_cons. by left.
Qed.

(** X8.  With the client that the constructor installs, [analyzeMedia]
    on an analyzer that holds a buffer always returns a best loop point:
    the client's one suggestion is always a candidate. *)
Theorem installed_client_gives_a_best_loop_point (this : Analyzer.State)
  (options : Analyzer.Options) (now : string) :
  Analyzer.geminiClient this = Some Analyzer.placeholderClient ->
  is_Some (Analyzer.frameBuffer this) \/ is_Some (Analyzer.audioBuffer this) ->
  exists r best,
    Analyzer.analyzeMedia this options now = Js.Ok r
    /\ Analyzer.bestLoopPoint r = Some best
    /\ best ∈ Analyzer.loopCandidates r.
Proof. apply installed_client_best. Qed.

Lemma installed_client_gives_a_best_loop_point_witness :
  let this :=
    Analyzer.mkState (Some Analyzer.placeholderClient) (Some []) None in
  let options := Analyzer.mkOptions 2 15 "high" in
  exists r best,
    Analyzer.analyzeMedia this options "now" = Js.Ok r
    /\ Analyzer.bestLoopPoint r = Some best
    /\ best ∈ Analyzer.loopCandidates r.
Proof.
  intros this options.
  apply (installed_client_gives_a_best_loop_point this options "now").
  - reflexivity.
  - left. simpl. eauto.
Defined.

(** ** Further properties of the optimizer, the sampler, the transition
    engine and the blending service *)

Lemma prefix_append (p s : string) : String.prefix p (p +:+ s) = true.
Proof.
  induction p as [|a p IH]; simpl; [by destruct s|].
  destruct (Ascii.ascii_dec a a); [exact IH|congruence].
Qed.

Lemma best_loop_nonempty this options now r :
  Analyzer.analyzeMedia this options now = Js.Ok r ->
  Analyzer.bestLoopPoint r = None
  <-> Analyzer.findLoopCandidates
        (Analyzer.calculateSimilarityMatrix (Analyzer.frameBuffer this))
        (Analyzer.analyzeWithGemini this options) = [].
Proof.
  intros Hr. apply analyzeMedia_inv in Hr as [Hranked Hbest].
  rewrite Hbest, Hranked.
  pose proof (rankLoopCandidates_perm
                (Analyzer.findLoopCandidates
                   (Analyzer.calculateSimilarityMatrix
                      (Analyzer.frameBuffer this))
                   (Analyzer.analyzeWithGemini this options))) as Hp.
  destruct (Analyzer.findLoopCandidates _ _) as [|c l].
  - apply Permutation_nil_r in Hp. by rewrite Hp.
  - destruct (Analyzer.rankLoopCandidates _) as [|b l'].
    + apply Permutation_nil in Hp. discriminate Hp.
    + split; discriminate.
Qed.

(** Saving never succeeds: without a signed-in user [saveResults]
    refuses, and with one the simulated Firestore has no [collection]
    on a document, so the [try] block throws. *)
Lemma saveResults_throws (firebase : Firebase.Integration)
  (results : Firebase.Results) (dateNow : Z) :
  exists message,
    snd (Firebase.saveResults firebase results dateNow) = Js.Throw message
    /\ (message = "User must be authenticated to save results"%string
        \/ String.prefix "Failed to save results: " message = true).
Proof.
  unfold Firebase.saveResults.
  destruct (Firebase.getCurrentUser (Firebase.initialize firebase))
    as [user|].
  - eexists. split; [reflexivity|]. right. apply prefix_append.
  - eexists. split; [reflexivity|]. by left.
Qed.

(** Signing in does not help: after [signIn] with an email and a
    password the user is known, and [saveResults] fails inside its [try]
    block. *)
Lemma saveResults_after_signIn (firebase : Firebase.Integration)
  (email password : string) (results : Firebase.Results) (dateNow : Z) :
  email <> EmptyString -> password <> EmptyString ->
  let signedIn := fst (Firebase.signIn firebase email password) in
  is_Some (Firebase.getCurrentUser signedIn)
  /\ exists message,
       snd (Firebase.saveResults signedIn results dateNow) = Js.Throw message
       /\ String.prefix "Failed to save results: " message = true.
Proof.
  intros Hemail Hpassword.
  destruct email as [|e email]; [done|].
  destruct password as [|p password]; [done|].
  cbn. split; [eauto|]. eexists. split; [reflexivity|]. reflexivity.
Qed.

(** X9.  [processMedia] returns a result exactly when the analyzer holds
    a buffer, candidate generation finds at least one candidate, and
    nothing is to be saved: with [saveResults] set on an optimizer that
    has Firebase configured the call always throws, signed in or not.
    So the [storage] of every result is [null].  Every message that is
    thrown starts with [Media processing failed: ]. *)
Theorem processMedia_succeeds_iff (analyzer : Analyzer.State)
  (firebase : option Firebase.Integration)
  (params : Optimizer.Params) (now : string) (dateNow : Z) :
  let options :=
    Analyzer.mkOptions (Optimizer.minLoopDuration params)
                       (Optimizer.maxLoopDuration params)
                       (Optimizer.quality params) in
  let run := Optimizer.processMedia analyzer firebase params now dateNow in
  ((exists result, run = Js.Ok result)
   <-> (is_Some (Analyzer.frameBuffer analyzer)
        \/ is_Some (Analyzer.audioBuffer analyzer))
       /\ Analyzer.findLoopCandidates
            (Analyzer.calculateSimilarityMatrix
               (Analyzer.frameBuffer analyzer))
            (Analyzer.analyzeWithGemini analyzer options) <> []
       /\ (Optimizer.saveResults params = false \/ firebase = None))
  /\ (forall result, run = Js.Ok result -> Optimizer.storage result = None)
  /\ (forall message,
        run = Js.Throw message ->
        String.prefix "Media processing failed: " message = true).
Proof.
  intros options run. subst run.
  assert (Hsave :
    (Optimizer.saveResults params = false \/ firebase = None)
    \/ exists f, Optimizer.saveResults params = true /\ firebase = Some f).
  { destruct (Optimizer.saveResults params); [|by left; left].
    destruct firebase as [f|]; [right; eauto|by left; right]. }
  unfold Optimizer.processMedia. fold options.
  destruct (Analyzer.analyzeMedia analyzer options now)
    as [analysis|message] eqn:Ha.
  - pose proof (best_loop_nonempty _ _ _ _ Ha) as Hnone.
    assert (Hbuf : is_Some (Analyzer.frameBuffer analyzer)
                   \/ is_Some (Analyzer.audioBuffer analyzer)).
    { unfold Analyzer.analyzeMedia in Ha.
      destruct (Analyzer.frameBuffer analyzer); [left; eauto|].
      destruct (Analyzer.audioBuffer analyzer); [right; eauto|done]. }
    destruct (Analyzer.bestLoopPoint analysis) as [best|] eqn:Hb;
      cbn [Optimizer.optimizeTransition].
    + assert (Hne : Analyzer.findLoopCandidates
                      (Analyzer.calculateSimilarityMatrix
                         (Analyzer.frameBuffer analyzer))
                      (Analyzer.analyzeWithGemini analyzer options) <> []).
      { intros Hnil. apply Hnone in Hnil. discriminate Hnil. }
      destruct Hsave as [Hoff|(f & Hon & ->)].
      * assert (Hnothing :
          match Optimizer.saveResults params, firebase with
          | true, Some f =>
              match
                snd (Firebase.saveResults f
                       {| Firebase.outputUrl :=
                            "blob:https://example.com/12345-67890";
                          Firebase.outputData := None |} dateNow)
              with
              | Js.Ok saved => Js.Ok (Some saved)
              | Js.Throw message => Js.Throw message
              end
          | _, _ => Js.Ok None
          end = Js.Ok None).
        { destruct Hoff as [->| ->]; [done|].
          by destruct (Optimizer.saveResults params). }
        cbn. rewrite Hnothing.
        split; [split; [done|eauto]|].
        split; [by intros result [= <-]|done].
      * rewrite Hon.
        destruct (saveResults_throws f
                    {| Firebase.outputUrl :=
                         "blob:https://example.com/12345-67890";
                       Firebase.outputData := None |} dateNow)
          as (m & Hm & _).
        cbn. rewrite Hm.
        split; [split; [intros [? [=]]|]|].
        { intros (_ & _ & [Hoff|Hoff]); discriminate Hoff. }
        split; [done|]. intros message [= <-]. apply prefix_append.
    + split; [split; [intros [? [=]]|]|].
      { intros (_ & Hne & _). destruct Hne. by apply Hnone. }
      split; [done|]. intros message [= <-]. apply prefix_append.
  - split; [split; [intros [? [=]]|]|].
    { intros (Hbuf & _).
      destruct (analyzeMedia_ok analyzer options now Hbuf) as (r & Hr & _).
      rewrite Hr in Ha. discriminate Ha. }
    split; [done|]. intros m [= <-]. apply prefix_append.
Qed.

(** X10.  [_sampleFrames] never returns more frames than [maxCount] nor
    more than it was given, and sampling its own result again changes
    nothing. *)
Theorem sampleFrames_bounded_idempotent {Value : Type} (undefined : Value)
  (frames : list Value) (maxCount : nat) :
  let sampled := GeminiIntegration.sampleFrames undefined frames maxCount in
  (length sampled <= Nat.min (length frames) maxCount)%nat
  /\ GeminiIntegration.sampleFrames undefined sampled maxCount = sampled.
Proof.
  intros sampled.
  destruct (decide (length frames <= maxCount)%nat) as [Hshort|Hlong].
  - assert (Hs : sampled = frames).
    { unfold sampled, GeminiIntegration.sampleFrames.
      apply Nat.leb_le in Hshort. by rewrite Hshort. }
    rewrite Hs. split; [lia|].
    unfold GeminiIntegration.sampleFrames.
    apply Nat.leb_le in Hshort. by rewrite Hshort.
  - assert (Hlen : length sampled = maxCount).
    { unfold sampled. rewrite sampleFrames_long by lia.
      by rewrite length_map, length_seq. }
    split; [lia|].
    unfold GeminiIntegration.sampleFrames at 1.
    rewrite Hlen, Nat.leb_refl. done.
Qed.

(** ** The transition engine: zero duration, monotonicity *)

Section TransitionMore.

Context {MediaData Content : Type}.
Context `{Transition.ContentModel MediaData Content}.

(** The plan as a function of the similarity alone. *)
Lemma plan_cases (d : Q) (mediaData : MediaData)
  (loopPoints : Transition.LoopPoints) :
  let plan := Transition.calculateOptimalTransition d mediaData loopPoints in
  let s := Transition.similarity plan in
  (95 # 100 < s /\ Transition.type plan = "none"%string
   /\ Transition.duration plan = 0)
  \/ (9 # 10 < s <= 95 # 100 /\ Transition.type plan = "crossfade"%string
      /\ Transition.duration plan = 2 # 10)
  \/ (7 # 10 < s <= 9 # 10 /\ Transition.type plan = "crossfade"%string
      /\ Transition.duration plan = 5 # 10)
  \/ (4 # 10 < s <= 7 # 10 /\ Transition.type plan = "crossfade"%string
      /\ Transition.duration plan = 1)
  \/ (s <= 4 # 10 /\ Transition.type plan = "morph"%string
      /\ Transition.duration plan = 15 # 10).
Proof.
  intros plan s. subst s plan. unfold Transition.calculateOptimalTransition.
  set (sim := Transition.calculateContentSimilarity _ _).
  destruct (Js.gt sim (9 # 10)) eqn:H9;
    destruct (Js.gt sim (95 # 100)) eqn:H95;
    destruct (Js.gt sim (7 # 10)) eqn:H7;
    destruct (Js.gt sim (4 # 10)) eqn:H4;
    cbn [Transition.type Transition.duration Transition.similarity];
    repeat match goal with
           | Hgt : Js.gt _ _ = true |- _ => apply gt_iff in Hgt
           | Hgt : Js.gt _ _ = false |- _ => apply gt_false_iff in Hgt
           end;
    try (exfalso; lra);
    first [ left; split; [lra|done]
          | right; left; split; [split; lra|done]
          | right; right; left; split; [split; lra|done]
          | right; right; right; left; split; [split; lra|done]
          | right; right; right; right; split; [lra|done] ].
Qed.

End TransitionMore.

(** X11.  The plan's duration is zero exactly when its type is [none];
    the type is [none], [crossfade] or [morph]; and the engine's default
    crossfade duration has no influence on the plan. *)
Theorem transition_zero_iff_none {MediaData Content : Type}
  `{Transition.ContentModel MediaData Content}
  (defaultCrossfadeDuration otherDefault : Q) (mediaData : MediaData)
  (loopPoints : Transition.LoopPoints) :
  let plan :=
    Transition.calculateOptimalTransition defaultCrossfadeDuration
      mediaData loopPoints in
  (Transition.duration plan == 0 <-> Transition.type plan = "none"%string)
  /\ Transition.type plan ∈ ["none"; "crossfade"; "morph"]%string
  /\ Transition.calculateOptimalTransition otherDefault mediaData loopPoints
     = plan.
Proof.
  intros plan.
  destruct (plan_cases defaultCrossfadeDuration mediaData loopPoints)
    as [(_ & Ht & Hd)|[(_ & Ht & Hd)|[(_ & Ht & Hd)|[(_ & Ht & Hd)
                                                    |(_ & Ht & Hd)]]]];
    fold plan in Ht, Hd; rewrite Ht, Hd;
    (split; [split; [try discriminate; done|try discriminate; done]|]);
    (split; [apply list_elem_of_In; simpl; tauto|done]).
Qed.

(** X12.  A higher similarity never gets a longer transition: the
    duration of the plan does not increase with the similarity. *)
Theorem transition_duration_antitone {MediaData Content : Type}
  `{Transition.ContentModel MediaData Content}
  (d1 d2 : Q) (media1 media2 : MediaData)
  (points1 points2 : Transition.LoopPoints) :
  let plan1 := Transition.calculateOptimalTransition d1 media1 points1 in
  let plan2 := Transition.calculateOptimalTransition d2 media2 points2 in
  Transition.similarity plan1 <= Transition.similarity plan2 ->
  Transition.duration plan2 <= Transition.duration plan1.
Proof.
  intros plan1 plan2 Hs.
  destruct (plan_cases d1 media1 points1)
    as [(Hs1 & _ & Hd1)|[(Hs1 & _ & Hd1)|[(Hs1 & _ & Hd1)|[(Hs1 & _ & Hd1)
                                                          |(Hs1 & _ & Hd1)]]]];
    destruct (plan_cases d2 media2 points2)
      as [(Hs2 & _ & Hd2)|[(Hs2 & _ & Hd2)|[(Hs2 & _ & Hd2)|[(Hs2 & _ & Hd2)
                                                            |(Hs2 & _ & Hd2)]]]];
    fold plan1 in Hs1, Hd1; fold plan2 in Hs2, Hd2; rewrite Hd1, Hd2;
    first [ discriminate | exfalso; lra ].
Qed.

Lemma transition_duration_antitone_witness :
  let model : Transition.ContentModel Q Q :=
    {| Transition.extractContentAtTime := fun (m : Q) (_ : Q) => m;
       Transition.calculateContentSimilarity := fun (a _ : Q) => a |} in
  let points := Transition.mkLoopPoints 0 5 in
  Transition.duration
    (Transition.calculateOptimalTransition (H := model) (5 # 10) (96 # 100)
       points)
  <= Transition.duration
       (Transition.calculateOptimalTransition (H := model) (5 # 10) (5 # 10)
          points).
Proof.
  intros model points.
  apply (transition_duration_antitone (H := model)
           (5 # 10) (5 # 10) (5 # 10) (96 # 100) points points).
  vm_compute. discriminate.
Defined.

(** ** The blending service: errors and the frames that are read *)

Section BlendingMore.

Import FrameBlending.

Lemma blend_weight_range (i frameCount : nat) :
  (2 <= frameCount)%nat -> (i < frameCount)%nat ->
  0 <= Js.num i / (Js.num frameCount - 1) <= 1.
Proof.
  intros Hn Hi. unfold Js.num.
  assert (Hpos : 0 < inject_Z (Z.of_nat frameCount) - 1).
  { assert (inject_Z 2 <= inject_Z (Z.of_nat frameCount))
      by (rewrite <- Zle_Qle; lia).
    change (inject_Z 2) with 2 in *. lra. }
  assert (Hi0 : 0 <= inject_Z (Z.of_nat i))
    by (rewrite <- (Zle_Qle 0); lia).
  assert (Hi1 : inject_Z (Z.of_nat i) + 1 <= inject_Z (Z.of_nat frameCount)).
  { change 1 with (inject_Z 1) at 1.
    rewrite <- inject_Z_plus, <- Zle_Qle. lia. }
  split.
  - apply Qle_shift_div_l; [done|lra].
  - apply Qle_shift_div_r; [done|lra].
Qed.

End BlendingMore.

(** X13.  [createBlendedFrames] throws [Not enough frames for blending]
    exactly when one of the two directories holds fewer frames than
    [frameCount]; otherwise it writes exactly [frameCount] pictures, none
    at all for a [frameCount] of zero. *)
Theorem createBlendedFrames_error_iff
  (startFrames endFrames : list FrameBlending.Picture) (frameCount : nat) :
  (FrameBlending.createBlendedFrames startFrames endFrames frameCount
   = Js.Throw "Not enough frames for blending"
   <-> (length startFrames < frameCount)%nat
       \/ (length endFrames < frameCount)%nat)
  /\ ((frameCount <= length startFrames)%nat ->
      (frameCount <= length endFrames)%nat ->
      exists out,
        FrameBlending.createBlendedFrames startFrames endFrames frameCount
        = Js.Ok out
        /\ length out = frameCount).
Proof.
  unfold FrameBlending.createBlendedFrames.
  destruct (length startFrames <? frameCount)%nat eqn:Hs;
    destruct (length endFrames <? frameCount)%nat eqn:He;
    cbn [orb];
    repeat match goal with
           | Hlt : (_ <? _)%nat = true |- _ => apply Nat.ltb_lt in Hlt
           | Hlt : (_ <? _)%nat = false |- _ => apply Nat.ltb_ge in Hlt
           end;
    (split; [split; [intros; lia || discriminate|intros; done || lia]|]);
    intros ? ?; try lia.
  eexists. split; [reflexivity|]. by rewrite length_map, length_seq.
Qed.

Lemma createBlendedFrames_error_iff_witness :
  exists out,
    FrameBlending.createBlendedFrames [[10]; [20]] [[30]; [40]; [50]] 2
    = Js.Ok out
    /\ length out = 2%nat.
Proof.
  apply (proj2 (createBlendedFrames_error_iff
                  [[10]; [20]] [[30]; [40]; [50]] 2)); simpl; lia.
Defined.

(** X14.  With at least two frames to blend, [createBlendedFrames]
    reads only the first [frameCount] start frames and the last
    [frameCount] end frames.  Output [i] is the filter on start frame
    [i] and on the [i]-th of the last [frameCount] end frames, in this
    order, with the weight [i / (frameCount - 1)]: a number from 0 to 1,
    0 for the first output only and 1 for the last only.  The other
    frames of either directory have no influence on what is written. *)
Theorem blended_frames_pairing
  (startFrames endFrames : list FrameBlending.Picture) (frameCount : nat) :
  (2 <= frameCount)%nat ->
  (frameCount <= length startFrames)%nat ->
  (frameCount <= length endFrames)%nat ->
  (exists out,
     FrameBlending.createBlendedFrames startFrames endFrames frameCount
     = Js.Ok out
     /\ forall i, (i < frameCount)%nat ->
          exists startFrame endFrame alpha,
            startFrames !! i = Some startFrame
            /\ endFrames !! (length endFrames - frameCount + i)%nat
               = Some endFrame
            /\ Js.div (Js.num i) (Js.num frameCount - 1) = Js.Finite alpha
            /\ 0 <= alpha <= 1
            /\ (alpha == 0 <-> i = 0%nat)
            /\ (alpha == 1 <-> i = (frameCount - 1)%nat)
            /\ out !! i
               = Some (FrameBlending.blendTwoFrames startFrame endFrame
                         (Js.Finite alpha)))
  /\ FrameBlending.createBlendedFrames startFrames endFrames frameCount
     = FrameBlending.createBlendedFrames
         (take frameCount startFrames)
         (drop (length endFrames - frameCount) endFrames) frameCount.
Proof.
  intros Hn Hs He. split.
  - destruct (createBlendedFrames_outputs startFrames endFrames frameCount
                Hn Hs He) as (out & Hout & _ & Hread).
    exists out. split; [exact Hout|]. intros i Hi.
    destruct (lookup_lt_is_Some_2 startFrames i) as [startFrame Hstart];
      [lia|].
    destruct (lookup_lt_is_Some_2 endFrames
                (length endFrames - frameCount + i)) as [endFrame Hend];
      [lia|].
    exists startFrame, endFrame, (Js.num i / (Js.num frameCount - 1)).
    split; [exact Hstart|]. split; [exact Hend|].
    split; [by apply blend_weight_finite|].
    split; [by apply blend_weight_range|].
    assert (Hpos : 0 < Js.num frameCount - 1).
    { unfold Js.num.
      assert (inject_Z 2 <= inject_Z (Z.of_nat frameCount))
        by (rewrite <- Zle_Qle; lia).
      change (inject_Z 2) with 2 in *. lra. }
    assert (Hnz : ~ Js.num frameCount - 1 == 0) by lra.
    split; [|split].
    + split.
      * intros Hzero.
        assert (Hi0 : Js.num i == 0).
        { rewrite <- (Qmult_div_r (Js.num i) (Js.num frameCount - 1)) by done.
          rewrite Hzero. ring. }
        unfold Js.num, Qeq in Hi0. simpl in Hi0. lia.
      * intros ->. unfold Js.num, Qdiv. simpl. apply Qmult_0_l.
    + split.
      * intros Hone.
        assert (Hi1 : Js.num i == Js.num frameCount - 1).
        { rewrite <- (Qmult_div_r (Js.num i) (Js.num frameCount - 1)) by done.
          rewrite Hone. ring. }
        unfold Js.num, Qeq in Hi1. simpl in Hi1. lia.
      * intros ->.
        assert (Hsame : Js.num (frameCount - 1) == Js.num frameCount - 1).
        { unfold Js.num.
          replace (Z.of_nat (frameCount - 1)) with (Z.of_nat frameCount + -1)%Z
            by lia.
          rewrite inject_Z_plus. reflexivity. }
        rewrite Hsame. apply Qmult_inv_r. exact Hnz.
    + etrans; [exact (Hread i Hi)|]. unfold FrameBlending.blendTwoFrames.
      rewrite (nth_lookup_Some _ _ _ _ Hstart), (nth_lookup_Some _ _ _ _ Hend).
      reflexivity.
  - unfold FrameBlending.createBlendedFrames.
    rewrite length_take, length_drop.
    assert (Hs1 : (length startFrames <? frameCount)%nat = false)
      by (apply Nat.ltb_ge; lia).
    assert (He1 : (length endFrames <? frameCount)%nat = false)
      by (apply Nat.ltb_ge; lia).
    assert (Hs2 : (frameCount `min` length startFrames <? frameCount)%nat
                  = false) by (apply Nat.ltb_ge; lia).
    assert (He2 : (length endFrames - (length endFrames - frameCount)
                   <? frameCount)%nat = false) by (apply Nat.ltb_ge; lia).
    rewrite Hs1, He1, Hs2, He2. cbn [orb]. f_equal.
    apply map_ext_in. intros i Hi. apply in_seq in Hi.
    f_equal.
    + unfold take. rewrite nth_firstn.
      assert (Hlt : (i <? frameCount)%nat = true) by (apply Nat.ltb_lt; lia).
      by rewrite Hlt.
    + unfold drop. rewrite nth_skipn. f_equal. lia.
Qed.

Lemma blended_frames_pairing_witness :
  FrameBlending.createBlendedFrames
    [[10]; [20]; [30]] [[40]; [50]; [60]; [70]] 2
  = FrameBlending.createBlendedFrames [[10]; [20]] [[60]; [70]] 2.
Proof.
  apply (proj2 (blended_frames_pairing
                  [[10]; [20]; [30]] [[40]; [50]; [60]; [70]] 2
                  ltac:(lia) ltac:(simpl; lia) ltac:(simpl; lia))).
Defined.

(** * The analyzer and the optimizer as objects *)


Section SessionFacts.

Import Session.

(** What holds of every analyzer a program can hold. *)
Lemma reachable_invariant this :
  reachable this ->
  Analyzer.geminiClient (state this) = Some Analyzer.placeholderClient
  /\ (Analyzer.frameBuffer (state this) = Some []
      \/ exists random,
           Analyzer.frameBuffer (state this)
           = Some (extractVideoFrames random))
  /\ forall r,
       analysisResults this = Some r ->
       exists best,
         Analyzer.bestLoopPoint r = Some best
         /\ 0 <= Analyzer.score best <= 1.
Proof.
  induction 1 as [|this mediaType random this' _ IH Hload
                  |this options now _ IH|this _ IH].
  - split; [done|]. split; [by left|]. intros r [=].
  - destruct IH as (Hc & Hf & Hr). unfold loadMedia in Hload.
    destruct (Js.startsWith mediaType "video");
      [|destruct (Js.startsWith mediaType "audio")];
      [injection Hload as <-|injection Hload as <-|discriminate Hload];
      simpl; (split; [done|]); (split; [eauto|done]).
  - destruct IH as (Hc & Hf & Hr). unfold analyzeMedia.
    destruct (Analyzer.analyzeMedia (state this) options now)
      as [results|message] eqn:Ha; simpl; [|done].
    split; [done|]. split; [done|]. intros r [= <-].
    assert (Hbuf : is_Some (Analyzer.frameBuffer (state this))
                   \/ is_Some (Analyzer.audioBuffer (state this))).
    { left. destruct Hf as [->|[random ->]]; eauto. }
    destruct (installed_client_best _ options now Hc Hbuf)
      as (r' & best & Hr' & Hbest & Hin).
    rewrite Ha in Hr'. injection Hr' as <-.
    exists best. split; [done|].
    apply analyzeMedia_inv in Ha as [Hranked _]. rewrite Hranked in Hin.
    apply ranked_elem in Hin as (c & _ & ->). apply scoreCandidate_bounds.
  - destruct IH as (Hc & Hf & Hr). simpl.
    split; [done|]. split; [by left|]. intros r [=].
Qed.

End SessionFacts.

(** X15.  On every analyzer built by the constructor and used through
    [loadMedia], [analyzeMedia] and [reset], [analyzeMedia] returns
    normally, stores its results and has a best loop point: the error
    [No media loaded for analysis] is never thrown, because the frame
    buffer is an array from the constructor on.  On an analyzer that has
    loaded nothing the best loop point is the empty interval at 0. *)
Theorem reachable_analyzer_always_analyzes (this : Session.Instance)
  (options : Analyzer.Options) (now : string) :
  Session.reachable this ->
  (exists r best,
     Session.analyzeMedia this options now
     = (Session.mkInstance (Session.state this) (Some r), Js.Ok r)
     /\ Analyzer.bestLoopPoint r = Some best)
  /\ (exists r best,
        snd (Session.analyzeMedia Session.construct options now) = Js.Ok r
        /\ Analyzer.bestLoopPoint r = Some best
        /\ Analyzer.startTime (Analyzer.candidate best) == 0
        /\ Analyzer.endTime (Analyzer.candidate best) == 0).
Proof.
  intros Hreach. split.
  - destruct (reachable_invariant this Hreach) as (Hc & Hf & _).
    assert (Hbuf : is_Some (Analyzer.frameBuffer (Session.state this))
                   \/ is_Some (Analyzer.audioBuffer (Session.state this))).
    { left. destruct Hf as [->|[random ->]]; eauto. }
    destruct (installed_client_best _ options now Hc Hbuf)
      as (r & best & Hr & Hbest & _).
    exists r, best. unfold Session.analyzeMedia. rewrite Hr. done.
  - do 2 eexists. split; [vm_compute; reflexivity|].
    split; [reflexivity|]. split; reflexivity.
Qed.

Lemma reachable_analyzer_always_analyzes_witness :
  let this := Session.reset Session.construct in
  exists r best,
    snd (Session.analyzeMedia this (Analyzer.mkOptions 2 15 "high") "now")
    = Js.Ok r
    /\ Analyzer.bestLoopPoint r = Some best.
Proof.
  intros this.
  assert (Hreach : Session.reachable this)
    by (apply Session.reachable_reset, Session.reachable_construct).
  destruct (proj1 (reachable_analyzer_always_analyzes
                     this (Analyzer.mkOptions 2 15 "high") "now" Hreach))
    as (r & best & Hr & Hbest).
  exists r, best. rewrite Hr. split; [reflexivity|exact Hbest].
Defined.

(** X16.  On every such analyzer [getOptimizedLoopParameters] returns
    without throwing: [null] exactly when no analysis has run since the
    construction or the last [reset], otherwise parameters whose score
    lies in [[0, 1]] and whose transition lasts 0.5 seconds for a
    crossfade and 0 otherwise.  Loading other media leaves the
    parameters of the previous analysis in place; [reset] clears them. *)
Theorem loop_parameters_of_reachable (this : Session.Instance) :
  Session.reachable this ->
  (exists parameters,
     Session.getOptimizedLoopParameters this = Js.Ok parameters
     /\ (parameters = None <-> Session.analysisResults this = None)
     /\ forall p, parameters = Some p ->
          0 <= Session.score p <= 1
          /\ (Session.transitionDuration p = 5 # 10
              <-> Session.transitionType p = "crossfade"%string)
          /\ (Session.transitionDuration p = 0
              <-> Session.transitionType p <> "crossfade"%string))
  /\ (forall mediaType random this',
        Session.loadMedia this mediaType random = Js.Ok this' ->
        Session.getOptimizedLoopParameters this'
        = Session.getOptimizedLoopParameters this)
  /\ Session.getOptimizedLoopParameters (Session.reset this) = Js.Ok None.
Proof.
  intros Hreach.
  destruct (reachable_invariant this Hreach) as (_ & _ & Hres).
  split; [|split; [|done]].
  - unfold Session.getOptimizedLoopParameters.
    destruct (Session.analysisResults this) as [r|]; [|by eexists].
    destruct (Hres r eq_refl) as (best & Hbest & Hscore). rewrite Hbest.
    eexists. split; [reflexivity|]. split; [split; discriminate|].
    intros p [= <-]. cbn. split; [done|].
    destruct (String.eqb_spec
                (Analyzer.transitionType (Analyzer.candidate best))
                "crossfade") as [Heq|Hne].
    + split; split; try done; discriminate.
    + split; split; try done; discriminate.
  - intros mediaType random this' Hload. unfold Session.loadMedia in Hload.
    destruct (Js.startsWith mediaType "video");
      [|destruct (Js.startsWith mediaType "audio")];
      [injection Hload as <-|injection Hload as <-|discriminate Hload];
      reflexivity.
Qed.

Lemma loop_parameters_of_reachable_witness :
  let this :=
    fst (Session.analyzeMedia Session.construct
           (Analyzer.mkOptions 2 15 "high") "now") in
  exists parameters,
    Session.getOptimizedLoopParameters this = Js.Ok parameters
    /\ (parameters = None <-> Session.analysisResults this = None).
Proof.
  intros this.
  assert (Hreach : Session.reachable this)
    by (apply Session.reachable_analyzeMedia, Session.reachable_construct).
  destruct (proj1 (loop_parameters_of_reachable this Hreach))
    as (parameters & Hp & Hnull & _).
  exists parameters. split; [exact Hp|exact Hnull].
Defined.

(** ** The optimizer from the media input on *)

(** X17.  Whatever the video is: every input whose type starts with
    [video] gives, when nothing is to be saved, the loop from 0.2 to 0.8
    seconds with a seamless score of 82, a media duration of one second,
    one transition point at 0.8 seconds of the preferred type, lasting
    0.5 seconds for a crossfade and 0 otherwise, and no storage.  With
    [saveResults] set on an optimizer that has Firebase configured the
    same call throws: [User must be authenticated to save results]
    without a signed-in user and [Failed to save results: ...] with
    one, after the prefix [Media processing failed: ]. *)
Theorem video_result_is_constant (analyzer : Session.Instance)
  (firebase : option Firebase.Integration)
  (mediaInput : Pipeline.MediaInput) (mediaType : string)
  (params : Optimizer.Params) (now : string) (dateNow : Z)
  (random : nat -> list Z * Q) :
  Session.reachable analyzer ->
  Pipeline.detectMediaType mediaInput = Js.Ok mediaType ->
  Js.startsWith mediaType "video" = true ->
  let run :=
    snd (Pipeline.processMedia analyzer firebase mediaInput params now
           dateNow random) in
  (Optimizer.saveResults params = false \/ firebase = None ->
   exists result,
     run = Js.Ok result
     /\ fst (Optimizer.loopPoints (Optimizer.loopMetadata result)) == 2 # 10
     /\ snd (Optimizer.loopPoints (Optimizer.loopMetadata result)) == 8 # 10
     /\ Optimizer.seamlessScore
          (Optimizer.qualityMetrics (Optimizer.loopMetadata result)) == 82
     /\ Optimizer.mediaDuration result == 1
     /\ Optimizer.storage result = None
     /\ exists point,
          Optimizer.transitionPoints (Optimizer.loopMetadata result) = [point]
          /\ Optimizer.pointTimestamp point == 8 # 10
          /\ Optimizer.pointType point = Optimizer.preferredTransition params
          /\ Optimizer.pointDuration point
             = if String.eqb (Optimizer.preferredTransition params) "crossfade"
               then 5 # 10 else 0)
  /\ (forall integration,
        Optimizer.saveResults params = true ->
        firebase = Some integration ->
        exists message,
          run = Js.Throw ("Media processing failed: " +:+ message)
          /\ match
               Firebase.getCurrentUser (Firebase.initialize integration)
             with
             | None =>
                 message
                 = "User must be authenticated to save results"%string
             | Some _ =>
                 String.prefix "Failed to save results: " message = true
             end).
Proof.
  intros Hreach Hdetect Hvideo run. subst run.
  destruct (reachable_invariant analyzer Hreach) as (Hc & _ & _).
  destruct analyzer as [[client fb ab] res]. simpl in Hc. subst client.
  destruct params as [quality minLoop maxLoop preferred format save].
  unfold Pipeline.processMedia. rewrite Hdetect.
  unfold Session.loadMedia. rewrite Hvideo. cbn [snd Session.state].
  cbn [Optimizer.saveResults Optimizer.preferredTransition].
  split.
  - intros Hoff.
    assert (Hcase : save = false \/ firebase = None) by exact Hoff.
    destruct Hcase as [->| ->]; [|destruct save];
      (eexists; split; [vm_compute; reflexivity|];
       cbn; repeat (split; [reflexivity|]);
       eexists; repeat (split; [reflexivity|]); reflexivity).
  - intros [initialized [user|]] -> ->; destruct initialized;
      cbn [Firebase.getCurrentUser Firebase.initialize Firebase.initialized
           Firebase.currentUser negb];
      first
        [ exists "User must be authenticated to save results"%string;
          split; [vm_compute; reflexivity|reflexivity]
        | exists "Failed to save results: collection is not a function"%string;
          split; [vm_compute; reflexivity|reflexivity] ].
Qed.

Lemma video_result_is_constant_witness :
  exists result,
    snd (Pipeline.processMedia Session.construct None
           (Pipeline.ArrayBuffer [0; 0; 0; 24; 0x66; 0x74; 0x79; 0x70]%Z)
           (Optimizer.mkParams "high" 3 10 "crossfade" None true) "now" 0
           (fun _ => ([], 0)))
    = Js.Ok result
    /\ Optimizer.seamlessScore
         (Optimizer.qualityMetrics (Optimizer.loopMetadata result)) == 82.
Proof.
  destruct (proj1 (video_result_is_constant Session.construct None
              (Pipeline.ArrayBuffer [0; 0; 0; 24; 0x66; 0x74; 0x79; 0x70]%Z)
              "video/mp4"
              (Optimizer.mkParams "high" 3 10 "crossfade" None true) "now" 0
              (fun _ => ([], 0))
              Session.reachable_construct eq_refl eq_refl)
              (or_intror eq_refl))
    as (result & Hrun & _ & _ & Hscore & _).
  exists result. split; [exact Hrun|exact Hscore].
Defined.

(** X18.  An input whose type starts with [audio] never decides the
    loop: [loadMedia] leaves the frame buffer as it is.  When nothing is
    to be saved, an optimizer whose frame buffer is empty gives the
    empty interval at 0 with a seamless score of 80.2 and a media
    duration of 0, and after a video the video's loop from 0.2 to 0.8
    with the score 82.  With [saveResults] set on an optimizer that has
    Firebase configured the call throws instead. *)
Theorem audio_result_follows_the_frame_buffer (analyzer : Session.Instance)
  (firebase : option Firebase.Integration)
  (mediaInput : Pipeline.MediaInput) (mediaType : string)
  (params : Optimizer.Params) (now : string) (dateNow : Z)
  (random : nat -> list Z * Q) :
  Session.reachable analyzer ->
  Pipeline.detectMediaType mediaInput = Js.Ok mediaType ->
  Js.startsWith mediaType "video" = false ->
  Js.startsWith mediaType "audio" = true ->
  let run :=
    Pipeline.processMedia analyzer firebase mediaInput params now dateNow
      random in
  Analyzer.frameBuffer (Session.state (fst run))
  = Analyzer.frameBuffer (Session.state analyzer)
  /\ (Optimizer.saveResults params = false \/ firebase = None ->
      exists result,
        snd run = Js.Ok result
        /\ Optimizer.storage result = None
        /\ let points :=
             Optimizer.loopPoints (Optimizer.loopMetadata result) in
           let seamlessScore :=
             Optimizer.seamlessScore
               (Optimizer.qualityMetrics (Optimizer.loopMetadata result)) in
           (Analyzer.frameBuffer (Session.state analyzer) = Some []
            /\ fst points == 0 /\ snd points == 0
            /\ seamlessScore == 802 # 10
            /\ Optimizer.mediaDuration result == 0)
           \/ ((exists random0,
                  Analyzer.frameBuffer (Session.state analyzer)
                  = Some (Session.extractVideoFrames random0))
               /\ fst points == 2 # 10 /\ snd points == 8 # 10
               /\ seamlessScore == 82
               /\ Optimizer.mediaDuration result == 1))
  /\ (Optimizer.saveResults params = true ->
      is_Some firebase ->
      exists message,
        snd run = Js.Throw message
        /\ String.prefix "Media processing failed: " message = true).
Proof.
  intros Hreach Hdetect Hvideo Haudio run. subst run.
  destruct (reachable_invariant analyzer Hreach) as (Hc & Hf & _).
  destruct analyzer as [[client fb ab] res]. simpl in Hc, Hf. subst client.
  destruct params as [quality minLoop maxLoop preferred format save].
  unfold Pipeline.processMedia. rewrite Hdetect.
  unfold Session.loadMedia. rewrite Hvideo, Haudio.
  cbn [snd fst Session.state Analyzer.geminiClient Analyzer.frameBuffer
       Analyzer.audioBuffer Optimizer.saveResults].
  split; [|split].
  - unfold Session.analyzeMedia. cbn [Session.state].
    destruct (Analyzer.analyzeMedia _ _ _); reflexivity.
  - intros Hoff.
    assert (Hcase : save = false \/ firebase = None) by exact Hoff.
    destruct Hf as [->|[random0 ->]].
    + destruct Hcase as [->| ->]; [|destruct save];
        (eexists; split; [vm_compute; reflexivity|];
         split; [reflexivity|];
         left; cbn; repeat (split; [reflexivity|]); reflexivity).
    + destruct Hcase as [->| ->]; [|destruct save];
        (eexists; split; [vm_compute; reflexivity|];
         split; [reflexivity|];
         right; cbn; split; [eauto|];
         repeat (split; [reflexivity|]); reflexivity).
  - intros -> [[initialized [user|]] ->];
      destruct initialized; destruct Hf as [->|[random0 ->]];
      (eexists; split; [vm_compute; reflexivity|reflexivity]).
Qed.

Lemma audio_result_follows_the_frame_buffer_witness :
  exists result,
    snd (Pipeline.processMedia Session.construct
           (Some Firebase.construct) (Pipeline.Blob "audio/wav")
           (Optimizer.mkParams "high" 3 10 "crossfade" None false) "now" 0
           (fun _ => ([], 0)))
    = Js.Ok result
    /\ Optimizer.storage result = None.
Proof.
  destruct (proj1 (proj2 (audio_result_follows_the_frame_buffer
              Session.construct (Some Firebase.construct)
              (Pipeline.Blob "audio/wav") "audio/wav"
              (Optimizer.mkParams "high" 3 10 "crossfade" None false) "now" 0
              (fun _ => ([], 0))
              Session.reachable_construct eq_refl eq_refl eq_refl))
              (or_introl eq_refl))
    as (result & Hrun & Hstorage & _).
  exists result. split; [exact Hrun|exact Hstorage].
Defined.

(** X19.  An input whose type starts with neither [video] nor [audio]
    makes [processMedia] throw [Media processing failed: Failed to load
    media: Unsupported media type: ] followed by the type, and leaves
    the analyzer as it was; so do an array buffer without a known
    signature and a blob without a type, as
    [application/octet-stream]. *)
Theorem unsupported_type_is_rejected (analyzer : Session.Instance)
  (firebase : option Firebase.Integration)
  (mediaInput : Pipeline.MediaInput) (mediaType : string)
  (params : Optimizer.Params) (now : string) (dateNow : Z)
  (random : nat -> list Z * Q) :
  Pipeline.detectMediaType mediaInput = Js.Ok mediaType ->
  Js.startsWith mediaType "video" = false ->
  Js.startsWith mediaType "audio" = false ->
  Pipeline.processMedia analyzer firebase mediaInput params now dateNow random
  = (analyzer,
     Js.Throw ("Media processing failed: Failed to load media: "
               +:+ "Unsupported media type: " +:+ mediaType)).
Proof.
  intros Hdetect Hvideo Haudio.
  unfold Pipeline.processMedia. rewrite Hdetect.
  unfold Session.loadMedia. rewrite Hvideo, Haudio. reflexivity.
Qed.

Lemma unsupported_type_is_rejected_witness :
  Pipeline.processMedia Session.construct None (Pipeline.Blob EmptyString)
    (Optimizer.mkParams "high" 3 10 "crossfade" None false) "now" 0
    (fun _ => ([], 0))
  = (Session.construct,
     Js.Throw ("Media processing failed: Failed to load media: "
               +:+ "Unsupported media type: "
               +:+ "application/octet-stream")).
Proof.
  apply (unsupported_type_is_rejected Session.construct None
           (Pipeline.Blob EmptyString) "application/octet-stream");
    reflexivity.
Defined.

Lemma slice_prefix {A : Type} (l : list A) (n : nat) :
  Js.slice l 0 (Some (Z.of_nat n)) = take n l.
Proof.
  unfold Js.slice. cbn [Z.ltb Z.compare].
  destruct (Z.of_nat n <? 0)%Z eqn:Hneg; [apply Z.ltb_lt in Hneg; lia|].
  rewrite (Z.min_l 0) by lia. simpl.
  rewrite Z.sub_0_r.
  destruct (decide (n <= length l)%nat) as [Hle|Hgt].
  - rewrite (Z.min_l (Z.of_nat n)) by lia. by rewrite Nat2Z.id.
  - rewrite (Z.min_r (Z.of_nat n)) by lia. rewrite Nat2Z.id.
    change (Z.to_nat 0) with 0%nat. rewrite drop_0.
    by rewrite !take_ge by lia.
Qed.

(** X20.  [_detectMediaType] never throws for an array buffer, looks at
    its first 12 bytes only, and takes a buffer of fewer than 2 bytes
    for [application/octet-stream]; a blob keeps its own type and is
    [application/octet-stream] when that is empty. *)
Theorem detectMediaType_reads_the_header (bytes : list Z) (type : string) :
  Pipeline.detectMediaType (Pipeline.ArrayBuffer bytes)
  = Pipeline.detectMediaType (Pipeline.ArrayBuffer (take 12 bytes))
  /\ (exists detected,
        Pipeline.detectMediaType (Pipeline.ArrayBuffer bytes) = Js.Ok detected
        /\ detected ∈ ["video/mp4"; "video/webm"; "audio/mpeg"; "audio/wav";
                       "application/octet-stream"]%string)
  /\ ((length bytes < 2)%nat ->
      Pipeline.detectMediaType (Pipeline.ArrayBuffer bytes)
      = Js.Ok "application/octet-stream")
  /\ Pipeline.detectMediaType (Pipeline.Blob type)
     = Js.Ok (match type with
              | EmptyString => "application/octet-stream"
              | _ => type
              end).
Proof.
  split; [|split; [|split]].
  - unfold Pipeline.detectMediaType.
    change (Some 12%Z) with (Some (Z.of_nat 12)).
    rewrite !slice_prefix. by rewrite take_take.
  - unfold Pipeline.detectMediaType.
    repeat match goal with
           | |- context [if ?b then _ else _] => destruct b
           end;
      eexists; (split; [reflexivity|]);
      apply list_elem_of_In; simpl; tauto.
  - intros Hshort. unfold Pipeline.detectMediaType.
    change (Some 12%Z) with (Some (Z.of_nat 12)). rewrite slice_prefix.
    destruct bytes as [|b0 [|b1 bytes]]; [| |simpl in Hshort; lia].
    + reflexivity.
    + unfold Pipeline.byteIs. simpl.
      destruct (b0 =? 26)%Z; destruct (b0 =? 73)%Z; destruct (b0 =? 255)%Z;
        destruct (b0 =? 82)%Z; reflexivity.
  - by destruct type.
Qed.

Lemma detectMediaType_reads_the_header_witness :
  Pipeline.detectMediaType (Pipeline.ArrayBuffer [0xFF]%Z)
  = Js.Ok "application/octet-stream".
Proof.
  apply (proj1 (proj2 (proj2 (detectMediaType_reads_the_header
                                [0xFF]%Z EmptyString)))).
  simpl. lia.
Defined.

(** X21.  [getPreviewFrames] throws [Preview frames are only available
    for video media] for an input that is not a video; for a video it
    returns [frameCount] frames, 6 when the count is 0 or missing, the
    [i]-th at [i * 10 / frameCount] seconds, so all from 0 on and before
    10 seconds. *)
Theorem preview_frames_spread (mediaInput : Pipeline.MediaInput)
  (mediaType : string) (frameCount : option nat) :
  Pipeline.detectMediaType mediaInput = Js.Ok mediaType ->
  let n :=
    match frameCount with
    | Some (S k) => S k
    | _ => 6%nat
    end in
  (Js.startsWith mediaType "video" = false ->
   Pipeline.getPreviewFrames mediaInput frameCount
   = Js.Throw "Preview frames are only available for video media")
  /\ (Js.startsWith mediaType "video" = true ->
      exists previewFrames,
        Pipeline.getPreviewFrames mediaInput frameCount = Js.Ok previewFrames
        /\ length previewFrames = n
        /\ forall i, (i < n)%nat ->
             exists frame,
               previewFrames !! i = Some frame
               /\ Pipeline.previewIndex frame = i
               /\ Pipeline.previewTimestamp frame
                  == Js.num i * 10 / Js.num n
               /\ 0 <= Pipeline.previewTimestamp frame < 10).
Proof.
  intros Hdetect n. unfold Pipeline.getPreviewFrames. rewrite Hdetect.
  split; intros Hvideo; rewrite Hvideo; [reflexivity|]. cbn [negb].
  assert (Hn : (match frameCount with
                | Some 0%nat => 6%nat
                | Some k => k
                | None => 6%nat
                end) = n) by (by destruct frameCount as [[|k]|]).
  rewrite Hn.
  assert (Hpos : (0 < n)%nat) by (unfold n; destruct frameCount as [[|k]|]; lia).
  eexists. split; [reflexivity|].
  split; [by rewrite length_map, length_seq|].
  intros i Hi. eexists.
  rewrite list_lookup_fmap, lookup_seq_lt by done.
  split; [reflexivity|]. split; [reflexivity|]. cbn.
  assert (Hq : 0 < Js.num n)
    by (unfold Js.num; rewrite <- (Zlt_Qlt 0); lia).
  assert (Hi0 : 0 <= Js.num i)
    by (unfold Js.num; rewrite <- (Zle_Qle 0); lia).
  assert (Hin : Js.num i < Js.num n)
    by (unfold Js.num; rewrite <- Zlt_Qlt; lia).
  assert (Heq : Js.num i * (10 / Js.num n) == Js.num i * 10 / Js.num n)
    by (field; lra).
  split; [exact Heq|]. rewrite Heq. split.
  - apply Qle_shift_div_l; [done|lra].
  - apply Qlt_shift_div_r; [done|lra].
Qed.

Lemma preview_frames_spread_witness :
  exists previewFrames,
    Pipeline.getPreviewFrames (Pipeline.Blob "video/mp4") None
    = Js.Ok previewFrames
    /\ length previewFrames = 6%nat.
Proof.
  destruct (proj2 (preview_frames_spread (Pipeline.Blob "video/mp4")
                     "video/mp4" None eq_refl) eq_refl)
    as (previewFrames & Hrun & Hlen & _).
  exists previewFrames. split; [exact Hrun|exact Hlen].
Defined.

(** ** The video transition engine *)

Section VideoTransitionFacts.

Import VideoTransition.

(** Writing the places [0], [1], ..., [n - 1] in turn: the first [n]
    places are the written values and the rest of the array is as it
    was; an array shorter than [n] has grown to [n] places. *)
Lemma assign_in_turn {A : Type} (g : nat -> A) (l : list (option A)) (n : nat) :
  foldl (fun acc i => Js.assign acc i (g i)) l (seq 0 n)
  = map (fun i => Some (g i)) (seq 0 n) ++ drop n l.
Proof.
  induction n as [|n IH].
  - by rewrite drop_0.
  - rewrite seq_S, foldl_app, IH, map_app. cbn [foldl map Nat.add].
    unfold Js.assign.
    assert (Hlen : length (map (fun i => Some (g i)) (seq 0 n)) = n)
      by (by rewrite length_map, length_seq).
    rewrite length_app, Hlen, length_drop.
    destruct (decide (n < length l)%nat) as [Hin|Hout].
    + assert (Hlt : (n <? n + (length l - n))%nat = true)
        by (apply Nat.ltb_lt; lia).
      rewrite Hlt.
      destruct (lookup_lt_is_Some_2 l n Hin) as [y Hy].
      rewrite (drop_S l y n Hy).
      rewrite insert_app_r_alt by lia.
      rewrite Hlen, Nat.sub_diag. cbn. by rewrite <- app_assoc.
    + assert (Hlt : (n <? n + (length l - n))%nat = false)
        by (apply Nat.ltb_ge; lia).
      rewrite Hlt.
      rewrite !drop_ge by lia.
      replace (n - (n + (length l - n)))%nat with 0%nat by lia.
      simpl. by rewrite !app_nil_r.
Qed.

Lemma slice_suffix {A : Type} (l : list A) (k : Z) :
  (0 <= k <= Z.of_nat (length l))%Z ->
  Js.slice l k None = drop (Z.to_nat k) l.
Proof.
  intros Hk. unfold Js.slice.
  destruct (k <? 0)%Z eqn:Hneg; [apply Z.ltb_lt in Hneg; lia|].
  rewrite Z.min_l by lia.
  apply take_ge. rewrite length_drop. lia.
Qed.

Lemma at_index_some {A : Type} (l : list A) (i : nat) :
  Js.at_index (map Some l) i = l !! i.
Proof.
  unfold Js.at_index. rewrite list_lookup_fmap.
  by destruct (l !! i).
Qed.

Context {F : Type} `{FrameBlend F}.

(** The frames of the result. *)
Lemma applyTransitions_frames (videoData : VideoData F)
  (loopPoints : Transition.LoopPoints) (crossfadeDuration : option Q) :
  let cf :=
    Qfloor (default (5 # 10) crossfadeDuration * frameRate videoData) in
  let L :=
    Js.slice (frames videoData)
      (Qfloor (Transition.loopStart loopPoints * frameRate videoData))
      (Some (Qfloor (Transition.loopEnd loopPoints * frameRate videoData))) in
  resultFrames (applyTransitions videoData loopPoints crossfadeDuration)
  = if (0 <? cf)%Z then
      map (fun i =>
             Some (blendFrames
                     (Js.at_index
                        (Js.slice (map Some L)
                           (Z.of_nat (length (map Some L)) - cf) None) i)
                     (Js.at_index (Js.slice (map Some L) 0 (Some cf)) i)
                     (Js.num i / inject_Z cf)))
          (seq 0 (Z.to_nat cf))
      ++ drop (Z.to_nat cf) (map Some L)
    else map Some L.
Proof.
  intros cf L. unfold applyTransitions. cbn [resultFrames].
  fold cf. fold L.
  destruct (0 <? cf)%Z; [|done].
  apply (assign_in_turn
           (fun i =>
              blendFrames
                (Js.at_index
                   (Js.slice (map Some L)
                      (Z.of_nat (length (map Some L)) - cf) None) i)
                (Js.at_index (Js.slice (map Some L) 0 (Some cf)) i)
                (Js.num i / inject_Z cf))).
Qed.

End VideoTransitionFacts.

(** X22.  [applyTransitions] on a video: when the crossfade is shorter
    than one frame the loop's frames are returned untouched; otherwise
    the result has as many frames as the longer of the loop and the
    crossfade, so a crossfade longer than the loop makes the result
    longer than the loop, and the frames after the crossfade are the
    loop's own.  The metadata say [crossfade] in every case. *)
Theorem crossfade_keeps_the_tail {F : Type} `{VideoTransition.FrameBlend F}
  (videoData : VideoTransition.VideoData F)
  (loopPoints : Transition.LoopPoints) (crossfadeDuration : option Q) :
  let rate := VideoTransition.frameRate videoData in
  let cf := Qfloor (default (5 # 10) crossfadeDuration * rate) in
  let L :=
    Js.slice (VideoTransition.frames videoData)
      (Qfloor (Transition.loopStart loopPoints * rate))
      (Some (Qfloor (Transition.loopEnd loopPoints * rate))) in
  let r :=
    VideoTransition.applyTransitions videoData loopPoints crossfadeDuration in
  ((cf <= 0)%Z -> VideoTransition.resultFrames r = map Some L)
  /\ ((0 < cf)%Z ->
      length (VideoTransition.resultFrames r)
      = Nat.max (length L) (Z.to_nat cf)
      /\ drop (Z.to_nat cf) (VideoTransition.resultFrames r)
         = map Some (drop (Z.to_nat cf) L))
  /\ VideoTransition.metaType (VideoTransition.transitionMetadata r)
     = "crossfade"%string
  /\ VideoTransition.metaFrameCount (VideoTransition.transitionMetadata r)
     = cf
  /\ VideoTransition.resultDuration r
     = Transition.loopEnd loopPoints - Transition.loopStart loopPoints.
Proof.
  intros rate cf L r.
  pose proof (applyTransitions_frames videoData loopPoints crossfadeDuration)
    as Hframes.
  cbn zeta in Hframes. fold rate in Hframes. fold cf L r in Hframes.
  split; [|split; [|done]].
  - intros Hcf. rewrite Hframes.
    destruct (0 <? cf)%Z eqn:Hpos; [apply Z.ltb_lt in Hpos; lia|done].
  - intros Hcf. rewrite Hframes.
    apply Z.ltb_lt in Hcf. rewrite Hcf. split.
    + rewrite length_app, length_map, length_seq, length_drop, length_map.
      lia.
    + rewrite drop_app_length'; [|by rewrite length_map, length_seq].
      by rewrite fmap_drop.
Qed.

Lemma crossfade_keeps_the_tail_witness :
  let blend : VideoTransition.FrameBlend nat :=
    {| VideoTransition.blendFrames := fun _ _ _ => 0%nat |} in
  let video := VideoTransition.mkVideoData [1; 2; 3]%nat 1 in
  length (VideoTransition.resultFrames
            (VideoTransition.applyTransitions (H := blend) video
               (Transition.mkLoopPoints 0 3) (Some 5)))
  = 5%nat.
Proof.
  intros blend video.
  refine (proj1 (proj1 (proj2 (crossfade_keeps_the_tail (H := blend) video
                          (Transition.mkLoopPoints 0 3) (Some 5))) _)).
  vm_compute. reflexivity.
Defined.

(** X23.  When the crossfade fits in the loop, frame [i] of the first
    [crossfadeFrames] frames is the blend of end frame
    [length - crossfadeFrames + i] (first operand) and start frame [i]
    (second operand) with the ratio [i / crossfadeFrames]; the ratio
    starts at 0 and never reaches 1. *)
Theorem crossfade_blends_end_into_start {F : Type}
  `{VideoTransition.FrameBlend F}
  (videoData : VideoTransition.VideoData F)
  (loopPoints : Transition.LoopPoints) (crossfadeDuration : option Q)
  (i : nat) :
  let rate := VideoTransition.frameRate videoData in
  let cf := Qfloor (default (5 # 10) crossfadeDuration * rate) in
  let L :=
    Js.slice (VideoTransition.frames videoData)
      (Qfloor (Transition.loopStart loopPoints * rate))
      (Some (Qfloor (Transition.loopEnd loopPoints * rate))) in
  let r :=
    VideoTransition.applyTransitions videoData loopPoints crossfadeDuration in
  (0 < cf)%Z -> (Z.to_nat cf <= length L)%nat -> (i < Z.to_nat cf)%nat ->
  exists startFrame endFrame,
    L !! i = Some startFrame
    /\ L !! (length L - Z.to_nat cf + i)%nat = Some endFrame
    /\ VideoTransition.resultFrames r !! i
       = Some (Some (VideoTransition.blendFrames
                       (Some endFrame) (Some startFrame)
                       (Js.num i / inject_Z cf)))
    /\ 0 <= Js.num i / inject_Z cf < 1.
Proof.
  intros rate cf L r Hcf Hfit Hi.
  pose proof (applyTransitions_frames videoData loopPoints crossfadeDuration)
    as Hframes.
  cbn zeta in Hframes. fold rate in Hframes. fold cf L r in Hframes.
  clearbody r L cf.
  assert (Hpos : (0 <? cf)%Z = true) by (by apply Z.ltb_lt).
  rewrite Hpos in Hframes.
  destruct (lookup_lt_is_Some_2 L i) as [startFrame Hs]; [lia|].
  destruct (lookup_lt_is_Some_2 L (length L - Z.to_nat cf + i))
    as [endFrame He]; [lia|].
  exists startFrame, endFrame. split; [done|]. split; [done|]. split.
  - rewrite Hframes.
    rewrite lookup_app_l by (by rewrite length_map, length_seq).
    rewrite list_lookup_fmap, lookup_seq_lt by done. cbn.
    do 3 f_equal.
    + rewrite slice_suffix by (rewrite length_map; lia).
      unfold Js.at_index. rewrite lookup_drop, list_lookup_fmap.
      rewrite length_map.
      replace (Z.to_nat (Z.of_nat (length L) - cf) + i)%nat
        with (length L - Z.to_nat cf + i)%nat by lia.
      by rewrite He.
    + replace cf with (Z.of_nat (Z.to_nat cf)) at 1 by lia.
      rewrite slice_prefix. unfold Js.at_index.
      rewrite lookup_take_lt by done.
      by rewrite list_lookup_fmap, Hs.
  - assert (Hq : 0 < inject_Z cf) by (rewrite <- (Zlt_Qlt 0); lia).
    assert (Hi0 : 0 <= Js.num i)
      by (unfold Js.num; rewrite <- (Zle_Qle 0); lia).
    assert (Hin : Js.num i < inject_Z cf)
      by (unfold Js.num; rewrite <- Zlt_Qlt; lia).
    split.
    + apply Qle_shift_div_l; [done|lra].
    + apply Qlt_shift_div_r; [done|lra].
Qed.

Lemma crossfade_blends_end_into_start_witness :
  let blend : VideoTransition.FrameBlend Q :=
    {| VideoTransition.blendFrames :=
         fun a b ratio => default 0 a * (1 - ratio) + default 0 b * ratio |} in
  let video := VideoTransition.mkVideoData [10; 20; 30; 40] 1 in
  exists startFrame endFrame,
    [10; 20; 30; 40] !! 1%nat = Some startFrame
    /\ [10; 20; 30; 40] !! 3%nat = Some endFrame
    /\ 0 <= Js.num 1 / inject_Z 2 < 1.
Proof.
  intros blend video.
  destruct (crossfade_blends_end_into_start (H := blend) video
              (Transition.mkLoopPoints 0 4) (Some 2) 1)
    as (startFrame & endFrame & Hs & He & _ & Hratio);
    [vm_compute; reflexivity|vm_compute; lia|vm_compute; lia|].
  exists startFrame, endFrame.
  split; [exact Hs|]. split; [exact He|exact Hratio].
Defined.

(** ** The loop processor *)

Section LoopProcessorFacts.

Import LoopProcessor.

(** The [reduce] that keeps the first suggestion of highest
    confidence. *)
Lemma pick_first_maximum (l : list Suggestion) : forall (b : Suggestion),
  let r :=
    foldl (fun best current =>
             if Js.gt (confidence current) (confidence best)
             then current else best) b l in
  (r = b /\ forall s, s ∈ l -> confidence s <= confidence b)
  \/ exists l1 l2,
       l = l1 ++ r :: l2
       /\ confidence b < confidence r
       /\ (forall s, s ∈ l1 -> confidence s < confidence r)
       /\ (forall s, s ∈ l2 -> confidence s <= confidence r).
Proof.
  induction l as [|x l IH]; intros b; cbn [foldl].
  - left. split; [done|]. intros s Hs. by apply elem_of_nil in Hs.
  - destruct (Js.gt (confidence x) (confidence b)) eqn:Hgt.
    + apply gt_iff in Hgt. right.
      destruct (IH x) as [[Hr Hall]|(l1 & l2 & Hl & Hxr & Hl1 & Hl2)].
      * exists [], l. cbn zeta. rewrite Hr.
        split; [done|]. split; [done|]. split; [|done].
        intros s Hs. by apply elem_of_nil in Hs.
      * exists (x :: l1), l2. cbn zeta in *.
        split; [by rewrite Hl at 1|]. split; [lra|]. split; [|done].
        intros s Hs. apply elem_of_cons in Hs as [->|Hs]; [done|by apply Hl1].
    + apply gt_false_iff in Hgt.
      destruct (IH b) as [[Hr Hall]|(l1 & l2 & Hl & Hbr & Hl1 & Hl2)].
      * left. split; [done|].
        intros s Hs. apply elem_of_cons in Hs as [->|Hs]; [done|by apply Hall].
      * right. exists (x :: l1), l2. cbn zeta in *.
        split; [by rewrite Hl at 1|]. split; [done|]. split; [|done].
        intros s Hs. apply elem_of_cons in Hs as [->|Hs]; [lra|by apply Hl1].
Qed.

End LoopProcessorFacts.

(** X24.  [_getOptimalLoopPoints] prefers [points], then [startTime] and
    [endTime], then the array: of a non-empty array it takes the first
    suggestion of highest confidence; with nothing to go by it returns
    0 to 10 seconds. *)
Theorem optimal_loop_points_choice (suggestions : LoopProcessor.LoopSuggestions) :
  let result := LoopProcessor.getOptimalLoopPoints suggestions in
  (forall p, LoopProcessor.points suggestions = Some p -> result = p)
  /\ (forall t,
        LoopProcessor.points suggestions = None ->
        LoopProcessor.times suggestions = Some t -> result = t)
  /\ (LoopProcessor.points suggestions = None ->
      LoopProcessor.times suggestions = None ->
      (LoopProcessor.elements suggestions = None
       \/ LoopProcessor.elements suggestions = Some []) ->
      result = (0, 10))
  /\ (forall l,
        LoopProcessor.points suggestions = None ->
        LoopProcessor.times suggestions = None ->
        LoopProcessor.elements suggestions = Some l -> l <> [] ->
        exists before best after,
          l = before ++ best :: after
          /\ result
             = (LoopProcessor.startTime best, LoopProcessor.endTime best)
          /\ (forall s, s ∈ before ->
                LoopProcessor.confidence s < LoopProcessor.confidence best)
          /\ (forall s, s ∈ after ->
                LoopProcessor.confidence s
                <= LoopProcessor.confidence best)).
Proof.
  intros result. unfold result, LoopProcessor.getOptimalLoopPoints.
  split; [|split; [|split]].
  - by intros p ->.
  - by intros t -> ->.
  - by intros -> -> [->| ->].
  - intros l -> -> -> Hne. destruct l as [|first rest]; [done|].
    destruct (pick_first_maximum (first :: rest) first)
      as [[Hr Hall]|(l1 & l2 & Hl & _ & Hl1 & Hl2)].
    + exists [], first, rest. rewrite Hr. split; [done|]. split; [done|].
      split.
      * intros s Hs. by apply elem_of_nil in Hs.
      * intros s Hs. apply Hall. by right.
    + eexists l1, _, l2. split; [exact Hl|]. by split.
Qed.

Lemma optimal_loop_points_choice_witness :
  let l :=
    [LoopProcessor.mkSuggestion 0 1 (5 # 10);
     LoopProcessor.mkSuggestion 2 3 (9 # 10);
     LoopProcessor.mkSuggestion 4 5 (9 # 10)] in
  exists before best after,
    l = before ++ best :: after
    /\ LoopProcessor.getOptimalLoopPoints
         (LoopProcessor.mkLoopSuggestions None None (Some l))
       = (LoopProcessor.startTime best, LoopProcessor.endTime best).
Proof.
  intros l.
  destruct (proj2 (proj2 (proj2 (optimal_loop_points_choice
              (LoopProcessor.mkLoopSuggestions None None (Some l)))))
              l eq_refl eq_refl eq_refl)
    as (before & best & after & Hl & Hresult & _); [discriminate|].
  exists before, best, after. split; [exact Hl|exact Hresult].
Defined.

Section LoopProcessorMore.

Import LoopProcessor.

Lemma existsb_eqb_elem (x : string) (l : list string) :
  existsb (String.eqb x) l = true <-> x ∈ l.
Proof.
  rewrite existsb_exists, list_elem_of_In. split.
  - intros (y & Hy & Heq). apply String.eqb_eq in Heq. by subst y.
  - intros Hx. exists x. split; [done|apply String.eqb_refl].
Qed.

Lemma determineOptimalTransition_listed mediaSource parameters random chosen :
  determineOptimalTransition mediaSource parameters random = Js.Ok chosen ->
  chosen ∈ transitionTypes.
Proof.
  unfold determineOptimalTransition.
  destruct (negb _ && existsb _ transitionTypes) eqn:Hreq.
  - intros [= <-]. apply andb_prop in Hreq as [_ Hin].
    by apply existsb_eqb_elem.
  - destruct (type mediaSource) as [t|]; [|done].
    repeat match goal with
           | |- context [if ?b then _ else _] => destruct b
           end;
      intros [= <-]; apply list_elem_of_In; simpl; tauto.
Qed.

(** The request for a transition type counts when it is one of the
    listed types. *)
Lemma request_listed parameters requested :
  transitionType (loopParametersOf parameters) = Some requested ->
  negb (String.eqb (Js.or_default (Some requested) EmptyString) EmptyString)
  && existsb (String.eqb (Js.or_default (Some requested) EmptyString))
       transitionTypes
  = true
  <-> requested ∈ transitionTypes.
Proof.
  intros _. split.
  - intros Hreq. apply andb_prop in Hreq as [_ Hin].
    apply existsb_eqb_elem in Hin. by destruct requested.
  - intros Hin.
    assert (Hne : requested <> EmptyString).
    { intros ->. apply list_elem_of_In in Hin. simpl in Hin.
      intuition discriminate. }
    destruct requested as [|c rest]; [done|]. cbn [Js.or_default].
    apply existsb_eqb_elem in Hin. rewrite Hin. done.
Qed.

(** [_determineOptimalTransition] returns exactly when the request is
    listed or the media source has a type. *)
Lemma determineOptimalTransition_returns mediaSource parameters random :
  (exists chosen,
     determineOptimalTransition mediaSource parameters random = Js.Ok chosen)
  <-> is_Some (type mediaSource)
      \/ exists requested,
           transitionType (loopParametersOf parameters) = Some requested
           /\ requested ∈ transitionTypes.
Proof.
  unfold determineOptimalTransition.
  destruct (transitionType (loopParametersOf parameters)) as [requested|]
    eqn:Hrequest.
  - pose proof (request_listed parameters requested Hrequest) as Hlisted.
    destruct (negb _ && existsb _ transitionTypes) eqn:Hreq.
    + split; [|eauto]. intros _. right. exists requested.
      split; [done|]. by apply Hlisted.
    + destruct (type mediaSource) as [t|].
      * split; [intros _; left; eauto|]. intros _.
        repeat match goal with
               | |- context [if ?b then _ else _] => destruct b
               end; eauto.
      * split; [intros [? [=]]|].
        intros [[? [=]]|(r & [= <-] & Hin)].
        apply Hlisted in Hin. discriminate Hin.
  - cbn [Js.or_default String.eqb negb andb].
    destruct (type mediaSource) as [t|].
    + split; [intros _; left; eauto|]. intros _.
      repeat match goal with
             | |- context [if ?b then _ else _] => destruct b
             end; eauto.
    + split; [intros [? [=]]|]. intros [[? [=]]|(r & [=] & _)].
Qed.

Lemma num_or_positive (d : option Q) :
  match d with
  | Some x => Js.gt 0 x = false
  | None => True
  end ->
  0 < Js.num_or d (5 # 10).
Proof.
  destruct d as [x|]; [|by intros _]. intros Hx.
  apply gt_false_iff in Hx. unfold Js.num_or.
  destruct (Qeq_bool x 0) eqn:Hz; [done|].
  apply Qeq_bool_neq in Hz.
  destruct (Qlt_le_dec 0 x) as [|Hle]; [done|].
  exfalso. apply Hz. by apply Qle_antisym.
Qed.

End LoopProcessorMore.



(** X26.  [createLoop] returns a loop exactly when the validation of its
    inputs passes and the transition type can be determined, that is,
    when the media source has a type or a listed transition type is
    requested: a media source with data and without a type passes the
    validation and makes [createLoop] throw afterwards.  A target
    duration of 0 passes the validation like a missing one.  Every
    message thrown starts with [Loop processing failed: ].  The loop has
    one transition, at time 0, of one of the three listed types and of a
    positive duration: a requested crossfade of 0 seconds is replaced by
    0.5.  The optimized size is the original size. *)
Theorem createLoop_result (mediaSource : option LoopProcessor.MediaSource)
  (loopSuggestions : option LoopProcessor.LoopSuggestions)
  (parameters : option LoopProcessor.Parameters) (random : Q) :
  let run :=
    LoopProcessor.createLoop mediaSource loopSuggestions parameters random in
  ((exists loop, run = Js.Ok loop)
   <-> LoopProcessor.validateInputs mediaSource loopSuggestions parameters
       = Js.Ok tt
       /\ exists media processing,
            mediaSource = Some media /\ parameters = Some processing
            /\ (is_Some (LoopProcessor.type media)
                \/ exists requested,
                     LoopProcessor.transitionType
                       (LoopProcessor.loopParametersOf processing)
                     = Some requested
                     /\ requested ∈ LoopProcessor.transitionTypes))
  /\ (forall message,
        run = Js.Throw message ->
        String.prefix "Loop processing failed: " message = true)
  /\ (forall loop,
        run = Js.Ok loop ->
        LoopProcessor.optimizedSize loop = LoopProcessor.originalSize loop
        /\ exists point,
             LoopProcessor.transitions loop = [point]
             /\ LoopProcessor.pointTimestamp point = 0
             /\ 0 < LoopProcessor.pointDuration point
             /\ LoopProcessor.pointType point ∈ LoopProcessor.transitionTypes)
  /\ (forall media suggestions crossfade requested preset,
        LoopProcessor.validateInputs (Some media) (Some suggestions)
          (Some (LoopProcessor.mkParameters
                   (Some (LoopProcessor.mkLoopParameters
                            crossfade (Some 0) requested)) preset))
        = LoopProcessor.validateInputs (Some media) (Some suggestions)
            (Some (LoopProcessor.mkParameters
                     (Some (LoopProcessor.mkLoopParameters
                              crossfade None requested)) preset))).
Proof.
  intros run. subst run.
  split; [|split; [|split]].
  - unfold LoopProcessor.createLoop.
    destruct (LoopProcessor.validateInputs _ _ _) as [[]|message] eqn:Hv.
    + unfold LoopProcessor.validateInputs in Hv.
      destruct mediaSource as [media|]; [|done].
      destruct (LoopProcessor.byteLength media); [|done].
      destruct loopSuggestions as [suggestions|]; [|done].
      destruct parameters as [processing|]; [|done].
      pose proof (determineOptimalTransition_returns media processing random)
        as Hreturns.
      destruct (LoopProcessor.determineOptimalTransition media processing
                  random) as [chosen|message].
      * split; [|eauto]. intros _. split; [done|].
        exists media, processing. split; [done|]. split; [done|].
        apply Hreturns. eauto.
      * split; [intros [? [=]]|].
        intros (_ & media' & processing' & [= <-] & [= <-] & Hcan).
        apply Hreturns in Hcan as [? [=]].
    + split; [intros [? [=]]|]. intros [[=] _].
  - intros message. unfold LoopProcessor.createLoop.
    destruct (LoopProcessor.validateInputs _ _ _) as [[]|m];
      [|intros [= <-]; apply prefix_append].
    destruct mediaSource as [media|], loopSuggestions as [suggestions|],
             parameters as [processing|];
      try (intros [= <-]; apply prefix_append).
    destruct (LoopProcessor.determineOptimalTransition media processing
                random) as [chosen|m];
      [done|intros [= <-]; apply prefix_append].
  - intros loop. unfold LoopProcessor.createLoop.
    destruct (LoopProcessor.validateInputs _ _ _) as [[]|message] eqn:Hv;
      [|done].
    unfold LoopProcessor.validateInputs in Hv.
    destruct mediaSource as [media|]; [|done].
    destruct (LoopProcessor.byteLength media); [|done].
    destruct loopSuggestions as [suggestions|]; [|done].
    destruct parameters as [processing|]; [|done].
    destruct (LoopProcessor.determineOptimalTransition media processing
                random) as [chosen|m] eqn:Hchosen; [|done].
    intros [= <-]. cbn. split; [done|].
    eexists. split; [reflexivity|]. cbn. split; [done|]. split.
    + apply num_or_positive.
      destruct (LoopProcessor.crossfadeDuration
                  (LoopProcessor.loopParametersOf processing)) as [d|]; [|done].
      by destruct (Js.gt 0 d).
    + by apply (determineOptimalTransition_listed _ _ _ _ Hchosen).
  - intros media suggestions crossfade requested preset.
    unfold LoopProcessor.validateInputs. reflexivity.
Qed.

Lemma createLoop_result_witness :
  let media :=
    Some (LoopProcessor.mkMediaSource (Some 100%Z) (Some "video/mp4"%string)) in
  let suggestions := Some (LoopProcessor.mkLoopSuggestions None None None) in
  let parameters :=
    Some (LoopProcessor.mkParameters
            (Some (LoopProcessor.mkLoopParameters (Some 0) (Some 0) None))
            None) in
  exists loop point,
    LoopProcessor.createLoop media suggestions parameters (1 # 10)
    = Js.Ok loop
    /\ LoopProcessor.transitions loop = [point]
    /\ 0 < LoopProcessor.pointDuration point.
Proof.
  intros media suggestions parameters.
  destruct (LoopProcessor.createLoop media suggestions parameters (1 # 10))
    as [loop|message] eqn:Hrun; [|vm_compute in Hrun; discriminate Hrun].
  destruct (proj1 (proj2 (proj2 (createLoop_result media suggestions
                                   parameters (1 # 10)))) loop Hrun)
    as (_ & point & Hpoint & _ & Hpositive & _).
  exists loop, point. split; [reflexivity|]. split; [exact Hpoint|exact Hpositive].
Defined.

(** ** The analysis controller *)

Section SortByKey.

Context {A : Type} (key : A -> Q).

Let compareFn : A -> A -> Q := fun a b => key b - key a.

Lemma sortInsert_by_key x l :
  StronglySorted (fun a b => key b <= key a) l ->
  StronglySorted (fun a b => key b <= key a) (Js.sortInsert compareFn x l).
Proof.
  induction 1 as [|y l Hl IH Hy]; simpl.
  - repeat constructor.
  - destruct (Js.gt (compareFn x y) 0) eqn:Hxy.
    + apply gt_iff in Hxy. unfold compareFn in Hxy.
      constructor; [done|].
      rewrite sortInsert_perm. constructor; [lra|done].
    + apply gt_false_iff in Hxy. unfold compareFn in Hxy.
      constructor; [by constructor|].
      constructor; [lra|].
      eapply Forall_impl; [exact Hy|]. simpl. intros z Hz. lra.
Qed.

Lemma Array_sort_by_key l :
  StronglySorted (fun a b => key b <= key a) (Js.Array_sort compareFn l).
Proof.
  induction l as [|x l IH]; simpl; [constructor|].
  by apply sortInsert_by_key.
Qed.

Lemma elem_of_drop_elem (l : list A) : forall n x, x ∈ drop n l -> x ∈ l.
Proof.
  induction l as [|y l IH]; intros n x Hx.
  - by rewrite drop_nil in Hx.
  - destruct n as [|n]; [done|]. right. by apply (IH n).
Qed.

Lemma elem_of_take_elem (l : list A) : forall n x, x ∈ take n l -> x ∈ l.
Proof.
  induction l as [|y l IH]; intros n x Hx.
  - by rewrite take_nil in Hx.
  - destruct n as [|n]; [by apply elem_of_nil in Hx|].
    cbn in Hx. apply elem_of_cons in Hx as [->|Hx]; [by left|].
    right. by apply (IH n).
Qed.

(** In a list in descending order, what is cut off after the first [n]
    is not above anything that is kept. *)
Lemma sorted_take_drop (l : list A) (n : nat) :
  StronglySorted (fun a b => key b <= key a) l ->
  forall kept cut, kept ∈ take n l -> cut ∈ drop n l -> key cut <= key kept.
Proof.
  intros Hsorted. revert n.
  induction Hsorted as [|y l Hl IH Hy]; intros n kept cut Hk Hc.
  - rewrite take_nil in Hk. by apply elem_of_nil in Hk.
  - destruct n as [|n]; [by apply elem_of_nil in Hk|].
    cbn in Hk, Hc. apply elem_of_cons in Hk as [->|Hk].
    + rewrite Forall_forall in Hy. apply Hy.
      by apply (elem_of_drop_elem _ n).
    + by apply (IH n).
Qed.

End SortByKey.

Section ControllerFacts.

Import AnalysisController.

(** The points before sorting: the frame points, then the silences. *)
Lemma collected_points (potential : option (list LoopPoint))
  (silence : option (list Silence)) :
  determineRecommendedLoopPoints potential silence None
  = take 5
      (Js.Array_sort byConfidenceDescending
         (default [] potential
          ++ map (fun s =>
                    mkLoopPoint (silenceStart s) (silenceEnd s)
                                (silenceConfidence s)
                                (Some "Audio silence"%string))
                 (default [] silence))).
Proof.
  unfold determineRecommendedLoopPoints.
  change (Some 5%Z) with (Some (Z.of_nat 5)). rewrite slice_prefix.
  do 2 f_equal.
  assert (Hcopy : forall (l : list LoopPoint) acc,
            foldl (fun ps point =>
                     ps ++ [ {| startTime := startTime point;
                                endTime := endTime point;
                                confidence := confidence point;
                                reason := reason point |} ]) acc l
            = acc ++ l).
  { intros l. induction l as [|[a b c d] l IH]; intros acc; simpl.
    - by rewrite app_nil_r.
    - by rewrite IH, <- app_assoc. }
  assert (Hsil : forall (l : list Silence) acc,
            foldl (fun ps s =>
                     ps ++ [ {| startTime := silenceStart s;
                                endTime := silenceEnd s;
                                confidence := silenceConfidence s;
                                reason := Some "Audio silence"%string |} ])
                  acc l
            = acc ++ map (fun s =>
                            mkLoopPoint (silenceStart s) (silenceEnd s)
                                        (silenceConfidence s)
                                        (Some "Audio silence"%string)) l).
  { intros l. induction l as [|s l IH]; intros acc; simpl.
    - by rewrite app_nil_r.
    - by rewrite IH, <- app_assoc. }
  destruct potential as [lp|], silence as [ls|]; simpl;
    rewrite ?Hcopy, ?Hsil, ?app_nil_r; reflexivity.
Qed.

End ControllerFacts.

(** X27.  Without recommendations from Gemini,
    [determineRecommendedLoopPoints] returns at most five of the frame
    and silence points, in descending order of confidence, and no point
    it leaves out has a higher confidence than one it returns.  Gemini's
    recommendations, when there are any, are returned as they are,
    however many and in whatever order. *)
Theorem recommended_points_are_the_top_five
  (potential : option (list AnalysisController.LoopPoint))
  (silence : option (list AnalysisController.Silence)) :
  let all :=
    default [] potential
    ++ map (fun s =>
              AnalysisController.mkLoopPoint
                (AnalysisController.silenceStart s)
                (AnalysisController.silenceEnd s)
                (AnalysisController.silenceConfidence s)
                (Some "Audio silence"%string))
           (default [] silence) in
  let result :=
    AnalysisController.determineRecommendedLoopPoints potential silence None in
  length result = Nat.min 5 (length all)
  /\ StronglySorted
       (fun a b => AnalysisController.confidence b
                   <= AnalysisController.confidence a) result
  /\ (exists leftOut,
        result ++ leftOut ≡ₚ all
        /\ forall kept out, kept ∈ result -> out ∈ leftOut ->
             AnalysisController.confidence out
             <= AnalysisController.confidence kept)
  /\ forall recommended,
       AnalysisController.determineRecommendedLoopPoints potential silence
         (Some recommended) = recommended.
Proof.
  intros all result. unfold result. rewrite collected_points. fold all.
  pose proof (Array_sort_by_key AnalysisController.confidence all) as Hsorted.
  pose proof (Array_sort_perm AnalysisController.byConfidenceDescending all)
    as Hperm.
  change (fun a b => AnalysisController.confidence b
                     - AnalysisController.confidence a)
    with AnalysisController.byConfidenceDescending in Hsorted.
  set (sorted := Js.Array_sort AnalysisController.byConfidenceDescending all)
    in *.
  split; [|split; [|split]].
  - rewrite length_take, (Permutation_length Hperm). lia.
  - clear -Hsorted. revert Hsorted. generalize 5%nat.
    induction sorted as [|x l IH]; intros n Hs.
    + rewrite take_nil. constructor.
    + destruct n as [|n]; [constructor|]. cbn.
      apply StronglySorted_inv in Hs as [Hl Hx].
      constructor; [by apply IH|].
      rewrite Forall_forall in *. intros y Hy. apply Hx.
      by apply (elem_of_take_elem _ n).
  - exists (drop 5 sorted). split; [by rewrite take_drop|].
    intros kept out. by apply sorted_take_drop.
  - reflexivity.
Qed.

(** ** The media analyzer *)

Section MediaAnalyzerFacts.

Import MediaAnalyzer.

(** What precedes a dot does not count. *)
Lemma lastSegment_after_dot (base rest : string) : forall segment,
  Js.lastSegmentFrom segment
    (base +:+ String (Ascii.ascii_of_nat 46) rest)
  = Js.lastSegment rest.
Proof.
  induction base as [|c base IH]; intros segment.
  - reflexivity.
  - change (String c base +:+ String (Ascii.ascii_of_nat 46) rest)
      with (String c (base +:+ String (Ascii.ascii_of_nat 46) rest)).
    cbn [Js.lastSegmentFrom].
    destruct (Ascii.eqb c (Ascii.ascii_of_nat 46)); apply IH.
Qed.

End MediaAnalyzerFacts.

(** X28.  A file name that ends in a dot and one of the seven supported
    extensions gets a media type from its name, whatever precedes the
    dot; but [_isSupportedFormat] accepts that type only for [mp4],
    [webm], [wav] and [gif]: the types inferred for [mp3], [mov] and
    [avi] contain none of the supported format names and are
    rejected. *)
Theorem inferred_type_support (base extension : string) :
  extension ∈ MediaAnalyzer.supportedFormats ->
  exists type,
    MediaAnalyzer.assoc extension MediaAnalyzer.mimeTypeMap = Some type
    /\ MediaAnalyzer.getMediaTypeFromBlob EmptyString
         (Some (base +:+ "." +:+ extension))
       = MediaAnalyzer.Mime type
    /\ (MediaAnalyzer.isSupportedFormat type = true
        <-> extension ∈ ["mp4"; "webm"; "wav"; "gif"]%string).
Proof.
  intros Hext.
  assert (Hname : MediaAnalyzer.inferMediaTypeFromName
                    (Some (base +:+ "." +:+ extension))
                  = MediaAnalyzer.inferMediaTypeFromName
                      (Some ("." +:+ extension))).
  { unfold MediaAnalyzer.inferMediaTypeFromName.
    assert (Hlast : Js.lastSegment (base +:+ "." +:+ extension)
                    = Js.lastSegment ("." +:+ extension)).
    { unfold Js.lastSegment at 1.
      change ("." +:+ extension)
        with (String (Ascii.ascii_of_nat 46) extension).
      by rewrite lastSegment_after_dot. }
    rewrite Hlast. by destruct base. }
  cbn [MediaAnalyzer.getMediaTypeFromBlob]. rewrite Hname.
  apply list_elem_of_In in Hext. simpl in Hext.
  destruct Hext as [<-|[<-|[<-|[<-|[<-|[<-|[<-|[]]]]]]]];
    eexists; (split; [reflexivity|]); (split; [reflexivity|]);
    rewrite list_elem_of_In; vm_compute;
    (split; [intros Hs; first [discriminate Hs | tauto]
            |intros Hs; first [reflexivity | intuition discriminate]]).
Qed.

Lemma inferred_type_support_witness :
  exists type,
    MediaAnalyzer.getMediaTypeFromBlob EmptyString (Some "loop.final.mp3")
    = MediaAnalyzer.Mime type
    /\ MediaAnalyzer.isSupportedFormat type = false.
Proof.
  destruct (inferred_type_support "loop.final" "mp3") as (type & Ht & Hm & Hs).
  - apply list_elem_of_In. simpl. tauto.
  - exists type. split; [exact Hm|].
    injection Ht as <-. reflexivity.
Defined.

(** X29.  [_findPotentialLoopPoints] proposes three loops; for a
    positive duration, a missing or zero one counting as 10 seconds,
    each starts at or after 0, ends after it starts and ends within the
    duration, and the proposal of highest confidence is the middle half
    of the media. *)
Theorem potential_loop_points_inside (duration : option Q) :
  let d := Js.num_or duration 10 in
  0 < d ->
  let points := MediaAnalyzer.findPotentialLoopPoints duration in
  length points = 3%nat
  /\ (forall p, p ∈ points ->
        0 <= MediaAnalyzer.startTime p
        /\ MediaAnalyzer.startTime p < MediaAnalyzer.endTime p
        /\ MediaAnalyzer.endTime p <= d)
  /\ exists best,
       best ∈ points
       /\ (forall p, p ∈ points ->
             MediaAnalyzer.confidence p <= MediaAnalyzer.confidence best)
       /\ MediaAnalyzer.startTime best == d / 4
       /\ MediaAnalyzer.endTime best == 3 * d / 4.
Proof.
  intros d Hd points. unfold points, MediaAnalyzer.findPotentialLoopPoints.
  fold d. split; [done|]. split.
  - intros p Hp. apply list_elem_of_In in Hp. simpl in Hp.
    destruct Hp as [<-|[<-|[<-|[]]]]; simpl; repeat split; lra.
  - eexists (MediaAnalyzer.mkLoopPoint _ _ _).
    split; [right; left|]. split.
    + intros p Hp. apply list_elem_of_In in Hp. simpl in Hp.
      destruct Hp as [<-|[<-|[<-|[]]]]; simpl; discriminate.
    + simpl. split; field.
Qed.

Lemma potential_loop_points_inside_witness :
  let p := MediaAnalyzer.mkLoopPoint (10 * (4 # 10)) (10 * (9 # 10)) (65 # 100) in
  0 <= MediaAnalyzer.startTime p
  /\ MediaAnalyzer.startTime p < MediaAnalyzer.endTime p
  /\ MediaAnalyzer.endTime p <= 10.
Proof.
  intros p.
  refine (proj1 (proj2 (potential_loop_points_inside None _)) p _).
  - reflexivity.
  - apply list_elem_of_In. simpl. tauto.
Defined.
